(** * Control-plane core of the NSX-V3 common plugin

    A shallow embedding of the decision logic of
    [vmware_nsx/plugins/common_v3/plugin.py] (class [NsxPluginV3Base]):
    the router gateway transition planner, the VLAN segment allocator, the
    provider-network binding planner, the port validators with the port
    update rollback, and the native DHCP enable/disable saga.

    Python values are embedded with their truthiness, because the source
    relies on [and]/[or] returning one of their operands and on [if x:]
    accepting any value. *)

From stdpp Require Import base option list strings gmap sets.
From Stdlib Require Import ZArith Lia.

Local Open Scope string_scope.
Local Open Scope Z_scope.

(** ** Python values *)

Module Py.

(** Elements of the lists the plugin passes around: ids (strings) and
    small dictionaries (a fixed ip, an allowed address pair). *)
Inductive pyatom : Type :=
  | AStr (s : string)
  | ADict (d : gmap string string).

(** [PUnset] is the sentinel object [constants.ATTR_NOT_SPECIFIED]. *)
Inductive pyval : Type :=
  | PNone
  | PUnset
  | PBool (b : bool)
  | PInt (z : Z)
  | PStr (s : string)
  | PList (l : list pyatom).

#[export] Instance pyatom_eq_dec : EqDecision pyatom.
Proof. solve_decision. Defined.

#[export] Instance pyval_eq_dec : EqDecision pyval.
Proof. solve_decision. Defined.

(** [bool(v)] *)
Definition py_truthy (v : pyval) : bool :=
  match v with
  | PNone => false
  | PUnset => true
  | PBool b => b
  | PInt z => negb (Z.eqb z 0)
  | PStr s => negb (String.eqb s "")
  | PList l => match l with [] => false | _ => true end
  end.

(** [a and b], [a or b], [not a]: the first two return an operand. *)
Definition py_and (a b : pyval) : pyval := if py_truthy a then b else a.
Definition py_or (a b : pyval) : pyval := if py_truthy a then a else b.
Definition py_not (a : pyval) : pyval := PBool (negb (py_truthy a)).

(** [bool] is a subclass of [int]: [True == 1]. *)
Definition py_num (v : pyval) : option Z :=
  match v with
  | PBool b => Some (Z.b2z b)
  | PInt z => Some z
  | _ => None
  end.

(** [a == b] *)
Definition py_eq (a b : pyval) : bool :=
  match py_num a, py_num b with
  | Some x, Some y => Z.eqb x y
  | None, None => bool_decide (a = b)
  | _, _ => false
  end.

(** [a != b] *)
Definition py_ne (a b : pyval) : pyval := PBool (negb (py_eq a b)).

(** [a is True] *)
Definition py_is_true (a : pyval) : bool := bool_decide (a = PBool true).

(** [a is False] *)
Definition py_is_false (a : pyval) : bool := bool_decide (a = PBool false).

(** [neutron_lib.api.validators.is_attr_set] *)
Definition is_attr_set (a : pyval) : bool :=
  negb (bool_decide (a = PNone) || bool_decide (a = PUnset)).

(** [d.get(k)] and [k in d] on a dictionary with string keys. *)
Definition dict_get (d : gmap string pyval) (k : string) : pyval :=
  default PNone (d !! k).
Definition dict_has (d : gmap string pyval) (k : string) : bool :=
  bool_decide (is_Some (d !! k)).

End Py.
Export Py.

Declare Scope py_scope.
Delimit Scope py_scope with py.
Notation "a .&& b" := (py_and a b) (at level 40, left associativity) : py_scope.
Notation "a .|| b" := (py_or a b) (at level 50, left associativity) : py_scope.
Notation ".! a" := (py_not a) (at level 35, right associativity) : py_scope.
Notation "a .!= b" := (py_ne a b) (at level 37, no associativity) : py_scope.

(** ** Router gateway transition planner *)

Module Gateway.

(** The dictionary returned by [_get_update_router_gw_actions]; its keys
    are fixed, so it is a record with one field per key. *)
Record actions : Type := {
  remove_router_link_port : pyval;
  remove_snat_rules : pyval;
  remove_no_dnat_rules : pyval;
  revocate_bgp_announce : pyval;
  add_router_link_port : pyval;
  add_snat_rules : pyval;
  add_no_dnat_rules : pyval;
  bgp_announce : pyval;
  advertise_route_nat_flag : pyval;
  advertise_route_connected_flag : pyval;
  add_service_router : pyval;
  remove_service_router : pyval
}.

Local Open Scope py_scope.

Definition _get_update_router_gw_actions
    (org_tier0_uuid orgaddr org_enable_snat
     new_tier0_uuid newaddr new_enable_snat lb_exist fw_exist : pyval)
  : actions :=
  let real_new_enable_snat := new_enable_snat .&& newaddr in
  let real_org_enable_snat := org_enable_snat .&& orgaddr in
  {| remove_router_link_port :=
       org_tier0_uuid .&&
       (.! new_tier0_uuid .|| org_tier0_uuid .!= new_tier0_uuid);
     remove_snat_rules :=
       org_enable_snat .&& orgaddr .&&
       (newaddr .!= orgaddr .|| .! new_enable_snat);
     remove_no_dnat_rules :=
       orgaddr .&& org_enable_snat .&&
       (.! newaddr .|| .! new_enable_snat);
     revocate_bgp_announce :=
       .! org_enable_snat .&& org_tier0_uuid .&&
       (new_tier0_uuid .!= org_tier0_uuid .|| new_enable_snat);
     add_router_link_port :=
       new_tier0_uuid .&&
       (.! org_tier0_uuid .|| org_tier0_uuid .!= new_tier0_uuid);
     add_snat_rules :=
       new_enable_snat .&& newaddr .&&
       (newaddr .!= orgaddr .|| .! org_enable_snat);
     add_no_dnat_rules :=
       new_enable_snat .&& newaddr .&&
       (.! orgaddr .|| .! org_enable_snat);
     bgp_announce :=
       .! new_enable_snat .&& new_tier0_uuid .&&
       (new_tier0_uuid .!= org_tier0_uuid .|| .! org_enable_snat);
     advertise_route_nat_flag :=
       if py_truthy new_enable_snat then PBool true else PBool false;
     advertise_route_connected_flag :=
       if py_truthy (.! new_enable_snat) then PBool true else PBool false;
     add_service_router :=
       ((real_new_enable_snat .&& .! real_org_enable_snat) .||
        (real_new_enable_snat .&& .! orgaddr .&& newaddr))
       .&& .! (fw_exist .|| lb_exist);
     remove_service_router :=
       ((.! real_new_enable_snat .&& real_org_enable_snat) .||
        (orgaddr .&& .! newaddr))
       .&& .! (fw_exist .|| lb_exist) |}.

(** The callers test a flag with [if actions['...']:]. *)
Definition flag_set (v : pyval) : bool := py_truthy v.

(** All twelve entries of the dictionary, in the order they are set. *)
Definition all_flags (a : actions) : list pyval :=
  [ remove_router_link_port a; remove_snat_rules a; remove_no_dnat_rules a;
    revocate_bgp_announce a; add_router_link_port a; add_snat_rules a;
    add_no_dnat_rules a; bgp_announce a; advertise_route_nat_flag a;
    advertise_route_connected_flag a; add_service_router a;
    remove_service_router a ].

Definition every_flag_false (a : actions) : bool :=
  forallb (fun v => negb (flag_set v)) (all_flags a).

(** The Add/Remove pairs of the action set. *)
Inductive flag_pair : Type :=
  | RouterLinkPort | SnatRules | NoDnatRules | BgpAnnounce | ServiceRouter.

Definition add_flag (p : flag_pair) (a : actions) : pyval :=
  match p with
  | RouterLinkPort => add_router_link_port a
  | SnatRules => add_snat_rules a
  | NoDnatRules => add_no_dnat_rules a
  | BgpAnnounce => bgp_announce a
  | ServiceRouter => add_service_router a
  end.

Definition remove_flag (p : flag_pair) (a : actions) : pyval :=
  match p with
  | RouterLinkPort => remove_router_link_port a
  | SnatRules => remove_snat_rules a
  | NoDnatRules => remove_no_dnat_rules a
  | BgpAnnounce => revocate_bgp_announce a
  | ServiceRouter => remove_service_router a
  end.

End Gateway.

(** ** Exceptions and results *)

Module Exn.

(** The messages of [n_exc.InvalidInput] the modelled code builds. *)
Inductive err_msg : Type :=
  | SegIdWithTransparentVlan
  | SegIdWithNetType (net_type : string)
  | SegIdOutOfRange (seg_id : pyval)
  | PhysicalNetRequired (net_type : pyval)
  | LogicalSwitchMissing (physical_net : pyval)
  | LogicalSwitchInUse (physical_net : pyval)
  | NetTypeNotSupported (net_type : pyval)
  | NetTypeRequired
  | TransportZoneMissing (physical_net : pyval)
  | TransportZoneTypeRequired (tz_type : pyval) (net_type : pyval)
  | QosOnEnsNetwork
  | QosOnPort (device_owner : pyval)
  | ComputePortOnExternalNet
  | AdminStateDownRouterPort
  | VpnPortChange
  | LbPortFixedIp
  | LbPortAddressPairs
  | DeviceOwnerChange (orig new : pyval)
  | PortSecurityOnTrustedPort
  | MacLearningOnTrustedPort.

(** Exception classes; [ResourceNotFound] and [ServiceClusterUnavailable]
    are subclasses of nsxlib's [ManagerError], [DBDuplicateEntry] is a
    subclass of oslo.db's [DBError]. *)
Inductive exn : Type :=
  | InvalidInput (msg : err_msg)
  | NoNetworkAvailable
  | VlanIdInUse (vlan_id physical_network : pyval)
  | QoSOnExternalNet
  | NotImplementedError
  | TypeError
  | AttributeError
  | NsxPluginException
  | ManagerError
  | ResourceNotFound
  | ServiceClusterUnavailable
  | DBError
  | DBDuplicateEntry
  | SqlTimeoutError
  | OtherException (name : string).

#[export] Instance err_msg_eq_dec : EqDecision err_msg.
Proof. solve_decision. Defined.

#[export] Instance exn_eq_dec : EqDecision exn.
Proof. solve_decision. Defined.

(** [isinstance(e, nsx_lib_exc.ManagerError)] *)
Definition is_ManagerError (e : exn) : bool :=
  match e with
  | ManagerError | ResourceNotFound | ServiceClusterUnavailable => true
  | _ => false
  end.

(** [isinstance(e, nsx_lib_exc.ResourceNotFound)] *)
Definition is_ResourceNotFound (e : exn) : bool :=
  match e with ResourceNotFound => true | _ => false end.

(** [isinstance(e, db_exc.DBError)] *)
Definition is_DBError (e : exn) : bool :=
  match e with DBError | DBDuplicateEntry => true | _ => false end.

(** [isinstance(e, (db_exc.DBError, sql_exc.TimeoutError))] *)
Definition is_DBError_or_Timeout (e : exn) : bool :=
  match e with
  | DBError | DBDuplicateEntry | SqlTimeoutError => true
  | _ => false
  end.

Inductive result (A : Type) : Type :=
  | Ok (a : A)
  | Raise (e : exn).
Arguments Ok {A} a.
Arguments Raise {A} e.

#[export] Instance result_ret : MRet result := fun A a => Ok a.
#[export] Instance result_bind : MBind result :=
  fun A B k r =>
    match r with
    | Ok a => k a
    | Raise e => Raise e
    end.

(** [try: body  except <handles>: handler] *)
Definition try_except {A} (body : result A) (handles : exn -> bool)
    (handler : exn -> result A) : result A :=
  match body with
  | Ok a => Ok a
  | Raise e => if handles e then handler e else Raise e
  end.

End Exn.
Export Exn.

(** ** Segment allocator and provider-network binding planner *)

Module Provider.

(** Attribute names and constants of neutron_lib, vmware_nsx and
    vmware_nsxlib the code refers to. *)
Definition NETWORK_TYPE := "provider:network_type".
Definition PHYSICAL_NETWORK := "provider:physical_network".
Definition SEGMENTATION_ID := "provider:segmentation_id".
Definition QOS_POLICY_ID := "qos_policy_id".
Definition PORTSECURITY := "port_security_enabled".
Definition MIN_VLAN_TAG : Z := 1.
Definition MAX_VLAN_TAG : Z := 4094.
Definition FLAT := "flat".
Definition VLAN := "vlan".
Definition GENEVE := "geneve".
Definition NSX_NETWORK := "nsx-net".
Definition TRANSPORT_TYPE_VLAN := "VLAN".
Definition TRANSPORT_TYPE_OVERLAY := "OVERLAY".
Definition HOST_SWITCH_MODE_STANDARD := "STANDARD".
Definition HOST_SWITCH_MODE_ENS := "ENS".

(** A row of the network binding table (NetworkBinding of the
    specification); both [phy_uuid] and [vlan_id] are nullable. *)
Record NetworkBinding : Type := {
  b_network_id : string;
  b_binding_type : string;
  b_phy_uuid : option string;
  b_vlan_id : option Z
}.

Definition py_of_phy (o : option string) : pyval :=
  match o with Some s => PStr s | None => PNone end.
Definition py_of_vlan (o : option Z) : pyval :=
  match o with Some z => PInt z | None => PNone end.

(** Modelled from the spec: [nsx_db.get_network_bindings_by_phy_uuid],
    the Binding Store query of the bindings by physical network. *)
Definition get_network_bindings_by_phy_uuid
    (session : list NetworkBinding) (physical_network : pyval)
  : list NetworkBinding :=
  filter (fun b => py_eq (py_of_phy (b_phy_uuid b)) physical_network = true)
         session.

(** Modelled from the spec:
    [nsx_db.get_network_bindings_by_vlanid_and_physical_net], the Binding
    Store query of the bindings by (physical network, tag). *)
Definition get_network_bindings_by_vlanid_and_physical_net
    (session : list NetworkBinding) (vlan physical_network : pyval)
  : list NetworkBinding :=
  filter (fun b => py_eq (py_of_vlan (b_vlan_id b)) vlan
                   && py_eq (py_of_phy (b_phy_uuid b)) physical_network = true)
         session.

(** The segmentation ids bound to a physical network in the Binding
    Store: the used set of the specification. *)
Definition bound_on (session : list NetworkBinding)
    (physical_network : pyval) (tag : Z) : Prop :=
  ∃ b, b ∈ session
       ∧ py_eq (py_of_phy (b_phy_uuid b)) physical_network = true
       ∧ b_vlan_id b = Some tag.

Definition used_ids (session : list NetworkBinding)
    (physical_network : pyval) : gset Z :=
  list_to_set
    (omap b_vlan_id (get_network_bindings_by_phy_uuid session physical_network)).

(** [set(moves.range(vlan_min, vlan_max + 1))] *)
Definition range_set (vlan_min vlan_max : Z) : gset Z :=
  list_to_set (seqZ vlan_min (vlan_max + 1 - vlan_min)).

(** [a ^ b] on sets *)
Definition sym_diff (a b : gset Z) : gset Z := (a ∖ b) ∪ (b ∖ a).

(** [plugin_utils.is_valid_vlan_tag]: [MIN_VLAN_TAG <= vlan <= MAX_VLAN_TAG];
    comparing an int with a string or a list raises [TypeError]. *)
Definition is_valid_vlan_tag (vlan : pyval) : result bool :=
  match py_num vlan with
  | Some z => Ok ((MIN_VLAN_TAG <=? z) && (z <=? MAX_VLAN_TAG))%Z
  | None => Raise TypeError
  end.

(** The backend transport-zone client [nsxlib_tz]. *)
Record tz_client : Type := {
  get_transport_type : pyval -> result pyval;
  get_host_switch_mode : pyval -> result pyval
}.

(** The dictionary [_validate_provider_create] returns. *)
Record resolved : Type := {
  is_provider_net : bool;
  net_type : pyval;
  physical_net : pyval;
  vlan_id : pyval;
  switch_mode : pyval
}.

(** The local variables of [_validate_provider_create] that its branches
    assign, together with the request dictionary, which
    [_generate_segment_id] updates in place. *)
Record locals : Type := {
  l_net_type : pyval;
  l_physical_net : pyval;
  l_vlan_id : pyval;
  l_err_msg : option err_msg;
  l_tz_type : pyval;
  l_switch_mode : pyval;
  l_network_data : gmap string pyval
}.

Definition with_net_type (v : pyval) (l : locals) : locals :=
  {| l_net_type := v; l_physical_net := l_physical_net l;
     l_vlan_id := l_vlan_id l; l_err_msg := l_err_msg l;
     l_tz_type := l_tz_type l; l_switch_mode := l_switch_mode l;
     l_network_data := l_network_data l |}.
Definition with_physical_net (v : pyval) (l : locals) : locals :=
  {| l_net_type := l_net_type l; l_physical_net := v;
     l_vlan_id := l_vlan_id l; l_err_msg := l_err_msg l;
     l_tz_type := l_tz_type l; l_switch_mode := l_switch_mode l;
     l_network_data := l_network_data l |}.
Definition with_vlan_id (v : pyval) (l : locals) : locals :=
  {| l_net_type := l_net_type l; l_physical_net := l_physical_net l;
     l_vlan_id := v; l_err_msg := l_err_msg l;
     l_tz_type := l_tz_type l; l_switch_mode := l_switch_mode l;
     l_network_data := l_network_data l |}.
Definition with_err_msg (m : err_msg) (l : locals) : locals :=
  {| l_net_type := l_net_type l; l_physical_net := l_physical_net l;
     l_vlan_id := l_vlan_id l; l_err_msg := Some m;
     l_tz_type := l_tz_type l; l_switch_mode := l_switch_mode l;
     l_network_data := l_network_data l |}.
Definition with_tz_type (v : pyval) (l : locals) : locals :=
  {| l_net_type := l_net_type l; l_physical_net := l_physical_net l;
     l_vlan_id := l_vlan_id l; l_err_msg := l_err_msg l;
     l_tz_type := v; l_switch_mode := l_switch_mode l;
     l_network_data := l_network_data l |}.
Definition with_switch_mode (v : pyval) (l : locals) : locals :=
  {| l_net_type := l_net_type l; l_physical_net := l_physical_net l;
     l_vlan_id := l_vlan_id l; l_err_msg := l_err_msg l;
     l_tz_type := l_tz_type l; l_switch_mode := v;
     l_network_data := l_network_data l |}.
Definition with_network_data (d : gmap string pyval) (l : locals) : locals :=
  {| l_net_type := l_net_type l; l_physical_net := l_physical_net l;
     l_vlan_id := l_vlan_id l; l_err_msg := l_err_msg l;
     l_tz_type := l_tz_type l; l_switch_mode := l_switch_mode l;
     l_network_data := d |}.

Definition is_none (v : pyval) : bool := bool_decide (v = PNone).

Definition nonempty {A} (l : list A) : bool :=
  match l with [] => false | _ => true end.

(** [_assert_on_ens_with_qos] *)
Definition _assert_on_ens_with_qos (net_data : gmap string pyval)
  : result unit :=
  let qos_id := dict_get net_data QOS_POLICY_ID in
  if is_attr_set qos_id then Raise (InvalidInput QosOnEnsNetwork)
  else Ok tt.

Section Planner.

(** [self._network_vlans], parsed from the [network_vlan_ranges] option. *)
Variable _network_vlans : gmap string (list (Z * Z)).

(** The order in which [list(s)] enumerates a set is left to the
    interpreter; the model takes it as a parameter. *)
Variable list_of_set : gset Z -> list Z.

(** [self._network_vlans.get(physical_network, [])] *)
Definition vlan_ranges_of (physical_network : pyval) : list (Z * Z) :=
  match physical_network with
  | PStr s => default [] (_network_vlans !! s)
  | _ => []
  end.

(** The candidate ids: the union of the configured ranges, or the whole
    legal range when none is configured. *)
Definition candidate_ids (physical_network : pyval) : gset Z :=
  match vlan_ranges_of physical_network with
  | [] => range_set MIN_VLAN_TAG MAX_VLAN_TAG
  | vlan_ranges =>
      foldl (fun vlan_ids '(vlan_min, vlan_max) =>
               vlan_ids ∪ range_set vlan_min vlan_max)
            ∅ vlan_ranges
  end.

(** What the specification says of a tag: it lies inside one of the
    ranges configured for the physical network, or inside the legal range
    when none is configured.  It is stated on the configuration itself,
    not on the lookup and the sets of the allocator. *)
Definition in_configured_ranges (physical_network : pyval) (tag : Z) : Prop :=
  let configured :=
    match physical_network with
    | PStr name => default [] (_network_vlans !! name)
    | _ => []
    end in
  if bool_decide (configured = [])
  then MIN_VLAN_TAG ≤ tag ≤ MAX_VLAN_TAG
  else ∃ vlan_min vlan_max,
         (vlan_min, vlan_max) ∈ configured ∧ vlan_min ≤ tag ≤ vlan_max.

(** Returns the allocated tag and the updated [net_data]. *)
Definition _generate_segment_id (session : list NetworkBinding)
    (physical_network : pyval) (net_data : gmap string pyval)
  : result (pyval * gmap string pyval) :=
  let bindings := get_network_bindings_by_phy_uuid session physical_network in
  let vlan_ids := candidate_ids physical_network in
  let used_ids_in_range : gset Z :=
    list_to_set
      (omap (fun b => match b_vlan_id b with
                      | Some v => if decide (v ∈ vlan_ids) then Some v else None
                      | None => None
                      end) bindings) in
  let free_ids := list_of_set (sym_diff vlan_ids used_ids_in_range) in
  match free_ids with
  | [] => Raise NoNetworkAvailable
  | id0 :: _ =>
      Ok (PInt id0, <[SEGMENTATION_ID := PInt id0]> net_data)
  end.

(** Plugin hooks ("should be implemented by each plugin") and
    configuration read by the planner. *)
Variable _get_nsx_net_tz_id : pyval -> pyval.
Variable _allow_ens_networks : bool.
(** [_validate_ens_net_portsecurity] validates the request and may update
    its port security attribute: it returns the new value, if any. *)
Variable _validate_ens_net_portsecurity :
  gmap string pyval -> result (option pyval).

(** The [if validators.is_attr_set(net_type): ... elif is_provider_net:
    ... else: ...] statement: one branch per network type. *)
Definition plan_by_net_type (session : list NetworkBinding)
    (default_vlan_tz_uuid : pyval) (nsxlib_tz : tz_client)
    (nsxlib_network_get : pyval -> result pyval) (transparent_vlan : bool)
    (is_provider : bool) (l : locals) : result locals :=
  let net_type := l_net_type l in
  let physical_net := l_physical_net l in
  let vlan_id := l_vlan_id l in
  if is_attr_set net_type then
    if py_eq net_type (PStr FLAT) then
      if negb (is_none vlan_id) then
        Ok (with_err_msg (SegIdWithNetType FLAT) l)
      else
        let l := if negb transparent_vlan
                 then with_vlan_id (PStr "0") l else l in
        Ok (if is_none physical_net
            then with_physical_net default_vlan_tz_uuid l else l)
    else if py_eq net_type (PStr VLAN) then
      let l := if is_none physical_net
               then with_physical_net default_vlan_tz_uuid l else l in
      let physical_net := l_physical_net l in
      if negb transparent_vlan then
        if negb (py_truthy vlan_id) then
          '(tag, net_data) ←
            _generate_segment_id session physical_net (l_network_data l);
          Ok (with_vlan_id tag (with_network_data net_data l))
        else
          valid ← is_valid_vlan_tag vlan_id;
          if negb valid then
            Ok (with_err_msg (SegIdOutOfRange vlan_id) l)
          else
            let bindings :=
              get_network_bindings_by_vlanid_and_physical_net
                session vlan_id physical_net in
            if nonempty bindings
            then Raise (VlanIdInUse vlan_id physical_net)
            else Ok l
      else Ok l
    else if py_eq net_type (PStr GENEVE) then
      let l := if py_truthy vlan_id
               then with_err_msg (SegIdWithNetType GENEVE) l else l in
      Ok (with_tz_type (PStr TRANSPORT_TYPE_OVERLAY) l)
    else if py_eq net_type (PStr NSX_NETWORK) then
      if negb (py_truthy physical_net) then
        Ok (with_err_msg (PhysicalNetRequired net_type) l)
      else
        l ← try_except
              (nsx_net ← nsxlib_network_get physical_net;
               let tz_id := _get_nsx_net_tz_id nsx_net in
               mode ← get_host_switch_mode nsxlib_tz tz_id;
               Ok (with_switch_mode mode l))
              is_ResourceNotFound
              (fun _ => Ok (with_err_msg (LogicalSwitchMissing physical_net) l));
        let bindings :=
          get_network_bindings_by_vlanid_and_physical_net
            session (PInt 0) physical_net in
        Ok (if nonempty bindings
            then with_err_msg (LogicalSwitchInUse physical_net) l else l)
    else
      Ok (with_err_msg (NetTypeNotSupported net_type) l)
  else if is_provider then
    Ok (with_err_msg NetTypeRequired l)
  else
    Ok (with_net_type PNone l).

(** The transport zone check that follows: its existence, its type and
    its host switch mode. *)
Definition check_transport_zone (nsxlib_tz : tz_client) (is_provider : bool)
    (l : locals) : result locals :=
  let physical_net := l_physical_net l in
  if negb (bool_decide (is_Some (l_err_msg l))) && py_truthy physical_net
     && negb (py_eq (l_net_type l) (PStr NSX_NETWORK)) then
    l ← (if is_provider then
           match get_transport_type nsxlib_tz physical_net with
           | Raise e =>
               if is_ResourceNotFound e
               then Ok (with_err_msg (TransportZoneMissing physical_net) l)
               else Raise e
           | Ok backend_type =>
               Ok (if negb (py_eq backend_type (l_tz_type l))
                   then with_err_msg
                          (TransportZoneTypeRequired (l_tz_type l)
                                                     (l_net_type l)) l
                   else l)
           end
         else Ok l);
    if negb (bool_decide (is_Some (l_err_msg l))) then
      mode ← get_host_switch_mode nsxlib_tz physical_net;
      Ok (with_switch_mode mode l)
    else Ok l
  else Ok l.

(** The end of [_validate_provider_create], from the default to the
    overlay transport zone up to the returned dictionary. *)
Definition finish_provider_create (default_overlay_tz_uuid : pyval)
    (nsxlib_tz : tz_client) (is_provider : bool) (l : locals)
  : result (resolved * gmap string pyval) :=
  let l := if is_none (l_physical_net l)
           then with_physical_net default_overlay_tz_uuid l else l in
  l ← check_transport_zone nsxlib_tz is_provider l;
  match l_err_msg l with
  | Some err_msg => Raise (InvalidInput err_msg)
  | None =>
      network_data ←
        (if py_eq (l_switch_mode l) (PStr HOST_SWITCH_MODE_ENS) then
           if negb _allow_ens_networks then Raise NotImplementedError
           else
             _assert_on_ens_with_qos (l_network_data l);;
             psec ← _validate_ens_net_portsecurity (l_network_data l);
             Ok (match psec with
                 | Some v => <[PORTSECURITY := v]> (l_network_data l)
                 | None => l_network_data l
                 end)
         else Ok (l_network_data l));
      Ok ({| is_provider_net := is_provider;
             net_type := l_net_type l;
             physical_net := l_physical_net l;
             vlan_id := l_vlan_id l;
             switch_mode := l_switch_mode l |}, network_data)
  end.

(** Returns the resolved binding and the request dictionary as the call
    leaves it. *)
Definition _validate_provider_create (session : list NetworkBinding)
    (network_data : gmap string pyval)
    (default_vlan_tz_uuid default_overlay_tz_uuid : pyval)
    (nsxlib_tz : tz_client) (nsxlib_network_get : pyval -> result pyval)
    (transparent_vlan : bool)
  : result (resolved * gmap string pyval) :=
  let is_provider :=
    existsb (fun f => is_attr_set (dict_get network_data f))
            [NETWORK_TYPE; PHYSICAL_NETWORK; SEGMENTATION_ID] in
  let physical_net := dict_get network_data PHYSICAL_NETWORK in
  let physical_net :=
    if negb (is_attr_set physical_net) then PNone else physical_net in
  let vlan_id := dict_get network_data SEGMENTATION_ID in
  let vlan_id := if negb (is_attr_set vlan_id) then PNone else vlan_id in
  if py_truthy vlan_id && transparent_vlan then
    Raise (InvalidInput SegIdWithTransparentVlan)
  else
    l ← plan_by_net_type session default_vlan_tz_uuid nsxlib_tz
          nsxlib_network_get transparent_vlan is_provider
          {| l_net_type := dict_get network_data NETWORK_TYPE;
             l_physical_net := physical_net;
             l_vlan_id := vlan_id;
             l_err_msg := None;
             l_tz_type := PStr TRANSPORT_TYPE_VLAN;
             l_switch_mode := PStr HOST_SWITCH_MODE_STANDARD;
             l_network_data := network_data |};
    finish_provider_create default_overlay_tz_uuid nsxlib_tz is_provider l.

End Planner.

(** The physical network a vlan request resolves to before the store is
    consulted: the requested one, else the default VLAN transport zone. *)
Definition requested_physical_net (network_data : gmap string pyval)
    (default_vlan_tz_uuid : pyval) : pyval :=
  let physical_net := dict_get network_data PHYSICAL_NETWORK in
  if is_attr_set physical_net then physical_net else default_vlan_tz_uuid.

(** A vlan-type request: any request dictionary with the network type
    set to vlan and the segmentation id entry set as given ([None]: the
    key is missing). *)
Definition vlan_request (network_data : gmap string pyval)
    (segmentation_id : option pyval) : gmap string pyval :=
  <[NETWORK_TYPE := PStr VLAN]>
    (match segmentation_id with
     | Some v => <[SEGMENTATION_ID := v]> network_data
     | None => delete SEGMENTATION_ID network_data
     end).

(** The locals of a vlan request once the physical network is resolved. *)
Definition vlan_locals (physical vlan : pyval) (data : gmap string pyval)
  : locals :=
  {| l_net_type := PStr VLAN; l_physical_net := physical; l_vlan_id := vlan;
     l_err_msg := None; l_tz_type := PStr TRANSPORT_TYPE_VLAN;
     l_switch_mode := PStr HOST_SWITCH_MODE_STANDARD;
     l_network_data := data |}.

(** Sample data: the physical network of the specification's scenario A
    and a backend whose transport zones are all standard VLAN zones. *)
Definition pnet1_ranges : gmap string (list (Z * Z)) :=
  {[ "pnet1" := [(100, 102)] ]}.

Definition pnet1_binding (net : string) (tag : Z) : NetworkBinding :=
  {| b_network_id := net; b_binding_type := VLAN;
     b_phy_uuid := Some "pnet1"; b_vlan_id := Some tag |}.

Definition vlan_standard_tz : tz_client :=
  {| get_transport_type := fun _ => Ok (PStr TRANSPORT_TYPE_VLAN);
     get_host_switch_mode := fun _ => Ok (PStr HOST_SWITCH_MODE_STANDARD) |}.

(** [_validate_provider_create] of a plugin configured with the ranges of
    scenario A, the default VLAN transport zone "pnet1", the default
    overlay transport zone "tz-overlay" and sets enumerated by
    [elements]. *)
Definition sample_validate (session : list NetworkBinding)
    (network_data : gmap string pyval) (transparent_vlan : bool)
  : result (resolved * gmap string pyval) :=
  _validate_provider_create pnet1_ranges elements (fun nsx_net => PNone)
    false (fun _ => Ok None) session network_data
    (PStr "pnet1") (PStr "tz-overlay") vlan_standard_tz
    (fun _ => Raise ResourceNotFound) transparent_vlan.

End Provider.

(** ** Port validation and port update rollback *)

Module Port.

(** Attribute names and device owners of neutron_lib and vmware_nsx. *)
Definition PORTSECURITY := "port_security_enabled".
Definition MAC_LEARNING := "mac_learning_enabled".
Definition QOS_POLICY_ID := "qos_policy_id".
Definition ADDRESS_PAIRS := "allowed_address_pairs".
Definition SECURITYGROUPS := "security_groups".
Definition DEVICE_OWNER_ROUTER_INTF := "network:router_interface".
Definition DEVICE_OWNER_ROUTER_GW := "network:router_gateway".
Definition DEVICE_OWNER_DHCP := "network:dhcp".
Definition DEVICE_OWNER_LOADBALANCERV2 := "neutron:LOADBALANCERV2".
Definition DEVICE_OWNER_COMPUTE_PREFIX := "compute:".
Definition DEVICE_OWNER_NETWORK_PREFIX := "network:".

(** [v.startswith(prefix)]; only strings have the method. *)
Definition py_startswith (v : pyval) (prefix : string) : result bool :=
  match v with
  | PStr s => Ok (String.prefix prefix s)
  | _ => Raise AttributeError
  end.

(** [neutron_lib.utils.net.is_port_trusted]: the device owner starts with
    the network prefix (router, DHCP and service ports). *)
Definition neutron_is_port_trusted (device_owner : pyval) : bool :=
  match device_owner with
  | PStr s => String.prefix DEVICE_OWNER_NETWORK_PREFIX s
  | _ => false
  end.

(** [_assert_on_illegal_port_with_qos] *)
Definition _assert_on_illegal_port_with_qos (device_owner : pyval)
  : result unit :=
  if py_eq device_owner (PStr DEVICE_OWNER_ROUTER_INTF)
     || py_eq device_owner (PStr DEVICE_OWNER_DHCP)
  then Raise (InvalidInput (QosOnPort device_owner))
  else Ok tt.

(** [_assert_on_external_net_with_compute] *)
Definition _assert_on_external_net_with_compute
    (port_data : gmap string pyval) : result unit :=
  let device_owner := dict_get port_data "device_owner" in
  if negb (bool_decide (device_owner = PNone)) then
    is_compute ← py_startswith device_owner DEVICE_OWNER_COMPUTE_PREFIX;
    if (is_compute : bool) then Raise (InvalidInput ComputePortOnExternalNet)
    else Ok tt
  else Ok tt.

(** [_assert_on_port_admin_state] *)
Definition _assert_on_port_admin_state (port_data : gmap string pyval)
    (device_owner : pyval) : result unit :=
  if py_eq device_owner (PStr DEVICE_OWNER_ROUTER_INTF)
     || py_eq device_owner (PStr DEVICE_OWNER_ROUTER_GW) then
    if py_is_false (dict_get port_data "admin_state_up")
    then Raise (InvalidInput AdminStateDownRouterPort)
    else Ok tt
  else Ok tt.

(** [_assert_on_lb_port_fixed_ip_change] *)
Definition _assert_on_lb_port_fixed_ip_change
    (port_data : gmap string pyval) (orig_dev_own : pyval) : result unit :=
  if py_eq orig_dev_own (PStr DEVICE_OWNER_LOADBALANCERV2) then
    if dict_has port_data "fixed_ips"
       && py_truthy (dict_get port_data "fixed_ips")
    then Raise (InvalidInput LbPortFixedIp)
    else Ok tt
  else Ok tt.

(** [_assert_on_device_owner_change] *)
Definition _assert_on_device_owner_change
    (port_data : gmap string pyval) (orig_dev_own : pyval) : result unit :=
  (if py_eq orig_dev_own (PStr DEVICE_OWNER_LOADBALANCERV2) then
     if dict_has port_data ADDRESS_PAIRS
        && py_truthy (dict_get port_data ADDRESS_PAIRS)
     then Raise (InvalidInput LbPortAddressPairs)
     else Ok tt
   else Ok tt);;
  if negb (dict_has port_data "device_owner") then Ok tt
  else
    let new_dev_own := dict_get port_data "device_owner" in
    if py_eq new_dev_own orig_dev_own then Ok tt
    else
      let err_msg := DeviceOwnerChange orig_dev_own new_dev_own in
      orig_compute ← py_startswith orig_dev_own DEVICE_OWNER_COMPUTE_PREFIX;
      nova_to_neutron ←
        (if (orig_compute : bool)
         then py_startswith new_dev_own DEVICE_OWNER_NETWORK_PREFIX
         else Ok false);
      exchanged ←
        (if (nova_to_neutron : bool) then Ok true
         else
           orig_network ←
             py_startswith orig_dev_own DEVICE_OWNER_NETWORK_PREFIX;
           if (orig_network : bool)
           then py_startswith new_dev_own DEVICE_OWNER_COMPUTE_PREFIX
           else Ok false);
      if (exchanged : bool) then Raise (InvalidInput err_msg)
      else if py_eq orig_dev_own (PStr DEVICE_OWNER_DHCP)
      then Raise (InvalidInput err_msg)
      else Ok tt.

Section Validation.

(** Collaborators of the validators: neutron_lib's trust test, the
    network table, the QoS service, the per-port IP limit of the plugin
    base class and the VPN port owner constant. *)
Variable is_port_trusted : pyval -> bool.
Variable _network_is_external : pyval -> bool.
Variable _validate_qos_policy_id : pyval -> result unit.
Variable _validate_max_ips_per_port : pyval -> pyval -> result unit.
Variable VPN_PORT_OWNER : string.

(** [_assert_on_port_sec_change] *)
Definition _assert_on_port_sec_change (port_data : gmap string pyval)
    (device_owner : pyval) : result unit :=
  if is_port_trusted device_owner then
    if py_is_true (dict_get port_data PORTSECURITY) then
      Raise (InvalidInput PortSecurityOnTrustedPort)
    else
      let mac_learning := dict_get port_data MAC_LEARNING in
      if is_attr_set mac_learning && py_is_true mac_learning then
        Raise (InvalidInput MacLearningOnTrustedPort)
      else Ok tt
  else Ok tt.

(** [_assert_on_vpn_port_change] *)
Definition _assert_on_vpn_port_change (port_data : gmap string pyval)
  : result unit :=
  if py_eq (dict_get port_data "device_owner") (PStr VPN_PORT_OWNER)
  then Raise (InvalidInput VpnPortChange)
  else Ok tt.

(** [port_data.get('fixed_ips', [])] *)
Definition fixed_ips_of (port_data : gmap string pyval) : pyval :=
  default (PList []) (port_data !! "fixed_ips").

(** [_validate_create_port] *)
Definition _validate_create_port (port_data : gmap string pyval)
  : result unit :=
  _validate_max_ips_per_port (fixed_ips_of port_data)
                             (dict_get port_data "device_owner");;
  let is_external_net :=
    _network_is_external (dict_get port_data "network_id") in
  let qos_selected := is_attr_set (dict_get port_data QOS_POLICY_ID) in
  let device_owner := dict_get port_data "device_owner" in
  (if qos_selected then
     _validate_qos_policy_id (dict_get port_data QOS_POLICY_ID);;
     _assert_on_illegal_port_with_qos device_owner;;
     if is_external_net then Raise QoSOnExternalNet else Ok tt
   else Ok tt);;
  (if is_external_net
   then _assert_on_external_net_with_compute port_data else Ok tt);;
  _assert_on_port_admin_state port_data device_owner.

(** The device owner [_validate_update_port] validates against: the
    requested one when the request has one, else the port's own. *)
Definition effective_device_owner
    (original_port port_data : gmap string pyval) : pyval :=
  if dict_has port_data "device_owner"
  then dict_get port_data "device_owner"
  else dict_get original_port "device_owner".

(** [_validate_update_port] *)
Definition _validate_update_port (id : string)
    (original_port port_data : gmap string pyval) : result unit :=
  let qos_selected := is_attr_set (dict_get port_data QOS_POLICY_ID) in
  let is_external_net :=
    _network_is_external (dict_get original_port "network_id") in
  let device_owner := effective_device_owner original_port port_data in
  (if qos_selected then
     _validate_qos_policy_id (dict_get port_data QOS_POLICY_ID);;
     (if is_external_net then Raise QoSOnExternalNet else Ok tt);;
     _assert_on_illegal_port_with_qos device_owner
   else Ok tt);;
  (if is_external_net
   then _assert_on_external_net_with_compute port_data else Ok tt);;
  let orig_dev_owner := dict_get original_port "device_owner" in
  _assert_on_device_owner_change port_data orig_dev_owner;;
  _assert_on_port_admin_state port_data device_owner;;
  _assert_on_port_sec_change port_data device_owner;;
  _validate_max_ips_per_port (fixed_ips_of port_data) device_owner;;
  _assert_on_vpn_port_change original_port;;
  _assert_on_lb_port_fixed_ip_change port_data orig_dev_owner.

End Validation.

(** Sample collaborators: an internal network, a valid QoS policy, no
    limit on the IPs of a port. *)
Definition sample_validate_create_port (port_data : gmap string pyval)
  : result unit :=
  _validate_create_port (fun _ => false) (fun _ => Ok tt)
    (fun _ _ => Ok tt) port_data.

Definition sample_validate_update_port
    (original_port port_data : gmap string pyval) : result unit :=
  _validate_update_port neutron_is_port_trusted (fun _ => false)
    (fun _ => Ok tt) (fun _ _ => Ok tt) "vpnservice" "port-1"
    original_port port_data.

(** A request for a DHCP port with port security switched on. *)
Definition trusted_port_with_port_security : gmap string pyval :=
  {[ "network_id" := PStr "net-1";
     "device_owner" := PStr DEVICE_OWNER_DHCP;
     PORTSECURITY := PBool true ]}.

End Port.

(** ** Rollback of a port update *)

Module Rollback.
Import Port.

(** The part of the neutron store a port update touches: the port table,
    the allowed address pair rows and the security group binding rows,
    all keyed by port id. *)
Record port_store : Type := {
  ps_ports : gmap string (gmap string pyval);
  ps_address_pairs : gmap string (list pyatom);
  ps_security_groups : gmap string (list pyatom)
}.

(** The elements of a list value ([None] has none). *)
Definition atoms (v : pyval) : list pyatom :=
  match v with PList l => l | _ => [] end.

(** [port['id']] *)
Definition port_id_of (port : gmap string pyval) : string :=
  match dict_get port "id" with PStr s => s | _ => "" end.


(** Modelled from the spec: [_delete_allowed_address_pairs] of the
    address pair mixin, which deletes the rows of the port. *)
Definition _delete_allowed_address_pairs (st : port_store)
    (port_id : string) : port_store :=
  {| ps_ports := ps_ports st;
     ps_address_pairs := delete port_id (ps_address_pairs st);
     ps_security_groups := ps_security_groups st |}.

(** Modelled from the spec: [_process_create_allowed_address_pairs] of
    the address pair mixin, which adds one row per pair to the port
    [port['id']]. *)
Definition _process_create_allowed_address_pairs (st : port_store)
    (port : gmap string pyval) (allowed_address_pairs : pyval) : port_store :=
  let id := port_id_of port in
  {| ps_ports := ps_ports st;
     ps_address_pairs :=
       <[id := (default [] (ps_address_pairs st !! id)
                ++ atoms allowed_address_pairs)%list]> (ps_address_pairs st);
     ps_security_groups := ps_security_groups st |}.








End Rollback.

(** ** Native DHCP saga *)

Module Dhcp.
Local Open Scope nat_scope.

Definition DEVICE_OWNER_DHCP := "network:dhcp".

(** Identifiers (UUIDs in the source) are numbers, so that a collaborator
    can hand out one that is not in use. *)
Definition fresh (ids : list nat) : nat := S (max_list ids).

(** A neutron port, as far as the saga looks at it. *)
Record port : Type := {
  port_id : nat;
  network_id : nat;
  device_owner : string;
  subnet_ids : list nat
}.

(** A row of the neutron port to backend port mapping table. *)
Record port_mapping : Type := {
  pm_neutron_id : nat;
  pm_nsx_switch_id : nat;
  pm_nsx_port_id : nat
}.

(** A row of the network to DHCP server binding table (DhcpBinding of the
    specification). *)
Record service_binding : Type := {
  sb_network_id : nat;
  sb_port_id : option nat;
  sb_nsx_service_id : nat
}.

(** A backend logical port with its DHCP attachment. *)
Record logical_port : Type := {
  lp_id : nat;
  lp_switch_id : nat;
  lp_attachment_id : nat
}.

(** The local store and the backend inventory. *)
Record world : Type := {
  w_ports : list port;
  w_port_mappings : list port_mapping;
  w_service_bindings : list service_binding;
  w_dhcp_bindings : list (nat * nat);
  w_dhcp_servers : list nat;
  w_logical_ports : list logical_port
}.

(** The collaborator calls of the saga that can fail. *)
Inductive call : Type :=
  | CreatePort (network subnet : nat)
  | DeletePort (port : nat)
  | PreprocessSecurity (port : nat)
  | BuildDhcpServerConfig (network subnet port : nat)
  | BuildPortName (port : nat)
  | DhcpServerCreate (network : nat)
  | DhcpServerDelete (server : nat)
  | LogicalPortCreate (switch server : nat)
  | LogicalPortDelete (nsx_port : nat)
  | AddPortMapping (port switch nsx_port : nat)
  | AddServiceBinding (network port server : nat)
  | DeleteServiceBinding (network : nat)
  | DeleteDhcpBindings (server : nat)
  | AddDhcpBinding (port : nat).

(** The [LOG.error] lines of the saga. *)
Inductive log_msg : Type :=
  | NoBackendNetworkId (network : nat)
  | UnableToCreateDhcpServer (network : nat)
  | FailedToCreateMapping (port : nat)
  | UnableToCreateDhcpBindings (subnet : nat)
  | FailedToDeleteDhcpPort (port network : nat)
  | DhcpPortNotConfigured (network : nat)
  | UnableToDeleteDhcpServer (server network : nat)
  | UnableToDeleteServerMapping (network : nat).

(** What a run leaves behind: the calls made, the exceptions they raised
    and the error lines logged, newest first. *)
Inductive event : Type :=
  | Called (c : call)
  | Raised (c : call) (e : exn)
  | Logged (m : log_msg).

#[export] Instance call_eq_dec : EqDecision call.
Proof. solve_decision. Defined.
#[export] Instance log_msg_eq_dec : EqDecision log_msg.
Proof. solve_decision. Defined.
#[export] Instance event_eq_dec : EqDecision event.
Proof. solve_decision. Defined.

Record state : Type := {
  wd : world;
  trace : list event
}.

(** The surroundings of a run: which calls fail and how (a call is
    identified by its position in the run and its arguments), whether
    [self.nsxlib] is set, and the plugin hook [_get_network_nsx_id]. *)
Record env : Type := {
  faults : nat -> call -> option exn;
  nsxlib : bool;
  _get_network_nsx_id : nat -> option nat
}.

(** Stateful computations that may raise. *)
Definition M (A : Type) : Type := state -> result A * state.

#[export] Instance M_ret : MRet M := fun A a s => (Ok a, s).
#[export] Instance M_bind : MBind M :=
  fun A B k m s =>
    match m s with
    | (Ok a, s') => k a s'
    | (Raise e, s') => (Raise e, s')
    end.

Definition raise {A} (e : exn) : M A := fun s => (Raise e, s).

Definition read {A} (f : world -> A) : M A := fun s => (Ok (f (wd s)), s).

Definition log (m : log_msg) : M unit :=
  fun s => (Ok tt, {| wd := wd s; trace := Logged m :: trace s |}).

(** [try: body  except <handles>: handler] *)
Definition try_catch {A} (body : M A) (handles : exn -> bool)
    (handler : exn -> M A) : M A :=
  fun s =>
    match body s with
    | (Ok a, s') => (Ok a, s')
    | (Raise e, s') => if handles e then handler e s' else (Raise e, s')
    end.

(** [with excutils.save_and_reraise_exception(): cleanup]: the exception
    [e] is raised again once [cleanup] is through; an exception of
    [cleanup] itself replaces it. *)
Definition save_and_reraise_exception {A} (e : exn) (cleanup : M unit)
  : M A :=
  fun s =>
    match cleanup s with
    | (Ok _, s') => (Raise e, s')
    | (Raise e', s') => (Raise e', s')
    end.

(** [for x in xs: f x] *)
Fixpoint for_each {A} (xs : list A) (f : A -> M unit) : M unit :=
  match xs with
  | [] => mret tt
  | x :: xs => f x;; for_each xs f
  end.

Definition set_ports (f : list port -> list port) (w : world) : world :=
  {| w_ports := f (w_ports w); w_port_mappings := w_port_mappings w;
     w_service_bindings := w_service_bindings w;
     w_dhcp_bindings := w_dhcp_bindings w;
     w_dhcp_servers := w_dhcp_servers w;
     w_logical_ports := w_logical_ports w |}.
Definition set_port_mappings (f : list port_mapping -> list port_mapping)
    (w : world) : world :=
  {| w_ports := w_ports w; w_port_mappings := f (w_port_mappings w);
     w_service_bindings := w_service_bindings w;
     w_dhcp_bindings := w_dhcp_bindings w;
     w_dhcp_servers := w_dhcp_servers w;
     w_logical_ports := w_logical_ports w |}.
Definition set_service_bindings
    (f : list service_binding -> list service_binding) (w : world) : world :=
  {| w_ports := w_ports w; w_port_mappings := w_port_mappings w;
     w_service_bindings := f (w_service_bindings w);
     w_dhcp_bindings := w_dhcp_bindings w;
     w_dhcp_servers := w_dhcp_servers w;
     w_logical_ports := w_logical_ports w |}.
Definition set_dhcp_bindings (f : list (nat * nat) -> list (nat * nat))
    (w : world) : world :=
  {| w_ports := w_ports w; w_port_mappings := w_port_mappings w;
     w_service_bindings := w_service_bindings w;
     w_dhcp_bindings := f (w_dhcp_bindings w);
     w_dhcp_servers := w_dhcp_servers w;
     w_logical_ports := w_logical_ports w |}.
Definition set_dhcp_servers (f : list nat -> list nat) (w : world) : world :=
  {| w_ports := w_ports w; w_port_mappings := w_port_mappings w;
     w_service_bindings := w_service_bindings w;
     w_dhcp_bindings := w_dhcp_bindings w;
     w_dhcp_servers := f (w_dhcp_servers w);
     w_logical_ports := w_logical_ports w |}.
Definition set_logical_ports (f : list logical_port -> list logical_port)
    (w : world) : world :=
  {| w_ports := w_ports w; w_port_mappings := w_port_mappings w;
     w_service_bindings := w_service_bindings w;
     w_dhcp_bindings := w_dhcp_bindings w;
     w_dhcp_servers := w_dhcp_servers w;
     w_logical_ports := f (w_logical_ports w) |}.

(** Modelled from the spec: [nsx_db.get_nsx_service_binding], the read of
    the DhcpBinding row of a network. *)
Definition get_nsx_service_binding (w : world) (network : nat)
  : option service_binding :=
  head (filter (fun b => sb_network_id b = network) (w_service_bindings w)).

(** Modelled from the spec: [nsx_db.get_nsx_switch_and_port_id], the read
    of the (neutron port, backend port) mapping; [(None, None)] when the
    port has none. *)
Definition get_nsx_switch_and_port_id (w : world) (port : nat)
  : option nat * option nat :=
  match head (filter (fun m => pm_neutron_id m = port) (w_port_mappings w)) with
  | Some m => (Some (pm_nsx_switch_id m), Some (pm_nsx_port_id m))
  | None => (None, None)
  end.

(** The base class [get_ports] with the network and subnet filters. *)
Definition get_ports (w : world) (network subnet : nat) : list port :=
  filter (fun p => network_id p = network ∧ subnet ∈ subnet_ids p)
         (w_ports w).

Section Saga.

Variable E : env.

(** A collaborator call: it raises what the surroundings say, or takes
    effect. *)
Definition invoke {A} (c : call) (effect : world -> A * world) : M A :=
  fun s =>
    match faults E (length (trace s)) c with
    | Some e => (Raise e, {| wd := wd s; trace := Raised c e :: trace s |})
    | None =>
        let '(a, w) := effect (wd s) in
        (Ok a, {| wd := w; trace := Called c :: trace s |})
    end.

(** A call through [self.nsxlib]; without a backend client the attribute
    access fails. *)
Definition backend {A} (c : call) (effect : world -> A * world) : M A :=
  if nsxlib E then invoke c effect else raise AttributeError.

(** The base class [create_port] for the DHCP port of a subnet. *)
Definition create_port (network subnet : nat) : M nat :=
  invoke (CreatePort network subnet)
    (fun w =>
       let id := fresh (port_id <$> w_ports w) in
       (id, set_ports (cons {| port_id := id; network_id := network;
                               device_owner := DEVICE_OWNER_DHCP;
                               subnet_ids := [subnet] |}) w)).

(** The base class [delete_port]; the mapping rows of the port go with it
    (they reference the port with a cascading foreign key). *)
Definition delete_port (port : nat) : M unit :=
  invoke (DeletePort port)
    (fun w =>
       (tt, set_port_mappings (filter (fun m => pm_neutron_id m ≠ port))
              (set_ports (filter (fun p => port_id p ≠ port)) w))).

(** Modelled from the spec: the Backend Client's DHCP-server create. *)
Definition dhcp_server_create (network : nat) : M nat :=
  backend (DhcpServerCreate network)
    (fun w =>
       let id := fresh (w_dhcp_servers w) in
       (id, set_dhcp_servers (cons id) w)).

(** Modelled from the spec: the Backend Client's DHCP-server delete. *)
Definition dhcp_server_delete (server : nat) : M unit :=
  backend (DhcpServerDelete server)
    (fun w => (tt, set_dhcp_servers (filter (fun i => i ≠ server)) w)).

(** Modelled from the spec: the Backend Client's logical-port create. *)
Definition logical_port_create (switch server : nat) : M nat :=
  backend (LogicalPortCreate switch server)
    (fun w =>
       let id := fresh (lp_id <$> w_logical_ports w) in
       (id, set_logical_ports (cons {| lp_id := id; lp_switch_id := switch;
                                       lp_attachment_id := server |}) w)).

(** Modelled from the spec: the Backend Client's logical-port delete. *)
Definition logical_port_delete (nsx_port : nat) : M unit :=
  backend (LogicalPortDelete nsx_port)
    (fun w =>
       (tt, set_logical_ports (filter (fun p => lp_id p ≠ nsx_port)) w)).

(** Modelled from the spec: [nsx_db.add_neutron_nsx_port_mapping]. *)
Definition add_neutron_nsx_port_mapping (port switch nsx_port : nat)
  : M unit :=
  invoke (AddPortMapping port switch nsx_port)
    (fun w =>
       (tt, set_port_mappings
              (cons {| pm_neutron_id := port; pm_nsx_switch_id := switch;
                       pm_nsx_port_id := nsx_port |}) w)).

(** Modelled from the spec: [nsx_db.add_neutron_nsx_service_binding]. *)
Definition add_neutron_nsx_service_binding (network port server : nat)
  : M unit :=
  invoke (AddServiceBinding network port server)
    (fun w =>
       (tt, set_service_bindings
              (cons {| sb_network_id := network; sb_port_id := Some port;
                       sb_nsx_service_id := server |}) w)).

(** Modelled from the spec: [nsx_db.delete_neutron_nsx_service_binding]. *)
Definition delete_neutron_nsx_service_binding (network : nat) : M unit :=
  invoke (DeleteServiceBinding network)
    (fun w =>
       (tt, set_service_bindings
              (filter (fun b => sb_network_id b ≠ network)) w)).

(** Modelled from the spec:
    [nsx_db.delete_neutron_nsx_dhcp_bindings_by_service_id]. *)
Definition delete_neutron_nsx_dhcp_bindings_by_service_id (server : nat)
  : M unit :=
  invoke (DeleteDhcpBindings server)
    (fun w => (tt, set_dhcp_bindings (filter (fun b => b.2 ≠ server)) w)).

(** Modelled from the spec: the plugin's [_add_dhcp_binding], which adds
    the DHCP binding of a port to the server of its network. *)
Definition _add_dhcp_binding (p : port) : M unit :=
  invoke (AddDhcpBinding (port_id p))
    (fun w =>
       (tt, match get_nsx_service_binding w (network_id p) with
            | Some b =>
                set_dhcp_bindings (cons (port_id p, sb_nsx_service_id b)) w
            | None => w
            end)).

(** [_create_port_preprocess_security], [_build_dhcp_server_config] and
    [_build_port_name] change nothing the saga compensates; they are
    kept as calls that may raise. *)
Definition _create_port_preprocess_security (port : nat) : M unit :=
  invoke (PreprocessSecurity port) (fun w => (tt, w)).
Definition _build_dhcp_server_config (network subnet port : nat) : M unit :=
  backend (BuildDhcpServerConfig network subnet port) (fun w => (tt, w)).
Definition _build_port_name (port : nat) : M unit :=
  invoke (BuildPortName port) (fun w => (tt, w)).

(** [_cleanup_port] *)
Definition _cleanup_port (port_id : nat) (nsx_port_id : option nat)
  : M unit :=
  delete_port port_id;;
  match nsx_port_id with
  | Some nsx_port_id =>
      if nsxlib E then logical_port_delete nsx_port_id else mret tt
  | None => mret tt
  end.

(** [_disable_native_dhcp] *)
Definition _disable_native_dhcp (network_id : nat) : M unit :=
  dhcp_service ← read (fun w => get_nsx_service_binding w network_id);
  match dhcp_service with
  | None => mret tt
  | Some dhcp_service =>
      match sb_port_id dhcp_service with
      | Some port_id =>
          try_catch
            ('(_net_id, nsx_port_id) ←
               read (fun w => get_nsx_switch_and_port_id w port_id);
             _cleanup_port port_id nsx_port_id)
            is_ResourceNotFound
            (fun _ => log (FailedToDeleteDhcpPort port_id network_id))
      | None => log (DhcpPortNotConfigured network_id)
      end;;
      try_catch
        (dhcp_server_delete (sb_nsx_service_id dhcp_service))
        is_ManagerError
        (fun e => save_and_reraise_exception e
           (log (UnableToDeleteDhcpServer (sb_nsx_service_id dhcp_service)
                                          network_id)));;
      try_catch
        (delete_neutron_nsx_service_binding network_id;;
         delete_neutron_nsx_dhcp_bindings_by_service_id
           (sb_nsx_service_id dhcp_service))
        is_DBError
        (fun e => save_and_reraise_exception e
           (log (UnableToDeleteServerMapping network_id)))
  end.

(** [_enable_native_dhcp].  The handler of the first [try] block tests
    [if dhcp_server:]; the variable is set exactly when the first call of
    the block has returned, so the block is split at that call.  The
    availability zone, the tags and the switching profiles the calls
    carry, and the [LOG.debug] lines, are left out. *)
Definition _enable_native_dhcp (network subnet : nat) : M unit :=
  _disable_native_dhcp network;;
  existing_ports ← read (fun w => get_ports w network subnet);
  match _get_network_nsx_id E network with
  | None =>
      log (NoBackendNetworkId network);;
      raise NsxPluginException
  | Some nsx_net_id =>
      neutron_port ← create_port network subnet;
      _create_port_preprocess_security neutron_port;;
      _build_dhcp_server_config network subnet neutron_port;;
      dhcp_server ←
        try_catch
          (dhcp_server_create network)
          is_ManagerError
          (fun e => save_and_reraise_exception e
             (log (UnableToCreateDhcpServer network);;
              delete_port neutron_port));
      nsx_port ←
        try_catch
          (_build_port_name neutron_port;;
           logical_port_create nsx_net_id dhcp_server)
          is_ManagerError
          (fun e => save_and_reraise_exception e
             (log (UnableToCreateDhcpServer network);;
              dhcp_server_delete dhcp_server;;
              delete_port neutron_port));
      try_catch
        (add_neutron_nsx_port_mapping neutron_port nsx_net_id nsx_port;;
         add_neutron_nsx_service_binding network neutron_port dhcp_server)
        is_DBError_or_Timeout
        (fun e => save_and_reraise_exception e
           (log (FailedToCreateMapping neutron_port);;
            dhcp_server_delete dhcp_server;;
            _cleanup_port neutron_port (Some nsx_port)));;
      try_catch
        (for_each existing_ports _add_dhcp_binding)
        (fun _ => true)
        (fun _ => log (UnableToCreateDhcpBindings subnet))
  end.

End Saga.

(** The run of a saga from a world, with an empty trace. *)
Definition run {A} (m : M A) (w : world) : result A * state :=
  m {| wd := w; trace := [] |}.

(** The newest exception of a trace. *)
Fixpoint last_raised (tr : list event) : option (call * exn) :=
  match tr with
  | [] => None
  | Raised c e :: _ => Some (c, e)
  | _ :: tr => last_raised tr
  end.

(** Steps 4 to 6 of the enable path (the calls of its first two [try]
    blocks that reach a collaborator of the saga), and the exceptions the
    handler of their block catches. *)
Definition saga_step_4_to_6 (c : call) : bool :=
  match c with
  | DhcpServerCreate _ | LogicalPortCreate _ _
  | AddPortMapping _ _ _ | AddServiceBinding _ _ _ => true
  | _ => false
  end.

Definition caught_by_handler (c : call) (e : exn) : bool :=
  match c with
  | DhcpServerCreate _ | LogicalPortCreate _ _ => is_ManagerError e
  | AddPortMapping _ _ _ | AddServiceBinding _ _ _ => is_DBError_or_Timeout e
  | _ => false
  end.

(** The events of a run of [_disable_native_dhcp]. *)
Definition disable_event (ev : event) : bool :=
  match ev with
  | Called c | Raised c _ =>
      match c with
      | DeletePort _ | LogicalPortDelete _ | DhcpServerDelete _
      | DeleteServiceBinding _ | DeleteDhcpBindings _ => true
      | _ => false
      end
  | Logged m =>
      match m with
      | FailedToDeleteDhcpPort _ _ | DhcpPortNotConfigured _
      | UnableToDeleteDhcpServer _ _ | UnableToDeleteServerMapping _ => true
      | _ => false
      end
  end.

(** Sample surroundings and worlds: network 7 with subnet 3 and one
    compute port, before and after native DHCP was enabled. *)
Definition sample_env (f : nat -> call -> option exn) : env :=
  {| faults := f; nsxlib := true;
     _get_network_nsx_id := fun network => Some (100 + network) |}.

Definition no_faults : nat -> call -> option exn := fun _ _ => None.

(** The backend refuses to create the logical port (step 5). *)
Definition logical_port_create_fails : nat -> call -> option exn :=
  fun _ c => match c with
             | LogicalPortCreate _ _ => Some ManagerError
             | _ => None
             end.

(** The DHCP binding of an existing port cannot be added (step 7). *)
Definition add_dhcp_binding_fails : nat -> call -> option exn :=
  fun _ c => match c with
             | AddDhcpBinding _ => Some ManagerError
             | _ => None
             end.

(** The backend refuses to create the DHCP server (step 4). *)
Definition dhcp_server_create_fails : nat -> call -> option exn :=
  fun _ c => match c with
             | DhcpServerCreate _ => Some ManagerError
             | _ => None
             end.

(** The backend refuses to create the logical port (step 5) and then to
    delete the DHCP server the run created. *)
Definition compensation_fails : nat -> call -> option exn :=
  fun _ c => match c with
             | LogicalPortCreate _ _ | DhcpServerDelete _ => Some ManagerError
             | _ => None
             end.

(** The backend no longer knows the logical port of the old DHCP port. *)
Definition logical_port_is_gone : nat -> call -> option exn :=
  fun _ c => match c with
             | LogicalPortDelete _ => Some ResourceNotFound
             | _ => None
             end.

Definition compute_port : port :=
  {| port_id := 1; network_id := 7; device_owner := "compute:nova";
     subnet_ids := [3] |}.

Definition sample_world : world :=
  {| w_ports := [compute_port]; w_port_mappings := [];
     w_service_bindings := []; w_dhcp_bindings := [];
     w_dhcp_servers := []; w_logical_ports := [] |}.

Definition enabled_world : world :=
  {| w_ports := [ {| port_id := 2; network_id := 7;
                     device_owner := DEVICE_OWNER_DHCP;
                     subnet_ids := [3] |}; compute_port ];
     w_port_mappings := [ {| pm_neutron_id := 2; pm_nsx_switch_id := 107;
                             pm_nsx_port_id := 1 |} ];
     w_service_bindings := [ {| sb_network_id := 7; sb_port_id := Some 2;
                                sb_nsx_service_id := 1 |} ];
     w_dhcp_bindings := [(1, 1)];
     w_dhcp_servers := [1];
     w_logical_ports := [ {| lp_id := 1; lp_switch_id := 107;
                             lp_attachment_id := 1 |} ] |}.

End Dhcp.

(** ** Outcomes of the network, subnet and port security code *)

Module Outcome.

(** The messages of [n_exc.InvalidInput] that the code below builds. *)
Inductive message : Type :=
  | DirectVnicSecurity
  | ExternalNetProviderAttrs (net_type : pyval)
  | RouterExternalFlagChange
  | MultipleDhcpSubnets (network_id : nat)
  | NativeDhcpNotSupported (net_kind : string) (network_id : nat).

(** What that code raises: [n_exc.InvalidInput] with one of these
    messages, or an exception of the classes of [exn], raised there or
    passed on from a collaborator. *)
Inductive error : Type :=
  | InvalidInputError (msg : message)
  | Propagated (e : exn).

#[export] Instance message_eq_dec : EqDecision message.
Proof. solve_decision. Defined.
#[export] Instance error_eq_dec : EqDecision error.
Proof. solve_decision. Defined.

(** [isinstance(e, n_exc.InvalidInput)] *)
Definition is_InvalidInput (e : error) : bool :=
  match e with
  | InvalidInputError _ | Propagated (InvalidInput _) => true
  | _ => false
  end.

Inductive outcome (A : Type) : Type :=
  | Returns (a : A)
  | Raises (e : error).
Arguments Returns {A} a.
Arguments Raises {A} e.

#[export] Instance outcome_ret : MRet outcome := fun A a => Returns a.
#[export] Instance outcome_bind : MBind outcome :=
  fun A B k r =>
    match r with
    | Returns a => k a
    | Raises e => Raises e
    end.

(** A call of code that raises the exceptions of [exn] only. *)
Definition passed_on {A} (r : result A) : outcome A :=
  match r with
  | Ok a => Returns a
  | Raise e => Raises (Propagated e)
  end.

End Outcome.

(** ** Network validators *)

Module Network.
Import Provider Outcome.

Definition EXTERNAL := "router:external".
Definition L3_EXT := "l3_ext".
Definition LOCAL := "local".

Section Validation.

(** Collaborators: the QoS service and the network table. *)
Variable _validate_qos_policy_id : pyval -> result unit.
Variable _network_is_external : pyval -> bool.

(** [_validate_create_network] *)
Definition _validate_create_network (net_data : gmap string pyval)
  : result unit :=
  let external := dict_get net_data EXTERNAL in
  let is_external_net := py_and (PBool (is_attr_set external)) external in
  let with_qos := is_attr_set (dict_get net_data QOS_POLICY_ID) in
  if with_qos then
    _validate_qos_policy_id (dict_get net_data QOS_POLICY_ID);;
    if py_truthy is_external_net then Raise QoSOnExternalNet else Ok tt
  else Ok tt.

(** [_validate_update_network] *)
Definition _validate_update_network (id : pyval)
    (original_net net_data : gmap string pyval) : outcome unit :=
  let extern_net := _network_is_external id in
  let with_qos := is_attr_set (dict_get net_data QOS_POLICY_ID) in
  (* Do not allow QoS on external networks *)
  if with_qos && extern_net then Raises (Propagated QoSOnExternalNet)
  (* Do not support changing external/non-external networks *)
  else if dict_has net_data EXTERNAL
          && py_truthy (py_ne (dict_get net_data EXTERNAL) (PBool extern_net))
  then Raises (InvalidInputError RouterExternalFlagChange)
  else Returns tt.

End Validation.

(** [_validate_external_net_create]; [tier0_validator] is a callable or
    [None]. *)
Definition _validate_external_net_create (net_data : gmap string pyval)
    (default_tier0_router : pyval)
    (tier0_validator : option (pyval -> outcome unit))
  : outcome (bool * string * pyval * Z) :=
  let tier0_uuid :=
    if negb (is_attr_set (dict_get net_data PHYSICAL_NETWORK))
    then default_tier0_router
    else dict_get net_data PHYSICAL_NETWORK in
  if is_attr_set (dict_get net_data NETWORK_TYPE)
     && py_truthy (py_ne (dict_get net_data NETWORK_TYPE) (PStr L3_EXT))
     && py_truthy (py_ne (dict_get net_data NETWORK_TYPE) (PStr LOCAL))
     || is_attr_set (dict_get net_data SEGMENTATION_ID)
  then Raises (InvalidInputError
                 (ExternalNetProviderAttrs (dict_get net_data NETWORK_TYPE)))
  else
    match tier0_validator with
    | Some validate => validate tier0_uuid
    | None => Returns tt
    end;;
    Returns (true, L3_EXT, tier0_uuid, 0).

End Network.

(** ** Security group rules *)

Module SecurityGroupRule.
Import Port.

Definition REMOTE_IP_PREFIX := "remote_ip_prefix".
Definition LOCAL_IP_PREFIX := "local_ip_prefix".
Definition ANY_IPV4 := "0.0.0.0/".

(** [_fix_sg_rule_dict_ips]: returns the rule as the call leaves it. *)
Definition _fix_sg_rule_dict_ips (sg_rule : gmap string pyval)
  : result (gmap string pyval) :=
  let remote := dict_get sg_rule REMOTE_IP_PREFIX in
  sg_rule ←
    (if py_truthy remote then
       any ← py_startswith remote ANY_IPV4;
       Ok (if (any : bool)
           then <[REMOTE_IP_PREFIX := PNone]> sg_rule else sg_rule)
     else Ok sg_rule);
  let local := dict_get sg_rule LOCAL_IP_PREFIX in
  if py_truthy local && is_attr_set local then
    any ← py_startswith local ANY_IPV4;
    Ok (if (any : bool)
        then <[LOCAL_IP_PREFIX := PNone]> sg_rule else sg_rule)
  else Ok sg_rule.

End SecurityGroupRule.

(** ** Availability zones *)

Module Zones.

Definition zone_resources : list string := ["network"; "router"].

Section AvailabilityZones.

(** The plugin hook, the names of the configured zones
    ([self._availability_zones_data.list_availability_zones()]) and the
    method of the base class. *)
Variable _has_native_dhcp_metadata : bool.
Variable list_availability_zones : list string.
Variable neutron_list_availability_zones :
  option (gmap string (list string)) ->
  result (gmap (string * string) bool).

(** [if filters:] *)
Definition filters_truthy (filters : option (gmap string (list string)))
  : bool :=
  match filters with
  | Some f => negb (bool_decide (f = ∅))
  | None => false
  end.

(** The inner loop, [for res in ['network', 'router']]; testing
    ['resource' not in filters] on [None] raises [TypeError]. *)
Fixpoint add_zone_resources (resources : list string) (az : string)
    (filters : option (gmap string (list string)))
    (acc : gmap (string * string) bool)
  : result (gmap (string * string) bool) :=
  match resources with
  | [] => Ok acc
  | res :: resources =>
      match filters with
      | None => Raise TypeError
      | Some f =>
          let selected :=
            match f !! "resource" with
            | None => true
            | Some wanted => bool_decide (res ∈ wanted)
            end in
          add_zone_resources resources az filters
            (if selected then <[(az, res) := true]> acc else acc)
      end
  end.

(** The outer loop, [for az in ...list_availability_zones()]. *)
Fixpoint add_zones (azs : list string)
    (filters : option (gmap string (list string)))
    (acc : gmap (string * string) bool)
  : result (gmap (string * string) bool) :=
  match azs with
  | [] => Ok acc
  | az :: azs =>
      let skipped :=
        filters_truthy filters
        && match filters with
           | Some f =>
               match f !! "name" with
               | Some names => negb (bool_decide (az ∈ names))
               | None => false
               end
           | None => false
           end in
      if skipped then add_zones azs filters acc
      else
        acc ← add_zone_resources zone_resources az filters acc;
        add_zones azs filters acc
  end.

(** [_list_availability_zones] *)
Definition _list_availability_zones
    (filters : option (gmap string (list string)))
  : result (gmap (string * string) bool) :=
  (* If no native_dhcp_metadata - use neutron AZs *)
  if negb _has_native_dhcp_metadata
  then neutron_list_availability_zones filters
  else add_zones list_availability_zones filters ∅.

End AvailabilityZones.

End Zones.

(** ** Subnets and native DHCP *)

Module Subnet.
Import Provider Dhcp Outcome.
Local Open Scope nat_scope.

(** A subnet row, as far as the code looks at it. *)
Record subnet : Type := {
  subnet_id : nat;
  sn_network_id : nat;
  enable_dhcp : bool
}.

(** The request [subnet['subnet']], with [enable_dhcp] read by
    [.get('enable_dhcp', False)]. *)
Record request : Type := {
  rq_network_id : nat;
  rq_enable_dhcp : bool
}.

(** The [LOG.error] lines of the subnet code. *)
Inductive log_line : Type :=
  | RejectedSubnet (msg : message)
  | FailedToDisableNativeDhcp (network : nat) (e : error).

(** The subnet table, the store and backend of the DHCP saga, and the
    error log. *)
Record store : Type := {
  subnets : list subnet;
  dhcp : Dhcp.state;
  errors : list log_line
}.

(** [_has_no_dhcp_enabled_subnet], on [network.subnets] *)
Fixpoint _has_no_dhcp_enabled_subnet (network_subnets : list subnet) : bool :=
  match network_subnets with
  | [] => true
  | subnet :: network_subnets =>
      if enable_dhcp subnet then false
      else _has_no_dhcp_enabled_subnet network_subnets
  end.

(** The loop of [_has_single_dhcp_enabled_subnet] with its counter, and
    the [return] that follows it. *)
Fixpoint count_dhcp_enabled (count : nat) (network_subnets : list subnet)
  : bool :=
  match network_subnets with
  | [] => if count =? 1 then true else false
  | subnet :: network_subnets =>
      if enable_dhcp subnet then
        let count := count + 1 in
        if 1 <? count then false
        else count_dhcp_enabled count network_subnets
      else count_dhcp_enabled count network_subnets
  end.

(** [_has_single_dhcp_enabled_subnet], on [network.subnets] *)
Definition _has_single_dhcp_enabled_subnet (network_subnets : list subnet)
  : bool :=
  count_dhcp_enabled 0 network_subnets.

(** The collaborators of the subnet code: plugin hooks, configuration,
    the checks of the base class and of other mixins.
    [_validate_address_space] is kept as a call that may raise. *)
Record collaborators : Type := {
  _has_native_dhcp_metadata : bool;
  _validate_host_routes_input : request -> outcome unit;
  _validate_external_subnet : nat -> outcome unit;
  get_network : nat -> gmap string pyval;
  vlan_transparent : bool;
  _is_overlay_network : nat -> pyval;
  _is_vlan_router_interface_supported : pyval;
  _validate_address_space : subnet -> outcome unit;
  process_create_subnet : request -> subnet -> outcome unit;
  dhcp_relay_service : nat -> pyval;
  _subnet_check_ip_allocations_internal_router_ports : nat -> outcome unit;
  create_subnet_check : request -> outcome unit;
  delete_subnet_check : nat -> outcome unit
}.

(** Computations on the store that may raise. *)
Definition S (A : Type) : Type := store -> outcome A * store.

#[export] Instance S_ret : MRet S := fun A a st => (Returns a, st).
#[export] Instance S_bind : MBind S :=
  fun A B k m st =>
    match m st with
    | (Returns a, st') => k a st'
    | (Raises e, st') => (Raises e, st')
    end.

Definition throw {A} (e : error) : S A := fun st => (Raises e, st).

(** A call that changes nothing in the store. *)
Definition pure_call {A} (r : outcome A) : S A := fun st => (r, st).

(** A step of the DHCP saga. *)
Definition in_dhcp {A} (m : Dhcp.M A) : S A :=
  fun st =>
    let '(r, s) := m (dhcp st) in
    (passed_on r,
     {| subnets := subnets st; dhcp := s; errors := errors st |}).

Definition log_error (l : log_line) : S unit :=
  fun st =>
    (Returns tt,
     {| subnets := subnets st; dhcp := dhcp st; errors := l :: errors st |}).

Definition set_subnets (f : list subnet -> list subnet) : S unit :=
  fun st =>
    (Returns tt,
     {| subnets := f (subnets st); dhcp := dhcp st; errors := errors st |}).

(** [try: body  except <handles>: handler] *)
Definition try_except_in {A} (body : S A) (handles : error -> bool)
    (handler : error -> S A) : S A :=
  fun st =>
    match body st with
    | (Returns a, st') => (Returns a, st')
    | (Raises e, st') => if handles e then handler e st' else (Raises e, st')
    end.

(** [with excutils.save_and_reraise_exception(): cleanup] *)
Definition reraise_after {A} (e : error) (cleanup : S unit) : S A :=
  fun st =>
    match cleanup st with
    | (Returns _, st') => (Raises e, st')
    | (Raises e', st') => (Raises e', st')
    end.

Section Subnets.

Variable E : Dhcp.env.
Variable C : collaborators.

(** The base class [create_subnet]: the row gets an identifier that is
    not in use. *)
Definition create_subnet (rq : request) : S subnet :=
  pure_call (create_subnet_check C rq);;
  ((fun st =>
      let created :=
        {| subnet_id := fresh (subnet_id <$> subnets st);
           sn_network_id := rq_network_id rq;
           enable_dhcp := rq_enable_dhcp rq |} in
      (Returns created,
       {| subnets := created :: subnets st; dhcp := dhcp st;
          errors := errors st |})) : S subnet).

(** The base class [delete_subnet]. *)
Definition base_delete_subnet (id : nat) : S unit :=
  pure_call (delete_subnet_check C id);;
  set_subnets (filter (fun subnet => subnet_id subnet ≠ id)).

(** The base class [get_subnet]. *)
Definition get_subnet (id : nat) : S subnet :=
  fun st =>
    match head (filter (fun subnet => subnet_id subnet = id) (subnets st)) with
    | Some subnet => (Returns subnet, st)
    | None => (Raises (Propagated (OtherException "SubnetNotFound")), st)
    end.

(** [self._get_network(context, network_id).subnets] *)
Definition network_subnets (network : nat) : S (list subnet) :=
  fun st =>
    (Returns (filter (fun subnet => sn_network_id subnet = network)
                     (subnets st)), st).

(** [_is_ddi_supported_on_net_with_type] *)
Definition _is_ddi_supported_on_net_with_type (network_id : nat)
  : pyval * string :=
  let net := get_network C network_id in
  if vlan_transparent C && py_is_true (dict_get net "vlan_transparent")
  then (PBool false, "VLAN transparent")
  else if py_eq (dict_get net NETWORK_TYPE) (PStr FLAT)
  then (PBool false, "flat")
  else
    let is_overlay := _is_overlay_network C network_id in
    let net_type := if py_truthy is_overlay then "overlay" else "non-overlay" in
    (py_or is_overlay (_is_vlan_router_interface_supported C), net_type).

(** [_validate_address_space] after the base class created the subnet:
    on [InvalidInput] the creation is reverted. *)
Definition validate_created_subnet (created_subnet : subnet) : S unit :=
  try_except_in
    (pure_call (_validate_address_space C created_subnet))
    is_InvalidInput
    (fun e => reraise_after e
       (base_delete_subnet (subnet_id created_subnet))).

(** [_create_subnet].  The lock on the network is left out.  A branch that
    sets [msg] to a message is followed by [LOG.error(msg)] and [raise
    n_exc.InvalidInput(error_message=msg)] with nothing in between; the
    message set when [self.nsxlib] is missing is overwritten by [msg =
    None] before it is looked at. *)
Definition _create_subnet (rq : request) : S subnet :=
  pure_call (_validate_host_routes_input C rq);;
  let native_metadata := _has_native_dhcp_metadata C in
  if native_metadata && rq_enable_dhcp rq then
    pure_call (_validate_external_subnet C (rq_network_id rq));;
    let '(ddi_support, ddi_type) :=
      _is_ddi_supported_on_net_with_type (rq_network_id rq) in
    if py_truthy ddi_support then
      network ← network_subnets (rq_network_id rq);
      if _has_no_dhcp_enabled_subnet network then
        created_subnet ← create_subnet rq;
        validate_created_subnet created_subnet;;
        pure_call (process_create_subnet C rq created_subnet);;
        let dhcp_relay := dhcp_relay_service C (rq_network_id rq) in
        (if negb (py_truthy dhcp_relay) then
           if nsxlib E then
             in_dhcp (_enable_native_dhcp E (rq_network_id rq)
                                          (subnet_id created_subnet))
           else mret tt
         else mret tt);;
        mret created_subnet
      else
        let msg := MultipleDhcpSubnets (rq_network_id rq) in
        log_error (RejectedSubnet msg);;
        throw (InvalidInputError msg)
    else
      let msg := NativeDhcpNotSupported ddi_type (rq_network_id rq) in
      log_error (RejectedSubnet msg);;
      throw (InvalidInputError msg)
  else
    created_subnet ← create_subnet rq;
    validate_created_subnet created_subnet;;
    mret created_subnet.

(** [delete_subnet].  The lock on the network is left out. *)
Definition delete_subnet (id : nat) : S unit :=
  if _has_native_dhcp_metadata C then
    (* Ensure that subnet is not deleted if attached to router. *)
    pure_call (_subnet_check_ip_allocations_internal_router_ports C id);;
    subnet ← get_subnet id;
    if enable_dhcp subnet then
      (* Check if it is the last DHCP-enabled subnet to delete. *)
      network ← network_subnets (sn_network_id subnet);
      if _has_single_dhcp_enabled_subnet network then
        try_except_in
          (in_dhcp (_disable_native_dhcp E (sn_network_id subnet)))
          (fun _ => true)
          (fun e => log_error (FailedToDisableNativeDhcp
                                 (sn_network_id subnet) e));;
        base_delete_subnet id
      else base_delete_subnet id
    else base_delete_subnet id
  else base_delete_subnet id.

End Subnets.

End Subnet.

(** ** Port security, address pairs and security groups of a port *)

Module PortSecurity.
Import Port Outcome.

Definition PROVIDER_SECURITYGROUPS := "provider_security_groups".

(** The exceptions of neutron_lib and vmware_nsx this code raises, by
    class name. *)
Definition AddressPairAndPortSecurityRequired : exn :=
  OtherException "AddressPairAndPortSecurityRequired".
Definition PortSecurityAndIPRequiredForSecurityGroups : exn :=
  OtherException "PortSecurityAndIPRequiredForSecurityGroups".
Definition PortSecurityPortHasSecurityGroup : exn :=
  OtherException "PortSecurityPortHasSecurityGroup".
Definition NsxENSPortSecurity : exn := OtherException "NsxENSPortSecurity".
Definition InvalidIPAddress : exn := OtherException "InvalidIPAddress".
Definition KeyError : exn := OtherException "KeyError".

(** [d[k]] *)
Definition dict_item (d : gmap string pyval) (k : string) : result pyval :=
  match d !! k with
  | Some v => Ok v
  | None => Raise KeyError
  end.

(** [fix_direct_vnic_port_sec]: returns [port_data] as the call leaves
    it. *)
Definition fix_direct_vnic_port_sec (direct_vnic_type : pyval)
    (port_data : gmap string pyval) : outcome (gmap string pyval) :=
  if py_truthy direct_vnic_type then
    if is_attr_set (dict_get port_data PORTSECURITY) then
      (* 'direct' and 'direct-physical' vnic types ports requires
         port-security to be disabled. *)
      if py_truthy (dict_get port_data PORTSECURITY)
      then Raises (InvalidInputError DirectVnicSecurity)
      else Returns port_data
    else
      (* Implicitly disable port-security for direct vnic types. *)
      Returns (<[PORTSECURITY := PBool false]> port_data)
  else Returns port_data.

(** [_provider_sgs_specified] *)
Definition _provider_sgs_specified (port_data : gmap string pyval) : pyval :=
  py_and (PBool (is_attr_set (dict_get port_data PROVIDER_SECURITYGROUPS)))
         (py_ne (dict_get port_data PROVIDER_SECURITYGROUPS) (PList [])).

Section Preprocess.

(** [utils.is_ipv4_ip_address], on the value of [pair.get('ip_address')]. *)
Variable is_ipv4_ip_address : option string -> bool.

(** The loop of [_validate_ipv4_address_pairs]; an element that is not a
    dictionary has no [get]. *)
Fixpoint validate_each_pair (address_pairs : list pyatom) : result unit :=
  match address_pairs with
  | [] => Ok tt
  | address_pair :: address_pairs =>
      match address_pair with
      | ADict address_pair =>
          let ip := address_pair !! "ip_address" in
          if negb (is_ipv4_ip_address ip) then Raise InvalidIPAddress
          else validate_each_pair address_pairs
      | AStr _ => Raise AttributeError
      end
  end.

(** [_validate_ipv4_address_pairs]; only a list or a string can be
    iterated, and the characters of a string have no [get]. *)
Definition _validate_ipv4_address_pairs (address_pairs : pyval)
  : result unit :=
  match address_pairs with
  | PList address_pairs => validate_each_pair address_pairs
  | PStr s => if String.eqb s "" then Ok tt else Raise AttributeError
  | _ => Raise TypeError
  end.

(** The store behind the port mixins of neutron, and what the code below
    reads from it and writes to it: the port security binding, the
    allowed address pair rows and the security group binding rows of a
    port. *)
Variable db : Type.
Variable _determine_port_security_and_has_ip :
  gmap string pyval -> pyval * bool.
Variable _ens_psec_supported : pyval.
Variable _process_port_port_security_create :
  db -> gmap string pyval -> gmap string pyval -> result db.
Variable _process_create_allowed_address_pairs :
  db -> gmap string pyval -> pyval -> result db.
Variable _ensure_default_security_group_on_port :
  db -> gmap string pyval -> result (db * gmap string pyval).
Variable _get_port_security_groups_lists :
  db -> gmap string pyval -> list pyatom * list pyatom.
Variable _check_update_has_security_groups : gmap string pyval -> bool.
Variable _get_provider_security_groups_on_port :
  db -> gmap string pyval -> pyval.
Variable _get_security_groups_on_port :
  db -> gmap string pyval -> result pyval.

(** [_create_port_address_pairs]: returns the store and [port_data] as
    the call leaves them. *)
Definition _create_port_address_pairs (st : db)
    (port_data : gmap string pyval) : result (db * gmap string pyval) :=
  let '(port_security, has_ip) :=
    _determine_port_security_and_has_ip port_data in
  let address_pairs := dict_get port_data ADDRESS_PAIRS in
  if is_attr_set address_pairs then
    if negb (py_truthy port_security) then
      Raise AddressPairAndPortSecurityRequired
    else
      _validate_ipv4_address_pairs address_pairs;;
      st ← _process_create_allowed_address_pairs st port_data address_pairs;
      Ok (st, port_data)
  else Ok (st, <[ADDRESS_PAIRS := PList []]> port_data).

(** [_create_port_preprocess_security].  The callers pass [port_data] and
    the request [port = {'port': port_data}] that holds the same
    dictionary, so that what a collaborator writes to [port['port']] is
    seen in [port_data]; the model has the one dictionary.  Returns the
    store, [port_data] and the returned tuple. *)
Definition _create_port_preprocess_security (st : db)
    (port_data neutron_db : gmap string pyval) (is_ens_tz_port : pyval)
  : result (db * gmap string pyval
            * (pyval * bool * list pyatom * list pyatom)) :=
  let '(port_security, has_ip) :=
    _determine_port_security_and_has_ip port_data in
  let port_data := <[PORTSECURITY := port_security]> port_data in
  (* No port security is allowed if the port belongs to an ENS TZ *)
  if py_truthy port_security && py_truthy is_ens_tz_port
     && negb (py_truthy _ens_psec_supported)
  then Raise NsxENSPortSecurity
  else
    st ← _process_port_port_security_create st port_data neutron_db;
    (* allowed address pair checks *)
    '(st, port_data) ← _create_port_address_pairs st port_data;
    '(st, port_data, sgids, psgids) ←
      (if py_truthy port_security && has_ip then
         '(st, port_data) ←
           _ensure_default_security_group_on_port st port_data;
         let '(sgids, psgids) :=
           _get_port_security_groups_lists st port_data in
         Ok (st, port_data, sgids, psgids)
       else if _check_update_has_security_groups port_data
               || py_truthy (_provider_sgs_specified port_data)
               || py_truthy (_get_provider_security_groups_on_port
                               st port_data)
       then Raise PortSecurityAndIPRequiredForSecurityGroups
       else Ok (st, port_data, [], []));
    security_groups ← _get_security_groups_on_port st port_data;
    Ok (st, <[SECURITYGROUPS := security_groups]> port_data,
        (port_security, has_ip, sgids, psgids)).

(** What [_update_port_preprocess_security] reads from and writes to the
    store besides. *)
Variable _check_update_deletes_allowed_address_pairs :
  gmap string pyval -> bool.
Variable _check_update_has_allowed_address_pairs : gmap string pyval -> bool.
Variable _check_update_deletes_security_groups : gmap string pyval -> bool.
Variable _get_port_security_binding : db -> string -> pyval.
Variable _ip_on_port : gmap string pyval -> bool.
Variable get_allowed_address_pairs : db -> string -> pyval.
Variable _delete_allowed_address_pairs : db -> string -> db.
Variable _get_port_security_group_bindings : db -> string -> pyval.
Variable _delete_port_security_group_bindings : db -> string -> db.
Variable _process_port_create_security_group :
  db -> gmap string pyval -> pyval -> result (db * gmap string pyval).
Variable _process_port_port_security_update :
  db -> gmap string pyval -> gmap string pyval ->
  result (db * gmap string pyval).

(** [_update_port_preprocess_security], where [port_data] is the request
    [port['port']].  The two collaborators called last write to
    [updated_port] as well.  Returns the store and [updated_port] as the
    call leaves them. *)
Definition _update_port_preprocess_security (st : db)
    (port_data : gmap string pyval) (id : string)
    (updated_port : gmap string pyval)
    (is_ens_tz_port validate_port_sec direct_vnic_type : pyval)
  : outcome (db * gmap string pyval) :=
  let delete_addr_pairs :=
    _check_update_deletes_allowed_address_pairs port_data in
  let has_addr_pairs := _check_update_has_allowed_address_pairs port_data in
  let has_security_groups := _check_update_has_security_groups port_data in
  let delete_security_groups :=
    _check_update_deletes_security_groups port_data in
  (* populate port_security setting *)
  let updated_port :=
    if negb (dict_has port_data PORTSECURITY)
    then <[PORTSECURITY := _get_port_security_binding st id]> updated_port
    else updated_port in
  let has_ip := _ip_on_port updated_port in
  (* validate port security and allowed address pairs *)
  port_security ← passed_on (dict_item updated_port PORTSECURITY);
  updated_port ←
    (if negb (py_truthy port_security) then
       (* has address pairs in request *)
       if has_addr_pairs
       then Raises (Propagated AddressPairAndPortSecurityRequired)
       else if negb delete_addr_pairs then
         (* check if address pairs are in db *)
         let updated_port :=
           <[ADDRESS_PAIRS := get_allowed_address_pairs st id]> updated_port in
         if py_truthy (dict_get updated_port ADDRESS_PAIRS)
         then Raises (Propagated AddressPairAndPortSecurityRequired)
         else Returns updated_port
       else Returns updated_port
     else Returns updated_port);
  st ←
    (if delete_addr_pairs || has_addr_pairs then
       address_pairs ← passed_on (dict_item updated_port ADDRESS_PAIRS);
       passed_on (_validate_ipv4_address_pairs address_pairs);;
       (* delete address pairs and read them in *)
       let st := _delete_allowed_address_pairs st id in
       passed_on (_process_create_allowed_address_pairs
                    st updated_port address_pairs)
     else Returns st);
  (if py_truthy port_security && dict_has port_data PORTSECURITY then
     (* No port security is allowed if the port belongs to an ENS TZ *)
     if py_truthy is_ens_tz_port && negb (py_truthy _ens_psec_supported)
     then Raises (Propagated NsxENSPortSecurity)
     (* No port security is allowed if the port has a direct vnic type *)
     else if py_truthy direct_vnic_type
     then Raises (InvalidInputError DirectVnicSecurity)
     else Returns tt
   else Returns tt);;
  (* checks if security groups were updated adding/modifying
     security groups, port security is set and port has ip *)
  let provider_sgs_specified := _provider_sgs_specified updated_port in
  (if py_truthy validate_port_sec
      && negb (has_ip && py_truthy port_security) then
     if has_security_groups || py_truthy provider_sgs_specified
     then Raises (Propagated PortSecurityAndIPRequiredForSecurityGroups)
     else
       (* Update did not have security groups passed in. Check
          that port does not have any security groups already on it. *)
       let security_groups := _get_port_security_group_bindings st id in
       if py_truthy security_groups && negb delete_security_groups
       then Raises (Propagated PortSecurityPortHasSecurityGroup)
       else Returns tt
   else Returns tt);;
  '(st, updated_port) ←
    (if delete_security_groups || has_security_groups then
       (* delete the port binding and read it with the new rules. *)
       let st := _delete_port_security_group_bindings st id in
       sgids ← passed_on (_get_security_groups_on_port st port_data);
       passed_on (_process_port_create_security_group st updated_port sgids)
     else Returns (st, updated_port));
  if dict_has port_data PORTSECURITY
  then passed_on (_process_port_port_security_update
                    st port_data updated_port)
  else Returns (st, updated_port).

End Preprocess.

End PortSecurity.

(** ** Sample backends, stores and requests *)

Module Samples.
Import Provider Port Dhcp Outcome Subnet PortSecurity.

(** A backend with the VLAN transport zone "pnet1", the overlay transport
    zones "tz-overlay" and "tz-ens", the second one in ENS mode, and the
    logical switch "ls-1" on "tz-overlay". *)
Definition sample_zones : tz_client :=
  {| get_transport_type := fun tz =>
       if py_eq tz (PStr "pnet1") then Ok (PStr TRANSPORT_TYPE_VLAN)
       else if py_eq tz (PStr "tz-overlay") || py_eq tz (PStr "tz-ens")
       then Ok (PStr TRANSPORT_TYPE_OVERLAY)
       else Raise ResourceNotFound;
     get_host_switch_mode := fun tz =>
       Ok (PStr (if py_eq tz (PStr "tz-ens")
                 then HOST_SWITCH_MODE_ENS
                 else HOST_SWITCH_MODE_STANDARD)) |}.

Definition sample_switches (physical_net : pyval) : result pyval :=
  if py_eq physical_net (PStr "ls-1") then Ok (PStr "ls-1")
  else Raise ResourceNotFound.

(** [_validate_provider_create] of a plugin that allows ENS networks,
    with the ranges of scenario A, on that backend. *)
Definition sample_plan (session : list NetworkBinding)
    (network_data : gmap string pyval) (transparent_vlan : bool)
  : result (resolved * gmap string pyval) :=
  _validate_provider_create pnet1_ranges elements (fun _ => PStr "tz-overlay")
    true (fun _ => Ok None) session network_data
    (PStr "pnet1") (PStr "tz-overlay") sample_zones sample_switches
    transparent_vlan.

(** The backend refuses to delete the DHCP server. *)
Definition dhcp_server_delete_fails : nat -> call -> option exn :=
  fun _ c => match c with
             | DhcpServerDelete _ => Some ManagerError
             | _ => None
             end.

(** The creation of the logical port fails with an exception that is not
    a [ManagerError]. *)
Definition logical_port_create_breaks : nat -> call -> option exn :=
  fun _ c => match c with
             | LogicalPortCreate _ _ => Some TypeError
             | _ => None
             end.

(** A plugin with native DHCP and metadata whose checks all pass, and a
    store with the DHCP-enabled subnet 3 of network 7. *)
Definition sample_collaborators : collaborators :=
  {| _has_native_dhcp_metadata := true;
     _validate_host_routes_input := fun _ => Returns tt;
     _validate_external_subnet := fun _ => Returns tt;
     get_network := fun _ => ∅;
     vlan_transparent := false;
     _is_overlay_network := fun _ => PBool true;
     _is_vlan_router_interface_supported := PNone;
     _validate_address_space := fun _ => Returns tt;
     process_create_subnet := fun _ _ => Returns tt;
     dhcp_relay_service := fun _ => PNone;
     _subnet_check_ip_allocations_internal_router_ports := fun _ => Returns tt;
     create_subnet_check := fun _ => Returns tt;
     delete_subnet_check := fun _ => Returns tt |}.

Definition dhcp_subnet : subnet :=
  {| subnet_id := 3; sn_network_id := 7; enable_dhcp := true |}.

Definition sample_store : store :=
  {| subnets := [dhcp_subnet];
     dhcp := {| wd := enabled_world; trace := [] |};
     errors := [] |}.

(** Port security collaborators over a store that holds nothing: port
    security and the security groups are those of the request, a port
    has an IP when the request has fixed IPs. *)
Definition request_port_security (port_data : gmap string pyval)
  : pyval * bool :=
  (dict_get port_data PORTSECURITY,
   py_truthy (dict_get port_data "fixed_ips")).

Definition request_has_security_groups (port_data : gmap string pyval)
  : bool :=
  is_attr_set (dict_get port_data SECURITYGROUPS)
  && negb (py_eq (dict_get port_data SECURITYGROUPS) (PList [])).

Definition sample_preprocess_create (port_data : gmap string pyval)
  : result (unit * gmap string pyval
            * (pyval * bool * list pyatom * list pyatom)) :=
  _create_port_preprocess_security (fun ip => bool_decide (is_Some ip)) unit
    request_port_security (PBool false)
    (fun st _ _ => Ok st) (fun st _ _ => Ok st)
    (fun st port_data => Ok (st, port_data))
    (fun _ port_data => (Rollback.atoms (dict_get port_data SECURITYGROUPS), []))
    request_has_security_groups (fun _ _ => PList [])
    (fun _ port_data => Ok (dict_get port_data SECURITYGROUPS))
    tt port_data ∅ (PBool false).

Definition sample_preprocess_update
    (port_data updated_port : gmap string pyval)
  : outcome (unit * gmap string pyval) :=
  _update_port_preprocess_security (fun ip => bool_decide (is_Some ip)) unit
    (PBool false) (fun st _ _ => Ok st)
    request_has_security_groups
    (fun _ port_data => Ok (dict_get port_data SECURITYGROUPS))
    (fun port_data => dict_has port_data ADDRESS_PAIRS
                      && negb (py_truthy (dict_get port_data ADDRESS_PAIRS)))
    (fun port_data => py_truthy (dict_get port_data ADDRESS_PAIRS))
    (fun port_data => dict_has port_data SECURITYGROUPS
                      && negb (py_truthy (dict_get port_data SECURITYGROUPS)))
    (fun _ _ => PBool true)
    (fun updated_port => py_truthy (dict_get updated_port "fixed_ips"))
    (fun _ _ => PList []) (fun st _ => st) (fun _ _ => PList [])
    (fun st _ => st)
    (fun st updated_port sgids =>
       Ok (st, <[SECURITYGROUPS := sgids]> updated_port))
    (fun st port_data updated_port =>
       Ok (st, <[PORTSECURITY := dict_get port_data PORTSECURITY]>
                 updated_port))
    tt port_data "port-1" updated_port (PBool false) (PBool true)
    (PBool false).

End Samples.

(** * Properties *)

(** ** Truthiness of the Python connectives *)

Lemma truthy_and a b : py_truthy (py_and a b) = py_truthy a && py_truthy b.
Proof. unfold py_and. destruct (py_truthy a) eqn:E; simpl; auto. Qed.

Lemma truthy_or a b : py_truthy (py_or a b) = py_truthy a || py_truthy b.
Proof. unfold py_or. destruct (py_truthy a) eqn:E; simpl; auto. Qed.

Lemma truthy_not a : py_truthy (py_not a) = negb (py_truthy a).
Proof. reflexivity. Qed.

Lemma truthy_ne a b : py_truthy (py_ne a b) = negb (py_eq a b).
Proof. reflexivity. Qed.

Lemma py_eq_refl a : py_eq a a = true.
Proof.
  unfold py_eq. destruct (py_num a) eqn:E.
  - apply Z.eqb_refl.
  - apply bool_decide_eq_true; reflexivity.
Qed.

Lemma py_eq_sym a b : py_eq a b = py_eq b a.
Proof.
  unfold py_eq. destruct (py_num a), (py_num b); auto.
  - apply Z.eqb_sym.
  - apply bool_decide_ext. split; congruence.
Qed.

Ltac truthy :=
  repeat first [ rewrite truthy_and | rewrite truthy_or
               | rewrite truthy_not | rewrite truthy_ne ].

(** ** Router gateway transition planner *)

Section GatewayPlanner.
Import Gateway.
Local Open Scope py_scope.

(** Scenario B of the specification: the tier-0 router and the gateway
    address both change while SNAT stays enabled. *)
Example gw_scenario_B :
  let a := _get_update_router_gw_actions
             (PStr "T0-A") (PStr "10.0.0.5") (PBool true)
             (PStr "T0-B") (PStr "10.0.0.6") (PBool true)
             (PBool false) (PBool false) in
  map flag_set (all_flags a)
  = [true; true; false; false; true; true; false; false;
     true; false; false; false].
Proof. reflexivity. Qed.

Ltac gw_unfold :=
  unfold every_flag_false, all_flags, add_flag, remove_flag, flag_set,
    _get_update_router_gw_actions;
  cbn [remove_router_link_port remove_snat_rules remove_no_dnat_rules
       revocate_bgp_announce add_router_link_port add_snat_rules
       add_no_dnat_rules bgp_announce advertise_route_nat_flag
       advertise_route_connected_flag add_service_router
       remove_service_router].

Ltac gw_bool :=
  gw_unfold; truthy; rewrite ?py_eq_refl;
  repeat match goal with
         | |- context [py_truthy ?v] => destruct (py_truthy v)
         | |- context [py_eq ?a ?b] => destruct (py_eq a b)
         end;
  try reflexivity; try tauto; try discriminate.

(** C2, as stated, fails: with no gateway at all and SNAT disabled the
    planner still raises [advertise_route_connected_flag]. *)
Lemma gw_no_change_not_all_false :
  every_flag_false
    (_get_update_router_gw_actions PNone PNone (PBool false)
                                   PNone PNone (PBool false)
                                   (PBool false) (PBool false)) = false.
Proof. reflexivity. Qed.

(** C2 (amended): planning a transition from a gateway state to itself
    leaves every Add/Remove flag of the link port, the SNAT rules, the
    No-DNAT rules and the service router false, and the BGP revoke flag
    false; the two advertise flags describe the target state and not a
    change: [advertise_route_nat_flag] is the SNAT flag and
    [advertise_route_connected_flag] its negation. *)
Theorem gw_no_change_transition_flags (t a s lb fw : pyval) :
  let acts := _get_update_router_gw_actions t a s t a s lb fw in
  flag_set (remove_router_link_port acts) = false /\
  flag_set (add_router_link_port acts) = false /\
  flag_set (remove_snat_rules acts) = false /\
  flag_set (add_snat_rules acts) = false /\
  flag_set (remove_no_dnat_rules acts) = false /\
  flag_set (add_no_dnat_rules acts) = false /\
  flag_set (revocate_bgp_announce acts) = false /\
  flag_set (add_service_router acts) = false /\
  flag_set (remove_service_router acts) = false /\
  advertise_route_nat_flag acts = PBool (py_truthy s) /\
  advertise_route_connected_flag acts = PBool (negb (py_truthy s)).
Proof.
  intros acts. subst acts. repeat split; gw_bool.
Qed.

(** On a gateway that does not change ([tier0] set, SNAT off) the planner
    still raises [bgp_announce]: its last test is [not org_enable_snat],
    where the comment above it reads "enable_snat is updated from True to
    False". *)
Example gw_bgp_announce_on_unchanged_gateway :
  flag_set (bgp_announce
              (_get_update_router_gw_actions
                 (PStr "T0-A") (PStr "10.0.0.5") (PBool false)
                 (PStr "T0-A") (PStr "10.0.0.5") (PBool false)
                 (PBool false) (PBool false))) = true.
Proof. reflexivity. Qed.

(** C4, as stated, fails on the service-router pair: attaching a gateway
    with SNAT switched off does not ask for a service router, but planning
    the way back (detaching that gateway) asks to remove one. *)
Lemma gw_service_router_pair_not_inverse :
  flag_set (add_flag ServiceRouter
              (_get_update_router_gw_actions
                 PNone PNone (PBool true)
                 (PStr "T0-A") (PStr "10.0.0.5") (PBool false)
                 (PBool false) (PBool false)))
  <> flag_set (remove_flag ServiceRouter
              (_get_update_router_gw_actions
                 (PStr "T0-A") (PStr "10.0.0.5") (PBool false)
                 PNone PNone (PBool true)
                 (PBool false) (PBool false))).
Proof. vm_compute. discriminate. Qed.

(** C4 (amended): for every pair of gateway states, the plan from old to
    new and the plan from new to old are inverse on the router link port,
    the SNAT rules and the No-DNAT rules: the Add flag of one run has the
    truth value of the Remove flag of the other.  On the service router
    the plans are inverse only up to the gateway address: the backward
    run removes the service router when the forward run adds it, and also
    whenever the new state has an address and the old one has none. *)
Theorem gw_round_trip_inverse (ot oa os nt na ns lb fw : pyval) :
  let fwd := _get_update_router_gw_actions ot oa os nt na ns lb fw in
  let bwd := _get_update_router_gw_actions nt na ns ot oa os lb fw in
  flag_set (add_flag RouterLinkPort fwd)
    = flag_set (remove_flag RouterLinkPort bwd) /\
  flag_set (remove_flag RouterLinkPort fwd)
    = flag_set (add_flag RouterLinkPort bwd) /\
  flag_set (add_flag SnatRules fwd)
    = flag_set (remove_flag SnatRules bwd) /\
  flag_set (remove_flag SnatRules fwd)
    = flag_set (add_flag SnatRules bwd) /\
  flag_set (add_flag NoDnatRules fwd)
    = flag_set (remove_flag NoDnatRules bwd) /\
  flag_set (remove_flag NoDnatRules fwd)
    = flag_set (add_flag NoDnatRules bwd) /\
  flag_set (remove_flag ServiceRouter bwd)
    = flag_set (add_flag ServiceRouter fwd)
      || (py_truthy na && negb (py_truthy oa)
          && negb (py_truthy fw || py_truthy lb)).
Proof.
  intros fwd bwd. subst fwd bwd.
  repeat split; gw_unfold; truthy;
    rewrite ?(py_eq_sym oa na), ?(py_eq_sym ot nt);
    repeat match goal with
           | |- context [py_truthy ?v] => destruct (py_truthy v)
           | |- context [py_eq ?a ?b] => destruct (py_eq a b)
           end; reflexivity.
Qed.

(** C9: for every combination of arguments the planner never sets both
    [add_service_router] and [remove_service_router], and when a load
    balancer or a firewall exists on the router it sets neither. *)
Theorem gw_service_router_flags_exclusive
    (ot oa os nt na ns lb fw : pyval) :
  let acts := _get_update_router_gw_actions ot oa os nt na ns lb fw in
  flag_set (add_service_router acts)
    && flag_set (remove_service_router acts) = false /\
  (py_truthy lb || py_truthy fw)
    && (flag_set (add_service_router acts)
        || flag_set (remove_service_router acts)) = false.
Proof.
  intros acts. subst acts. split; gw_bool.
Qed.

End GatewayPlanner.

(** ** Segment allocator *)

Section SegmentAllocator.
Import Provider.

Variable _network_vlans : gmap string (list (Z * Z)).
Variable list_of_set : gset Z -> list Z.

Lemma elem_of_range_set (lo hi z : Z) : z ∈ range_set lo hi ↔ lo ≤ z ≤ hi.
Proof.
  unfold range_set. rewrite elem_of_list_to_set, elem_of_seqZ. lia.
Qed.

Lemma elem_of_union_ranges (rs : list (Z * Z)) (acc : gset Z) (z : Z) :
  z ∈ foldl (fun vlan_ids '(vlan_min, vlan_max) =>
               vlan_ids ∪ range_set vlan_min vlan_max) acc rs
  ↔ z ∈ acc ∨ ∃ lo hi, (lo, hi) ∈ rs ∧ lo ≤ z ≤ hi.
Proof.
  revert acc. induction rs as [|[lo hi] rs IH]; intros acc; simpl.
  - split; [auto|]. intros [H|(lo & hi & H & _)]; [done|].
    by apply elem_of_nil in H.
  - rewrite IH, elem_of_union, elem_of_range_set. split.
    + intros [[H|H]|(lo' & hi' & H & Hz)]; [by left| |].
      * right. exists lo, hi. split; [left|done].
      * right. exists lo', hi'. split; [by right|done].
    + intros [H|(lo' & hi' & H & Hz)]; [by left; left|].
      apply elem_of_cons in H as [H|H].
      * inversion H; subst. left; by right.
      * right. eauto.
Qed.

Lemma elem_of_candidate_ids (P : pyval) (z : Z) :
  z ∈ candidate_ids _network_vlans P ↔ in_configured_ranges _network_vlans P z.
Proof.
  unfold candidate_ids, in_configured_ranges. cbv zeta.
  change (match P with
          | PStr name => default [] (_network_vlans !! name)
          | _ => []
          end) with (vlan_ranges_of _network_vlans P).
  destruct (vlan_ranges_of _network_vlans P) as [|r rs] eqn:E.
  - rewrite bool_decide_eq_true_2 by done. apply elem_of_range_set.
  - rewrite bool_decide_eq_false_2 by done. rewrite elem_of_union_ranges.
    split; [intros [H|H]; [by apply elem_of_empty in H|done]|by right].
Qed.

Lemma elem_of_used_ids (session : list NetworkBinding) (P : pyval) (z : Z) :
  z ∈ used_ids session P ↔ bound_on session P z.
Proof.
  unfold used_ids, bound_on, get_network_bindings_by_phy_uuid.
  rewrite elem_of_list_to_set, list_elem_of_omap.
  setoid_rewrite list_elem_of_filter. split.
  - intros (b & [Hp Hb] & Hv). by exists b.
  - intros (b & Hb & Hp & Hv). by exists b.
Qed.

(** [vlan_ids ^ used_ids_in_range] is the candidate set minus the used
    set, because the used ids were first restricted to the candidates. *)
Lemma free_ids_difference (session : list NetworkBinding) (P : pyval) :
  let vlan_ids := candidate_ids _network_vlans P in
  sym_diff vlan_ids
    (list_to_set
       (omap (fun b => match b_vlan_id b with
                       | Some v => if decide (v ∈ vlan_ids) then Some v else None
                       | None => None
                       end)
             (get_network_bindings_by_phy_uuid session P)))
  = vlan_ids ∖ used_ids session P.
Proof.
  intros vlan_ids. unfold sym_diff, used_ids. apply set_eq. intros z.
  rewrite elem_of_union, !elem_of_difference, !elem_of_list_to_set,
    !list_elem_of_omap.
  split.
  - intros [[Hz Hn]|[(b & Hb & Hv) Hn]].
    + split; [done|]. intros (b & Hb & Hv). apply Hn. exists b.
      split; [done|]. rewrite Hv. by rewrite decide_True.
    + destruct (b_vlan_id b) as [v|]; [|done].
      destruct (decide (v ∈ vlan_ids)); [|done]. by simplify_eq.
  - intros [Hz Hn]. left. split; [done|].
    intros (b & Hb & Hv). apply Hn. exists b. split; [done|].
    destruct (b_vlan_id b) as [v|]; [|done].
    destruct (decide (v ∈ vlan_ids)); by simplify_eq.
Qed.

(** The enumeration of a set lists exactly its elements. *)
Hypothesis list_of_set_spec : ∀ (X : gset Z) (x : Z), x ∈ list_of_set X ↔ x ∈ X.

(** C3: for every physical network and configured ranges the allocator
    either returns a tag that lies inside the configured ranges (the legal
    range when none is configured) and is bound to no network of that
    physical network, recording it in the request, or raises
    [NoNetworkAvailable]; it raises exactly when the candidate set minus
    the used set is empty, that is when every tag inside the configured
    ranges (the legal range when none is configured) is bound to a
    network of that physical network in the Binding Store. *)
Theorem generate_segment_id_allocates_free_tag
    (session : list NetworkBinding) (P : pyval) (net_data : gmap string pyval) :
  let r := _generate_segment_id _network_vlans list_of_set session P net_data in
  match r with
  | Ok (tag, net_data') =>
      ∃ z, tag = PInt z
           ∧ in_configured_ranges _network_vlans P z
           ∧ ¬ bound_on session P z
           ∧ net_data' = <[SEGMENTATION_ID := PInt z]> net_data
  | Raise e => e = NoNetworkAvailable
  end
  ∧ (r = Raise NoNetworkAvailable
     ↔ ∀ z, in_configured_ranges _network_vlans P z → bound_on session P z).
Proof.
  intros r. subst r. unfold _generate_segment_id.
  rewrite free_ids_difference.
  set (free := candidate_ids _network_vlans P ∖ used_ids session P).
  destruct (list_of_set free) as [|z zs] eqn:E.
  - split; [done|]. split; [intros _|done]. intros x Hx.
    destruct (decide (x ∈ used_ids session P)) as [Hu|Hu];
      [by apply elem_of_used_ids|].
    assert (Hfree : x ∈ free).
    { apply elem_of_difference. split; [|done].
      by apply elem_of_candidate_ids. }
    apply list_of_set_spec in Hfree. rewrite E in Hfree.
    by apply elem_of_nil in Hfree.
  - assert (Hz : z ∈ free) by (apply list_of_set_spec; rewrite E; left).
    apply elem_of_difference in Hz as [Hc Hu].
    rewrite elem_of_candidate_ids in Hc. rewrite elem_of_used_ids in Hu.
    split; [by exists z|].
    split; [done|]. intros Hall. destruct Hu. by apply Hall.
Qed.

End SegmentAllocator.

Section SegmentAllocatorExamples.
Import Provider.

(** Scenario A of the specification, with the sets enumerated by
    [elements]: tag 100 is bound, so 101 or 102 is allocated. *)
Example segment_scenario_A :
  ∃ z, _generate_segment_id pnet1_ranges elements
         [pnet1_binding "net-a" 100] (PStr "pnet1") ∅
       = Ok (PInt z, {[ SEGMENTATION_ID := PInt z ]}) ∧ (z = 101 ∨ z = 102).
Proof. vm_compute. eexists. split; [reflexivity|]. auto. Qed.

Example segment_scenario_A_exhausted :
  _generate_segment_id pnet1_ranges elements
    [pnet1_binding "net-a" 100; pnet1_binding "net-b" 102;
     pnet1_binding "net-c" 101] (PStr "pnet1") ∅
  = Raise NoNetworkAvailable.
Proof. vm_compute. reflexivity. Qed.

Lemma generate_segment_id_allocates_free_tag_witness :
  let session := [pnet1_binding "net-a" 100] in
  let r := _generate_segment_id pnet1_ranges elements session
             (PStr "pnet1") ∅ in
  match r with
  | Ok (tag, net_data') =>
      ∃ z, tag = PInt z
           ∧ in_configured_ranges pnet1_ranges (PStr "pnet1") z
           ∧ ¬ bound_on session (PStr "pnet1") z
           ∧ net_data' = <[SEGMENTATION_ID := PInt z]> ∅
  | Raise e => e = NoNetworkAvailable
  end
  ∧ (r = Raise NoNetworkAvailable
     ↔ ∀ z, in_configured_ranges pnet1_ranges (PStr "pnet1") z →
            bound_on session (PStr "pnet1") z).
Proof.
  apply (generate_segment_id_allocates_free_tag pnet1_ranges elements).
  intros X x. apply elem_of_elements.
Defined.

End SegmentAllocatorExamples.

(** ** Provider-network binding planner *)

Section BindingPlanner.
Import Provider.

Variable _network_vlans : gmap string (list (Z * Z)).
Variable list_of_set : gset Z -> list Z.
Variable _get_nsx_net_tz_id : pyval -> pyval.
Variable _allow_ens_networks : bool.
Variable _validate_ens_net_portsecurity :
  gmap string pyval -> result (option pyval).
Variable session : list NetworkBinding.
Variables default_vlan_tz_uuid default_overlay_tz_uuid : pyval.
Variable nsxlib_tz : tz_client.
Variable nsxlib_network_get : pyval -> result pyval.

Local Abbreviation plan :=
  (_validate_provider_create _network_vlans list_of_set _get_nsx_net_tz_id
     _allow_ens_networks _validate_ens_net_portsecurity session).
Local Abbreviation allocate :=
  (_generate_segment_id _network_vlans list_of_set session).
Local Abbreviation finish :=
  (finish_provider_create _allow_ens_networks _validate_ens_net_portsecurity
     default_overlay_tz_uuid nsxlib_tz).

Lemma vlan_request_type nd seg :
  dict_get (vlan_request nd seg) NETWORK_TYPE = PStr VLAN.
Proof. unfold vlan_request, dict_get. by rewrite lookup_insert_eq. Qed.

Lemma vlan_request_phys nd seg :
  dict_get (vlan_request nd seg) PHYSICAL_NETWORK
  = dict_get nd PHYSICAL_NETWORK.
Proof.
  unfold vlan_request, dict_get. rewrite lookup_insert_ne by done.
  destruct seg; [by rewrite lookup_insert_ne|by rewrite lookup_delete_ne].
Qed.

Lemma vlan_request_seg nd seg :
  dict_get (vlan_request nd seg) SEGMENTATION_ID = default PNone seg.
Proof.
  unfold vlan_request, dict_get. rewrite lookup_insert_ne by done.
  destruct seg; [by rewrite lookup_insert_eq|by rewrite lookup_delete_eq].
Qed.

(** Every request of type vlan is a [vlan_request]. *)
Lemma vlan_request_covers (nd : gmap string pyval) :
  nd !! NETWORK_TYPE = Some (PStr VLAN) →
  nd = vlan_request nd (nd !! SEGMENTATION_ID).
Proof.
  intros Hty. unfold vlan_request.
  destruct (nd !! SEGMENTATION_ID) as [v|] eqn:Hseg.
  - by rewrite (insert_id nd SEGMENTATION_ID v), insert_id.
  - by rewrite delete_id, insert_id.
Qed.

(** The request's own segmentation id does not survive an allocation. *)
Lemma vlan_request_realloc nd seg tag :
  <[SEGMENTATION_ID := tag]> (vlan_request nd seg)
  = vlan_request nd (Some tag).
Proof.
  unfold vlan_request. rewrite insert_insert_ne by done. f_equal.
  destruct seg; [by rewrite insert_insert_eq|by rewrite insert_delete_eq].
Qed.

Lemma attr_unset_cases (v : pyval) :
  (is_attr_set v = false ∧ (v = PNone ∨ v = PUnset))
  ∨ (is_attr_set v = true ∧ v ≠ PNone).
Proof.
  destruct v; vm_compute;
    first [ left; split; [reflexivity|auto]
          | right; split; [reflexivity|discriminate] ].
Qed.

Lemma resolve_physical nd vlan data :
  let p := dict_get nd PHYSICAL_NETWORK in
  let l := {| l_net_type := PStr VLAN;
              l_physical_net := if negb (is_attr_set p) then PNone else p;
              l_vlan_id := vlan; l_err_msg := None;
              l_tz_type := PStr TRANSPORT_TYPE_VLAN;
              l_switch_mode := PStr HOST_SWITCH_MODE_STANDARD;
              l_network_data := data |} in
  (if is_none (if negb (is_attr_set p) then PNone else p)
   then with_physical_net default_vlan_tz_uuid l else l)
  = vlan_locals (requested_physical_net nd default_vlan_tz_uuid) vlan data.
Proof.
  intros p l. subst l. unfold requested_physical_net. fold p.
  destruct (attr_unset_cases p) as [[-> _]|[-> Hp]]; cbn [negb].
  - reflexivity.
  - unfold is_none. rewrite bool_decide_eq_false_2 by done. reflexivity.
Qed.

(** A vlan request, outside transparent-VLAN mode, reaches the VLAN
    branch with its physical network resolved. *)
Lemma plan_vlan_request nd seg :
  let vlan := if negb (is_attr_set (default PNone seg))
              then PNone else default PNone seg in
  let physical := requested_physical_net nd default_vlan_tz_uuid in
  let request := vlan_request nd seg in
  plan request default_vlan_tz_uuid default_overlay_tz_uuid
       nsxlib_tz nsxlib_network_get false
  = (l ← (if negb (py_truthy vlan) then
            '(tag, net_data) ← allocate physical request;
            Ok (vlan_locals physical tag net_data)
          else
            valid ← is_valid_vlan_tag vlan;
            if negb valid then
              Ok (with_err_msg (SegIdOutOfRange vlan)
                               (vlan_locals physical vlan request))
            else if nonempty (get_network_bindings_by_vlanid_and_physical_net
                                session vlan physical)
            then Raise (VlanIdInUse vlan physical)
            else Ok (vlan_locals physical vlan request));
     finish true l).
Proof.
  intros vlan physical request.
  unfold _validate_provider_create.
  subst request. rewrite vlan_request_type, vlan_request_phys, vlan_request_seg.
  fold vlan. rewrite andb_false_r.
  cbn [existsb]. rewrite vlan_request_type.
  change (is_attr_set (PStr VLAN)) with true. cbn [orb].
  f_equal.
  unfold plan_by_net_type.
  cbn [l_net_type l_physical_net l_vlan_id].
  change (is_attr_set (PStr VLAN)) with true.
  change (py_eq (PStr VLAN) (PStr FLAT)) with false.
  change (py_eq (PStr VLAN) (PStr VLAN)) with true.
  cbn [negb]. cbv iota.
  rewrite (resolve_physical nd). fold physical.
  cbn [vlan_locals l_physical_net l_network_data].
  destruct (negb (py_truthy vlan)); [|reflexivity].
  destruct (allocate physical (vlan_request nd seg)) as [[tag net_data]|e];
    reflexivity.
Qed.

Lemma allocate_request nd seg physical :
  allocate physical (vlan_request nd seg)
  = match allocate physical ∅ with
    | Ok (tag, _) => Ok (tag, vlan_request nd (Some tag))
    | Raise e => Raise e
    end.
Proof.
  unfold _generate_segment_id.
  match goal with |- context [list_of_set ?X] => destruct (list_of_set X) end;
    [reflexivity|]. by rewrite vlan_request_realloc.
Qed.

Lemma check_transport_zone_keeps is_provider l l' :
  check_transport_zone nsxlib_tz is_provider l = Ok l' →
  l_vlan_id l' = l_vlan_id l ∧ l_network_data l' = l_network_data l
  ∧ l_physical_net l' = l_physical_net l ∧ l_net_type l' = l_net_type l.
Proof.
  unfold check_transport_zone.
  destruct (_ && _); [|by intros [= <-]].
  destruct is_provider.
  - destruct (get_transport_type nsxlib_tz (l_physical_net l)) as [ty|e];
      [destruct (negb (py_eq ty (l_tz_type l)))|destruct (is_ResourceNotFound e)];
      cbn [mbind result_bind]; try discriminate;
      match goal with
      | |- context [bool_decide ?P] => destruct (bool_decide P)
      end; cbn [negb];
      try (destruct (get_host_switch_mode nsxlib_tz _); cbn [mbind result_bind]);
      try discriminate; by intros [= <-].
  - cbn [mbind result_bind].
    destruct (negb _); [|by intros [= <-]].
    destruct (get_host_switch_mode nsxlib_tz _); cbn [mbind result_bind];
      try discriminate; by intros [= <-].
Qed.

Lemma finish_ok is_provider l r data :
  finish is_provider l = Ok (r, data) →
  vlan_id r = l_vlan_id l ∧ net_type r = l_net_type l
  ∧ physical_net r = (if is_none (l_physical_net l)
                      then default_overlay_tz_uuid else l_physical_net l)
  ∧ dict_get data SEGMENTATION_ID
    = dict_get (l_network_data l) SEGMENTATION_ID.
Proof.
  unfold finish_provider_create.
  set (l1 := if is_none (l_physical_net l) then _ else l).
  assert (H1 : l_vlan_id l1 = l_vlan_id l ∧ l_network_data l1 = l_network_data l
               ∧ l_net_type l1 = l_net_type l
               ∧ l_physical_net l1 = (if is_none (l_physical_net l)
                      then default_overlay_tz_uuid else l_physical_net l)).
  { subst l1. by destruct (is_none (l_physical_net l)). }
  destruct H1 as (Hv & Hd & Ht & Hp).
  destruct (check_transport_zone nsxlib_tz is_provider l1) as [l2|e] eqn:E;
    cbn [mbind result_bind]; [|discriminate].
  apply check_transport_zone_keeps in E as (Hv2 & Hd2 & Hp2 & Ht2).
  destruct (l_err_msg l2); [discriminate|].
  destruct (py_eq (l_switch_mode l2) _).
  - destruct (negb _allow_ens_networks); cbn [mbind result_bind]; [discriminate|].
    destruct (_assert_on_ens_with_qos _); cbn [mbind result_bind]; [|discriminate].
    destruct (_validate_ens_net_portsecurity _) as [[v|]|];
      cbn [mbind result_bind]; [| |discriminate].
    + intros [= <- <-]. cbn [vlan_id net_type physical_net].
      repeat split; [congruence..|].
      unfold dict_get. rewrite lookup_insert_ne by done. by rewrite Hd2, Hd.
    + intros [= <- <-]. cbn [vlan_id net_type physical_net].
      repeat split; congruence.
  - cbn [mbind result_bind]. intros [= <- <-].
    cbn [vlan_id net_type physical_net]. repeat split; congruence.
Qed.

Lemma finish_err is_provider l m :
  l_err_msg l = Some m → finish is_provider l = Raise (InvalidInput m).
Proof.
  intros Hm. unfold finish_provider_create.
  set (l1 := if is_none (l_physical_net l) then _ else l).
  assert (H1 : l_err_msg l1 = Some m).
  { subst l1. by destruct (is_none (l_physical_net l)). }
  unfold check_transport_zone. rewrite H1.
  rewrite bool_decide_eq_true_2 by eauto. cbn [negb andb mbind result_bind].
  by rewrite H1.
Qed.

Lemma bound_on_nonempty physical (z : Z) :
  bound_on session physical z →
  nonempty (get_network_bindings_by_vlanid_and_physical_net
              session (PInt z) physical) = true.
Proof.
  intros (b & Hb & Hp & Hv).
  unfold get_network_bindings_by_vlanid_and_physical_net.
  assert (Hin : b ∈ filter
            (λ b, py_eq (py_of_vlan (b_vlan_id b)) (PInt z)
                  && py_eq (py_of_phy (b_phy_uuid b)) physical = true) session).
  { apply list_elem_of_filter. split; [|done].
    rewrite Hv, Hp. cbn. by rewrite Z.eqb_refl. }
  destruct (filter _ session); [by apply elem_of_nil in Hin|done].
Qed.

(** What the planner does once the allocator was invoked for a vlan
    request: an exhausted pool is reported as it is, and an allocated tag
    is planned further like a requested one. *)
Lemma plan_untagged_vlan_request nd seg :
  let vlan := if negb (is_attr_set (default PNone seg))
              then PNone else default PNone seg in
  py_truthy vlan = false →
  let request := vlan_request nd seg in
  let physical := requested_physical_net nd default_vlan_tz_uuid in
  let planned := plan request default_vlan_tz_uuid default_overlay_tz_uuid
                      nsxlib_tz nsxlib_network_get false in
  match allocate physical request with
  | Raise e => planned = Raise e
  | Ok (tag, _) =>
      planned = finish true (vlan_locals physical tag
                                         (vlan_request nd (Some tag)))
      ∧ match planned with
        | Ok (r, request') =>
            vlan_id r = tag
            ∧ dict_get request' SEGMENTATION_ID = tag
            ∧ physical_net r = (if is_none physical
                                then default_overlay_tz_uuid else physical)
        | Raise _ => True
        end
  end.
Proof.
  intros vlan Hvlan request physical planned. subst planned request.
  rewrite plan_vlan_request. fold vlan physical. rewrite Hvlan. cbn [negb].
  rewrite allocate_request.
  destruct (allocate physical ∅) as [[tag ?]|e]; cbn [mbind result_bind];
    [|reflexivity].
  split; [reflexivity|].
  destruct (finish true _) as [[r request']|e] eqn:E; [|done].
  apply finish_ok in E as (Hv & _ & Hp & Hd).
  cbn [vlan_locals l_vlan_id l_physical_net l_network_data] in Hv, Hp, Hd.
  rewrite vlan_request_seg in Hd. done.
Qed.


(** C7 (amended): outside transparent-VLAN mode, for every vlan-type
    request: an explicit segmentation id other than 0 that falls outside
    [MIN_VLAN_TAG, MAX_VLAN_TAG] is rejected with [InvalidInput]; an id
    inside the range for which the Binding Store holds a binding on the
    request's physical network fails with [VlanIdInUse]; a request whose
    segmentation id is missing, unset or 0 invokes the Segment Allocator;
    the physical network is the requested one, else the default VLAN
    transport zone. *)
Theorem vlan_segmentation_id_is_checked (nd : gmap string pyval) (z : Z) :
  let physical := requested_physical_net nd default_vlan_tz_uuid in
  let plan_of seg :=
    plan (vlan_request nd seg) default_vlan_tz_uuid default_overlay_tz_uuid
         nsxlib_tz nsxlib_network_get false in
  (z ≠ 0 → ¬ (MIN_VLAN_TAG ≤ z ≤ MAX_VLAN_TAG) →
   plan_of (Some (PInt z)) = Raise (InvalidInput (SegIdOutOfRange (PInt z))))
  ∧ (MIN_VLAN_TAG ≤ z ≤ MAX_VLAN_TAG → bound_on session physical z →
     plan_of (Some (PInt z)) = Raise (VlanIdInUse (PInt z) physical))
  ∧ (∀ seg, seg ∈ [None; Some PNone; Some PUnset; Some (PInt 0)] →
     match allocate physical (vlan_request nd seg) with
     | Raise e => plan_of seg = Raise e
     | Ok (tag, _) =>
         plan_of seg = finish true (vlan_locals physical tag
                                                (vlan_request nd (Some tag)))
         ∧ match plan_of seg with
           | Ok (r, request') =>
               vlan_id r = tag
               ∧ dict_get request' SEGMENTATION_ID = tag
               ∧ physical_net r = (if is_none physical
                                   then default_overlay_tz_uuid else physical)
           | Raise _ => True
           end
     end).
Proof.
  intros physical plan_of. subst plan_of. cbv beta. repeat split.
  - intros Hz Hout. rewrite plan_vlan_request. fold physical.
    cbn [default from_option id]. change (is_attr_set (PInt z)) with true.
    cbn [negb py_truthy]. rewrite (proj2 (Z.eqb_neq z 0) Hz). cbn [negb].
    unfold is_valid_vlan_tag. cbn [py_num mbind result_bind].
    replace ((MIN_VLAN_TAG <=? z) && (z <=? MAX_VLAN_TAG)) with false
      by (symmetry; apply andb_false_iff; lia).
    cbn [negb mbind result_bind]. by apply finish_err.
  - intros Hin Hb. rewrite plan_vlan_request. fold physical.
    cbn [default from_option id]. change (is_attr_set (PInt z)) with true.
    cbn [negb py_truthy].
    rewrite (proj2 (Z.eqb_neq z 0)) by (unfold MIN_VLAN_TAG in Hin; lia).
    cbn [negb]. unfold is_valid_vlan_tag. cbn [py_num mbind result_bind].
    replace ((MIN_VLAN_TAG <=? z) && (z <=? MAX_VLAN_TAG)) with true
      by (symmetry; apply andb_true_iff; lia).
    cbn [negb]. by rewrite bound_on_nonempty.
  - intros seg Hseg. apply (plan_untagged_vlan_request nd seg).
    repeat (apply elem_of_cons in Hseg as [->|Hseg]; [reflexivity|]).
    by apply elem_of_nil in Hseg.
Qed.

End BindingPlanner.

Section BindingPlannerExamples.
Import Provider.

(** C7, as stated, fails: the explicit segmentation id 0 lies outside the
    legal range, yet the request is accepted (a tag is allocated). *)
Lemma vlan_segmentation_id_zero_not_rejected :
  ¬ (MIN_VLAN_TAG ≤ 0 ≤ MAX_VLAN_TAG)
  ∧ sample_validate [pnet1_binding "net-a" 100]
      (vlan_request ∅ (Some (PInt 0))) false
    = Ok ({| is_provider_net := true; net_type := PStr VLAN;
             physical_net := PStr "pnet1"; vlan_id := PInt 101;
             switch_mode := PStr HOST_SWITCH_MODE_STANDARD |},
          vlan_request ∅ (Some (PInt 101))).
Proof. split; [unfold MIN_VLAN_TAG; lia|]. vm_compute. reflexivity. Qed.


(** In transparent-VLAN mode nothing is allocated: the id 0 is kept. *)
Example vlan_segmentation_id_zero_transparent :
  sample_validate [] (vlan_request ∅ (Some (PInt 0))) true
  = Ok ({| is_provider_net := true; net_type := PStr VLAN;
           physical_net := PStr "pnet1"; vlan_id := PInt 0;
           switch_mode := PStr HOST_SWITCH_MODE_STANDARD |},
        vlan_request ∅ (Some (PInt 0))).
Proof. vm_compute. reflexivity. Qed.

Lemma vlan_segmentation_id_is_checked_witness :
  sample_validate [pnet1_binding "net-a" 100]
    (vlan_request ∅ (Some (PInt 5000))) false
  = Raise (InvalidInput (SegIdOutOfRange (PInt 5000)))
  ∧ sample_validate [pnet1_binding "net-a" 100]
      (vlan_request ∅ (Some (PInt 100))) false
    = Raise (VlanIdInUse (PInt 100) (PStr "pnet1")).
Proof.
  pose proof (vlan_segmentation_id_is_checked pnet1_ranges elements
                (fun _ => PNone) false (fun _ => Ok None)
                [pnet1_binding "net-a" 100] (PStr "pnet1")
                (PStr "tz-overlay") vlan_standard_tz
                (fun _ => Raise ResourceNotFound) ∅) as H.
  split.
  - apply (H 5000); [lia|unfold MIN_VLAN_TAG, MAX_VLAN_TAG; lia].
  - apply (H 100); [unfold MIN_VLAN_TAG, MAX_VLAN_TAG; lia|].
    exists (pnet1_binding "net-a" 100).
    split; [left|split; reflexivity].
Defined.

End BindingPlannerExamples.

(** ** Port validation *)

Lemma bind_ok {A B} (m : result A) (k : A → result B) (b : B) :
  m ≫= k = Ok b → ∃ a, m = Ok a ∧ k a = Ok b.
Proof. destruct m as [a|e]; [eauto|discriminate]. Qed.

Section PortValidation.
Import Port.

Variable is_port_trusted : pyval -> bool.
Variable _network_is_external : pyval -> bool.
Variable _validate_qos_policy_id : pyval -> result unit.
Variable _validate_max_ips_per_port : pyval -> pyval -> result unit.
Variable VPN_PORT_OWNER : string.

(** C5, as stated, fails for port create validation: it accepts a DHCP
    port whose request switches port security on. *)
Lemma create_accepts_port_security_on_trusted_port :
  neutron_is_port_trusted
    (dict_get trusted_port_with_port_security "device_owner") = true
  ∧ dict_get trusted_port_with_port_security PORTSECURITY = PBool true
  ∧ sample_validate_create_port trusted_port_with_port_security = Ok tt.
Proof. repeat split; vm_compute; reflexivity. Qed.

(** C5 (amended): for every port update whose device owner (the requested
    one, else the port's own) is trusted, a request that carries
    [port_security_enabled=True] or [mac_learning_enabled=True] is
    rejected with a validation error ([_assert_on_port_sec_change] raises
    [InvalidInput] unless an earlier check already rejected the request),
    so a request accepted by port update validation carries neither.
    Port create validation makes no such check. *)
Theorem update_rejects_security_on_trusted_port
    (id : string) (original_port port_data : gmap string pyval) :
  let device_owner := effective_device_owner original_port port_data in
  let psec := dict_get port_data PORTSECURITY in
  let mac_learning := dict_get port_data MAC_LEARNING in
  let r := _validate_update_port is_port_trusted _network_is_external
             _validate_qos_policy_id _validate_max_ips_per_port
             VPN_PORT_OWNER id original_port port_data in
  is_port_trusted device_owner = true →
  (psec = PBool true →
   _assert_on_port_sec_change is_port_trusted port_data device_owner
   = Raise (InvalidInput PortSecurityOnTrustedPort))
  ∧ (psec ≠ PBool true → mac_learning = PBool true →
     _assert_on_port_sec_change is_port_trusted port_data device_owner
     = Raise (InvalidInput MacLearningOnTrustedPort))
  ∧ (r = Ok tt → psec ≠ PBool true ∧ mac_learning ≠ PBool true)
  ∧ (psec = PBool true ∨ mac_learning = PBool true → ∃ e, r = Raise e).
Proof.
  intros device_owner psec mac_learning r Htrusted.
  assert (Hsec1 : psec = PBool true →
    _assert_on_port_sec_change is_port_trusted port_data device_owner
    = Raise (InvalidInput PortSecurityOnTrustedPort)).
  { intros Hp. unfold _assert_on_port_sec_change. rewrite Htrusted.
    fold psec. by rewrite Hp. }
  assert (Hsec2 : psec ≠ PBool true → mac_learning = PBool true →
    _assert_on_port_sec_change is_port_trusted port_data device_owner
    = Raise (InvalidInput MacLearningOnTrustedPort)).
  { intros Hp Hm. unfold _assert_on_port_sec_change. rewrite Htrusted.
    fold psec mac_learning. unfold py_is_true.
    rewrite (bool_decide_eq_false_2 _ Hp), Hm. reflexivity. }
  assert (Hok : r = Ok tt → psec ≠ PBool true ∧ mac_learning ≠ PBool true).
  { subst r. unfold _validate_update_port. fold device_owner. intros H.
    repeat (apply bind_ok in H as (? & ? & H)).
    destruct (decide (psec = PBool true)) as [Hp|Hp].
    { rewrite (Hsec1 Hp) in *. discriminate. }
    split; [done|]. intros Hm. rewrite (Hsec2 Hp Hm) in *. discriminate. }
  repeat split; try done; try (by apply Hok).
  intros Hreq. destruct r as [[]|e] eqn:E; [|by eexists].
  destruct (Hok eq_refl) as [Hp Hm]. by destruct Hreq.
Qed.

End PortValidation.

Section PortValidationExamples.
Import Port.

(** The check of port update validation reads the request only: a port
    that has port security on and is handed over to DHCP by an update
    that does not mention port security is accepted. *)
Example update_accepts_new_trusted_owner :
  sample_validate_update_port
    {[ "network_id" := PStr "net-1"; "device_owner" := PStr "";
       PORTSECURITY := PBool true ]}
    {[ "device_owner" := PStr DEVICE_OWNER_DHCP ]}
  = Ok tt.
Proof. vm_compute. reflexivity. Qed.

Lemma update_rejects_security_on_trusted_port_witness :
  let original_port : gmap string pyval :=
    {[ "network_id" := PStr "net-1";
       "device_owner" := PStr DEVICE_OWNER_DHCP ]} in
  let port_data : gmap string pyval := {[ PORTSECURITY := PBool true ]} in
  _assert_on_port_sec_change neutron_is_port_trusted port_data
    (effective_device_owner original_port port_data)
  = Raise (InvalidInput PortSecurityOnTrustedPort)
  ∧ ∃ e, sample_validate_update_port original_port port_data = Raise e.
Proof.
  intros original_port port_data.
  pose proof (update_rejects_security_on_trusted_port
                neutron_is_port_trusted (fun _ => false) (fun _ => Ok tt)
                (fun _ _ => Ok tt) "vpnservice" "port-1"
                original_port port_data eq_refl) as (H1 & _ & _ & H4).
  split.
  - apply H1. reflexivity.
  - apply H4. left. reflexivity.
Defined.

End PortValidationExamples.

(** ** Rollback of a port update *)

Section PortRollback.
Import Port Rollback.




End PortRollback.

(** ** Native DHCP saga *)

Section DhcpSaga.
Import Dhcp.
Local Open Scope nat_scope.
Local Open Scope list_scope.

Variable E : env.

Lemma M_bind_inv {A B} (m : M A) (k : A → M B) s r s' :
  (m ≫= k) s = (r, s') →
  (∃ a s1, m s = (Ok a, s1) ∧ k a s1 = (r, s'))
  ∨ (∃ e, m s = (Raise e, s') ∧ r = Raise e).
Proof.
  unfold mbind, M_bind. destruct (m s) as [[a|e] s1]; intros H.
  - left. eauto.
  - right. injection H as <- <-. eauto.
Qed.

Lemma invoke_inv {A} (c : call) (effect : world → A * world) s r s' :
  invoke E c effect s = (r, s') →
  (∃ e, r = Raise e
        ∧ s' = {| wd := wd s; trace := Raised c e :: trace s |})
  ∨ (r = Ok (effect (wd s)).1
     ∧ s' = {| wd := (effect (wd s)).2; trace := Called c :: trace s |}).
Proof.
  unfold invoke. destruct (faults E _ c) as [e|].
  - intros [= <- <-]. left. eauto.
  - destruct (effect (wd s)) as [a w]. intros [= <- <-]. right. eauto.
Qed.

Lemma backend_inv {A} (c : call) (effect : world → A * world) s r s' :
  backend E c effect s = (r, s') →
  (nsxlib E = false ∧ r = Raise AttributeError ∧ s' = s)
  ∨ (nsxlib E = true
     ∧ ((∃ e, r = Raise e
              ∧ s' = {| wd := wd s; trace := Raised c e :: trace s |})
        ∨ (r = Ok (effect (wd s)).1
           ∧ s' = {| wd := (effect (wd s)).2;
                     trace := Called c :: trace s |}))).
Proof.
  unfold backend. destruct (nsxlib E).
  - intros H. right. split; [done|]. by apply invoke_inv.
  - intros [= <- <-]. left. eauto.
Qed.

Lemma try_catch_inv {A} (body : M A) handles (handler : exn → M A) s r s' :
  try_catch body handles handler s = (r, s') →
  (∃ a, body s = (Ok a, s') ∧ r = Ok a)
  ∨ (∃ e, body s = (Raise e, s') ∧ handles e = false ∧ r = Raise e)
  ∨ (∃ e s1, body s = (Raise e, s1) ∧ handles e = true
             ∧ handler e s1 = (r, s')).
Proof.
  unfold try_catch. destruct (body s) as [[a|e] s1].
  - intros [= <- <-]. left. eauto.
  - destruct (handles e) eqn:He.
    + intros H. right; right. eauto.
    + intros [= <- <-]. right; left. eauto.
Qed.

Lemma save_and_reraise_inv {A} (e : exn) (cleanup : M unit) s (r : result A) s' :
  save_and_reraise_exception e cleanup s = (r, s') →
  (cleanup s = (Ok tt, s') ∧ r = Raise e)
  ∨ (∃ e', cleanup s = (Raise e', s') ∧ r = Raise e').
Proof.
  unfold save_and_reraise_exception. destruct (cleanup s) as [[[]|e'] s1].
  - intros [= <- <-]. left. eauto.
  - intros [= <- <-]. right. eauto.
Qed.

Ltac saga_inv H :=
  lazymatch type of H with
  | (_ ≫= _) _ = _ =>
      let H1 := fresh "Hstep" in
      apply M_bind_inv in H as [(? & ? & H1 & H)|(? & H & ?)]
  | invoke _ _ _ _ = _ =>
      apply invoke_inv in H as [(? & ? & ?)|[? ?]]
  | backend _ _ _ _ = _ =>
      apply backend_inv in H as [(? & ? & ?)|[? [(? & ? & ?)|[? ?]]]]
  | try_catch _ _ _ _ = _ =>
      let H1 := fresh "Hbody" in
      let Hh := fresh "Hhandles" in
      apply try_catch_inv in H
        as [(? & H & ?)|[(? & H & Hh & ?)|(? & ? & H1 & Hh & H)]]
  | save_and_reraise_exception _ _ _ = _ =>
      apply save_and_reraise_inv in H as [[H ?]|(? & H & ?)]
  | log _ _ = _ => unfold log in H
  | read _ _ = _ => unfold read in H
  | raise _ _ = _ => unfold raise in H
  | mret _ _ = _ => unfold mret, M_ret in H
  end; simplify_eq; try congruence.

Ltac saga_unfold :=
  unfold _cleanup_port,
    create_port, delete_port, dhcp_server_create, dhcp_server_delete,
    logical_port_create, logical_port_delete, add_neutron_nsx_port_mapping,
    add_neutron_nsx_service_binding, delete_neutron_nsx_service_binding,
    delete_neutron_nsx_dhcp_bindings_by_service_id,
    _create_port_preprocess_security, _build_dhcp_server_config,
    _build_port_name, _add_dhcp_binding in *.

Ltac saga_norm :=
  cbn [wd trace fst snd w_ports w_port_mappings w_service_bindings
       w_dhcp_bindings w_dhcp_servers w_logical_ports set_ports
       set_port_mappings set_service_bindings set_dhcp_bindings
       set_dhcp_servers set_logical_ports] in *.

Ltac saga_run :=
  repeat (match goal with
          | H : _ = (_, _) |- _ => progress (saga_inv H)
          | H : context [if nsxlib E then _ else _] |- _ =>
              destruct (nsxlib E) eqn:?
          | H : (match ?x with Some _ => _ | None => _ end) _ = (_, _) |- _ =>
              destruct x eqn:?
          | H : (let '(_, _) := ?x in _) _ = (_, _) |- _ =>
              destruct x eqn:?
          end; saga_norm).

Lemma trace_grows_nil (tr : list event) : tr = [] ++ tr.
Proof. reflexivity. Qed.

Lemma trace_grows_cons (ev : event) (evs l tr : list event) :
  l = evs ++ tr → ev :: l = (ev :: evs) ++ tr.
Proof. by intros ->. Qed.

Ltac trace_grows :=
  repeat first [ apply trace_grows_nil | apply trace_grows_cons ].

Lemma service_binding_deleted (network : nat) (l : list service_binding) :
  filter (λ b, sb_network_id b = network)
         (filter (λ b, sb_network_id b ≠ network) l) = [].
Proof.
  induction l as [|b l IH]; [done|].
  rewrite filter_cons. destruct (decide (sb_network_id b ≠ network)) as [Hn|Hn].
  - rewrite filter_cons. by rewrite decide_False.
  - done.
Qed.

(** What a run of [_disable_native_dhcp] does: its events are its own,
    it creates nothing, and when it returns the network has no DhcpBinding
    row. *)
Lemma disable_spec (network : nat) (s : state) (r : result unit) (s' : state) :
  _disable_native_dhcp E network s = (r, s') →
  (∃ evs, trace s' = evs ++ trace s ∧ forallb disable_event evs = true)
  ∧ (r = Ok tt → get_nsx_service_binding (wd s') network = None)
  ∧ w_ports (wd s') ⊆ w_ports (wd s)
  ∧ w_dhcp_servers (wd s') ⊆ w_dhcp_servers (wd s)
  ∧ w_logical_ports (wd s') ⊆ w_logical_ports (wd s).
Proof.
  intros H. unfold _disable_native_dhcp in H. saga_unfold. saga_run.
  all: split; [eexists; split; [trace_grows|reflexivity]|].
  all: split;
    [intros Hr; try discriminate Hr; try done;
     unfold get_nsx_service_binding; saga_norm;
     by rewrite service_binding_deleted|].
  all: saga_norm; repeat split; try reflexivity.
  all: intros y Hy; by apply list_elem_of_filter in Hy as [_ Hy].
Qed.

Lemma last_raised_disable (evs tr : list event) :
  forallb disable_event evs = true →
  last_raised (evs ++ tr) = last_raised tr
  ∨ ∃ c e, last_raised (evs ++ tr) = Some (c, e)
           ∧ saga_step_4_to_6 c = false.
Proof.
  induction evs as [|ev evs IH]; [by left|].
  cbn [forallb app]. intros [Hev Hevs]%andb_true_iff.
  destruct ev as [c|c e|m]; cbn [last_raised]; [by apply IH| |by apply IH].
  right. exists c, e. split; [done|]. by destruct c.
Qed.

(** Step 7 touches the per-port DHCP bindings only, and stops at the first
    binding that cannot be added. *)
Lemma for_each_binding_spec (ports : list port) s r s' :
  for_each ports (_add_dhcp_binding E) s = (r, s') →
  (w_ports (wd s') = w_ports (wd s)
   ∧ w_port_mappings (wd s') = w_port_mappings (wd s)
   ∧ w_service_bindings (wd s') = w_service_bindings (wd s)
   ∧ w_dhcp_servers (wd s') = w_dhcp_servers (wd s)
   ∧ w_logical_ports (wd s') = w_logical_ports (wd s))
  ∧ ((r = Ok tt ∧ last_raised (trace s') = last_raised (trace s)
      ∧ ∀ c e, Raised c e ∈ trace s' → Raised c e ∈ trace s)
     ∨ (∃ p e tr, r = Raise e
                  ∧ trace s' = Raised (AddDhcpBinding p) e :: tr)).
Proof.
  revert s. induction ports as [|p ports IH]; intros s H; cbn [for_each] in H.
  - unfold mret, M_ret in H. simplify_eq. split; [done|]. left. done.
  - apply M_bind_inv in H as [(? & s1 & H1 & H)|(? & H & ?)].
    + apply IH in H as [(Hp & Hm & Hb & Hs & Hl) Htr].
      unfold _add_dhcp_binding in H1.
      apply invoke_inv in H1 as [(? & ? & ?)|[? ->]]; [done|].
      cbn [wd trace fst snd] in *.
      split.
      * by destruct (get_nsx_service_binding (wd s) (network_id p)).
      * destruct Htr as [(-> & Hlast & Hin)|Hraise]; [|by right].
        left. split; [done|]. split; [done|].
        intros c e Hce. apply Hin in Hce.
        apply elem_of_cons in Hce as [?|?]; done.
    + unfold _add_dhcp_binding in H.
      apply invoke_inv in H as [(e & ? & ->)|[? ?]]; [|simplify_eq].
      simplify_eq. cbn [wd trace]. split; [done|]. right. eauto.
Qed.

Lemma fresh_not_in (ids : list nat) : fresh ids ∉ ids.
Proof.
  intros Hin. apply max_list_elem_of_le in Hin. unfold fresh in Hin. lia.
Qed.

Lemma filter_keeps_all {A} (P : A → Prop) `{!∀ x, Decision (P x)}
    (l : list A) :
  (∀ x, x ∈ l → P x) → filter P l = l.
Proof.
  induction l as [|x l IH]; intros Hall; [done|].
  rewrite filter_cons_True by (apply Hall; left).
  f_equal. apply IH. intros y Hy. apply Hall. by right.
Qed.

(** Deleting the resource that was created last, under its fresh
    identifier, gives back the list as it was. *)
Lemma filter_fresh_id {A} (f : A → nat) (x : A) (l : list A) :
  f x = fresh (f <$> l) →
  filter (λ y, f y ≠ fresh (f <$> l)) (x :: l) = l.
Proof.
  intros Hx. rewrite filter_cons_False by (by intros Hn; apply Hn).
  apply filter_keeps_all. intros y Hy Heq.
  apply (fresh_not_in (f <$> l)). rewrite <- Heq.
  by apply list_elem_of_fmap_2.
Qed.

Lemma filter_fresh (l : list nat) :
  filter (λ i, i ≠ fresh l) (fresh l :: l) = l.
Proof.
  rewrite filter_cons_False by (by intros Hn; apply Hn).
  apply filter_keeps_all. intros y Hy ->. by apply (fresh_not_in l).
Qed.

(** C1 (amended): if a run of [_enable_native_dhcp] fails at the backend
    DHCP-server creation, at the backend logical-port creation or at the persistence
    of one of the two mappings (steps 4 to 6), with an exception the
    handler of that [try] block catches, and that failure is the last
    exception of the run (the compensation itself went through), then the
    error propagates, the network has no DhcpBinding row, and the local
    ports, the backend DHCP servers and the backend logical ports are
    those left by the initial cleanup of step 1: the DHCP port, the DHCP
    server and the logical port the run created are gone, and nothing is
    there that was not there before the call. *)
Theorem enable_failure_is_compensated (network subnet : nat) (w : world)
    (r : result unit) (s' : state) (c : call) (e : exn) :
  run (_enable_native_dhcp E network subnet) w = (r, s') →
  last_raised (trace s') = Some (c, e) →
  saga_step_4_to_6 c = true →
  caught_by_handler c e = true →
  r = Raise e
  ∧ get_nsx_service_binding (wd s') network = None
  ∧ (∃ s1, run (_disable_native_dhcp E network) w = (Ok tt, s1)
           ∧ w_ports (wd s') = w_ports (wd s1)
           ∧ w_dhcp_servers (wd s') = w_dhcp_servers (wd s1)
           ∧ w_logical_ports (wd s') = w_logical_ports (wd s1))
  ∧ w_ports (wd s') ⊆ w_ports w
  ∧ w_dhcp_servers (wd s') ⊆ w_dhcp_servers w
  ∧ w_logical_ports (wd s') ⊆ w_logical_ports w.
Proof.
  intros H Hlast Hstep46 Hcaught. unfold run, _enable_native_dhcp in H.
  apply M_bind_inv in H as [([] & s1 & Hdis & H)|(? & Hdis & ?)].
  2:{ apply disable_spec in Hdis as [(evs & Hevs & Hall) _].
      rewrite Hevs in Hlast.
      destruct (last_raised_disable evs [] Hall) as [Hl|(c' & e' & Hl & Hc)];
        cbn [trace] in *; rewrite Hl in Hlast; simplify_eq. congruence. }
  pose proof Hdis as Hspec.
  apply disable_spec in Hspec
    as [(evs & Hevs & Hall) (Hnone & Hports & Hservers & Hlports)].
  specialize (Hnone eq_refl). cbn [trace wd] in Hevs, Hports, Hservers, Hlports.
  saga_unfold. saga_run.
  all: cbn [last_raised] in Hlast.
  all: try match goal with
       | H : for_each _ _ _ = _ |- _ =>
           apply for_each_binding_spec in H
             as [_ [(_ & Hl & _)|(? & ? & ? & _ & Hl)]];
           saga_norm; rewrite Hl in Hlast
       end.
  all: cbn [last_raised] in Hlast.
  all: try (rewrite Hevs in Hlast;
            destruct (last_raised_disable evs [] Hall)
              as [Hd|(c' & e' & Hd & Hc)];
            rewrite Hd in Hlast; simplify_eq; congruence).
  all: simplify_eq; try discriminate Hstep46.
  all: cbn [caught_by_handler] in Hcaught; try congruence.
  all: rewrite ?(filter_fresh_id port_id), ?filter_fresh,
         ?(filter_fresh_id lp_id) by reflexivity.
  all: split; [reflexivity|]; split; [assumption|].
  all: split; [eexists; split; [exact Hdis|done]|done].
Qed.

Lemma binding_failure_not_disable (evs : list event) (p : nat) (e : exn) :
  forallb disable_event evs = true → Raised (AddDhcpBinding p) e ∉ evs.
Proof.
  intros Hall Hin. apply list_elem_of_In in Hin.
  by apply (proj1 (forallb_forall _ _) Hall) in Hin.
Qed.

Ltac not_in_trace Hin Hevs Hall :=
  repeat (apply elem_of_cons in Hin as [Hin|Hin]; [discriminate Hin|]);
  rewrite Hevs, app_nil_r in Hin;
  by apply binding_failure_not_disable in Hin.

(** C8 (amended): if adding the DHCP binding of one of the ports
    snapshotted before the enable (step 7) raises any exception, the run
    of [_enable_native_dhcp] logs the error and returns normally, and the
    backend DHCP server, the two mappings, the backend logical port and
    the local DHCP port it created are all in place. *)
Theorem binding_failure_is_not_fatal (network subnet : nat) (w : world)
    (r : result unit) (s' : state) (p : nat) (e : exn) :
  run (_enable_native_dhcp E network subnet) w = (r, s') →
  Raised (AddDhcpBinding p) e ∈ trace s' →
  r = Ok tt
  ∧ Logged (UnableToCreateDhcpBindings subnet) ∈ trace s'
  ∧ ∃ server port switch nsx_port,
      get_nsx_service_binding (wd s') network
      = Some {| sb_network_id := network; sb_port_id := Some port;
                sb_nsx_service_id := server |}
      ∧ server ∈ w_dhcp_servers (wd s')
      ∧ {| port_id := port; network_id := network;
           device_owner := DEVICE_OWNER_DHCP; subnet_ids := [subnet] |}
        ∈ w_ports (wd s')
      ∧ {| pm_neutron_id := port; pm_nsx_switch_id := switch;
           pm_nsx_port_id := nsx_port |} ∈ w_port_mappings (wd s')
      ∧ {| lp_id := nsx_port; lp_switch_id := switch;
           lp_attachment_id := server |} ∈ w_logical_ports (wd s').
Proof.
  intros H Hin. unfold run, _enable_native_dhcp in H.
  apply M_bind_inv in H as [([] & s1 & Hdis & H)|(? & Hdis & ?)].
  2:{ apply disable_spec in Hdis as [(evs & Hevs & Hall) _].
      cbn [trace] in Hevs. not_in_trace Hin Hevs Hall. }
  apply disable_spec in Hdis as [(evs & Hevs & Hall) _].
  cbn [trace] in Hevs.
  saga_unfold. saga_run.
  all: try (not_in_trace Hin Hevs Hall).
  all: match goal with
       | H : for_each _ _ _ = _ |- _ =>
           apply for_each_binding_spec in H
             as [(Hp & Hm & Hb & Hs & Hl)
                   [(Hr & _ & Hsub)|(? & ? & ? & Hr & _)]];
           try discriminate Hr; saga_norm
       end.
  all: try (apply elem_of_cons in Hin as [Hin|Hin]; [discriminate Hin|]).
  all: try (apply Hsub in Hin; not_in_trace Hin Hevs Hall).
  all: split; [reflexivity|]; split; [by left|].
  all: eexists _, _, _, _.
  all: unfold get_nsx_service_binding; rewrite Hp, Hm, Hb, Hs, Hl.
  all: rewrite filter_cons_True by reflexivity.
  all: repeat split; by left.
Qed.

End DhcpSaga.

Section DhcpSagaExamples.
Import Dhcp.
Local Open Scope nat_scope.

(** Enabling native DHCP on the sample network, with no failure. *)
Example enable_sample_network :
  run (_enable_native_dhcp (sample_env no_faults) 7 3) sample_world
  = (Ok tt,
     {| wd := enabled_world;
        trace := [ Called (AddDhcpBinding 1); Called (AddServiceBinding 7 2 1);
                   Called (AddPortMapping 2 107 1);
                   Called (LogicalPortCreate 107 1); Called (BuildPortName 2);
                   Called (DhcpServerCreate 7);
                   Called (BuildDhcpServerConfig 7 3 2);
                   Called (PreprocessSecurity 2); Called (CreatePort 7 3) ] |}).
Proof. vm_compute. reflexivity. Qed.

(** Scenario C of the specification: the backend DHCP-server creation
    fails; no DhcpBinding row and no local DHCP port are left. *)
Example dhcp_scenario_C :
  run (_enable_native_dhcp (sample_env dhcp_server_create_fails) 7 3)
      sample_world
  = (Raise ManagerError,
     {| wd := sample_world;
        trace := [ Called (DeletePort 2); Logged (UnableToCreateDhcpServer 7);
                   Raised (DhcpServerCreate 7) ManagerError;
                   Called (BuildDhcpServerConfig 7 3 2);
                   Called (PreprocessSecurity 2); Called (CreatePort 7 3) ] |}).
Proof. vm_compute. reflexivity. Qed.

(** C1, as stated, fails: the backend logical-port creation fails and the
    compensating deletion of the DHCP server fails too.  The second
    [ManagerError] leaves the handler before it deletes the local DHCP
    port: the error propagates with the backend DHCP server 1 and the
    local DHCP port 2 of the run still in place. *)
Lemma enable_failure_with_failing_compensation :
  run (_enable_native_dhcp (sample_env compensation_fails) 7 3) sample_world
  = (Raise ManagerError,
     {| wd := {| w_ports := [ {| port_id := 2; network_id := 7;
                                 device_owner := DEVICE_OWNER_DHCP;
                                 subnet_ids := [3] |}; compute_port ];
                 w_port_mappings := []; w_service_bindings := [];
                 w_dhcp_bindings := []; w_dhcp_servers := [1];
                 w_logical_ports := [] |};
        trace := [ Raised (DhcpServerDelete 1) ManagerError;
                   Logged (UnableToCreateDhcpServer 7);
                   Raised (LogicalPortCreate 107 1) ManagerError;
                   Called (BuildPortName 2); Called (DhcpServerCreate 7);
                   Called (BuildDhcpServerConfig 7 3 2);
                   Called (PreprocessSecurity 2); Called (CreatePort 7 3) ] |}).
Proof. vm_compute. reflexivity. Qed.

Lemma enable_failure_is_compensated_witness :
  let out := run (_enable_native_dhcp (sample_env logical_port_create_fails)
                                      7 3) enabled_world in
  out.1 = Raise ManagerError
  ∧ get_nsx_service_binding (wd out.2) 7 = None
  ∧ (∃ s1, run (_disable_native_dhcp (sample_env logical_port_create_fails) 7)
               enabled_world = (Ok tt, s1)
           ∧ w_ports (wd out.2) = w_ports (wd s1)
           ∧ w_dhcp_servers (wd out.2) = w_dhcp_servers (wd s1)
           ∧ w_logical_ports (wd out.2) = w_logical_ports (wd s1))
  ∧ w_ports (wd out.2) ⊆ w_ports enabled_world
  ∧ w_dhcp_servers (wd out.2) ⊆ w_dhcp_servers enabled_world
  ∧ w_logical_ports (wd out.2) ⊆ w_logical_ports enabled_world.
Proof.
  apply (enable_failure_is_compensated
           (sample_env logical_port_create_fails) 7 3 enabled_world _ _
           (LogicalPortCreate 107 1) ManagerError).
  - apply surjective_pairing.
  - vm_compute. reflexivity.
  - reflexivity.
  - reflexivity.
Defined.

(** C8, as stated, fails on its last part: the failure to add a DHCP
    binding is not the only error that is swallowed.  Here the backend
    raises [ResourceNotFound] when the logical port of the old DHCP port
    is deleted in step 1; the error is logged and the run goes on to
    succeed, with no failure in step 7. *)
Lemma enable_swallows_resource_not_found :
  run (_enable_native_dhcp (sample_env logical_port_is_gone) 7 3)
      enabled_world
  = (Ok tt,
     {| wd := {| w_ports := w_ports enabled_world;
                 w_port_mappings :=
                   [ {| pm_neutron_id := 2; pm_nsx_switch_id := 107;
                        pm_nsx_port_id := 2 |} ];
                 w_service_bindings := w_service_bindings enabled_world;
                 w_dhcp_bindings := w_dhcp_bindings enabled_world;
                 w_dhcp_servers := w_dhcp_servers enabled_world;
                 w_logical_ports :=
                   [ {| lp_id := 2; lp_switch_id := 107;
                        lp_attachment_id := 1 |};
                     {| lp_id := 1; lp_switch_id := 107;
                        lp_attachment_id := 1 |} ] |};
        trace := [ Called (AddDhcpBinding 1); Called (AddServiceBinding 7 2 1);
                   Called (AddPortMapping 2 107 2);
                   Called (LogicalPortCreate 107 1); Called (BuildPortName 2);
                   Called (DhcpServerCreate 7);
                   Called (BuildDhcpServerConfig 7 3 2);
                   Called (PreprocessSecurity 2); Called (CreatePort 7 3);
                   Called (DeleteDhcpBindings 1);
                   Called (DeleteServiceBinding 7);
                   Called (DhcpServerDelete 1);
                   Logged (FailedToDeleteDhcpPort 2 7);
                   Raised (LogicalPortDelete 1) ResourceNotFound;
                   Called (DeletePort 2) ] |}).
Proof. vm_compute. reflexivity. Qed.

Lemma binding_failure_is_not_fatal_witness :
  let out := run (_enable_native_dhcp (sample_env add_dhcp_binding_fails) 7 3)
                 sample_world in
  out.1 = Ok tt
  ∧ Logged (UnableToCreateDhcpBindings 3) ∈ trace out.2
  ∧ ∃ server port switch nsx_port,
      get_nsx_service_binding (wd out.2) 7
      = Some {| sb_network_id := 7; sb_port_id := Some port;
                sb_nsx_service_id := server |}
      ∧ server ∈ w_dhcp_servers (wd out.2)
      ∧ {| port_id := port; network_id := 7;
           device_owner := DEVICE_OWNER_DHCP; subnet_ids := [3] |}
        ∈ w_ports (wd out.2)
      ∧ {| pm_neutron_id := port; pm_nsx_switch_id := switch;
           pm_nsx_port_id := nsx_port |} ∈ w_port_mappings (wd out.2)
      ∧ {| lp_id := nsx_port; lp_switch_id := switch;
           lp_attachment_id := server |} ∈ w_logical_ports (wd out.2).
Proof.
  apply (binding_failure_is_not_fatal
           (sample_env add_dhcp_binding_fails) 7 3 sample_world _ _
           1 ManagerError).
  - apply surjective_pairing.
  - vm_compute. right. left.
Defined.

End DhcpSagaExamples.

(** * Further properties *)

(** ** Lookups and comparisons *)

Lemma py_eq_str (v : pyval) (s : string) : py_eq v (PStr s) = true ↔ v = PStr s.
Proof.
  unfold py_eq. destruct (py_num v) eqn:E; cbn [py_num].
  - split; [done|]. intros ->. discriminate.
  - apply bool_decide_eq_true.
Qed.

Lemma dict_get_insert_ne (d : gmap string pyval) (k k' : string) (v : pyval) :
  k ≠ k' → dict_get (<[k := v]> d) k' = dict_get d k'.
Proof. intros Hk. unfold dict_get. by rewrite lookup_insert_ne. Qed.

Lemma dict_get_insert (d : gmap string pyval) (k : string) (v : pyval) :
  dict_get (<[k := v]> d) k = v.
Proof. unfold dict_get. by rewrite lookup_insert_eq. Qed.

Section GatewayPlannerRelations.
Import Gateway.
Local Open Scope py_scope.

Lemma py_eq_truthy a b : py_eq a b = true → py_truthy a = py_truthy b.
Proof.
  unfold py_eq. destruct (py_num a) as [x|] eqn:Ea, (py_num b) as [y|] eqn:Eb;
    try discriminate.
  - intros ->%Z.eqb_eq.
    destruct a as [| |[]| | |], b as [| |[]| | |]; simplify_eq/=; try reflexivity.
  - by intros ->%bool_decide_eq_true.
Qed.

Ltac gw_flags :=
  unfold add_flag, remove_flag, flag_set, _get_update_router_gw_actions;
  cbn [remove_router_link_port remove_snat_rules remove_no_dnat_rules
       revocate_bgp_announce add_router_link_port add_snat_rules
       add_no_dnat_rules bgp_announce advertise_route_nat_flag
       advertise_route_connected_flag add_service_router
       remove_service_router];
  truthy.

Ltac gw_cases :=
  repeat match goal with
         | |- context [py_truthy ?v] => destruct (py_truthy v)
         | |- context [py_eq ?a ?b] => destruct (py_eq a b)
         end;
  try reflexivity; try tauto; try discriminate.

(** X1: whenever the gateway planner asks for No-DNAT rules to be added it
    also asks for SNAT rules to be added, and whenever it asks for No-DNAT
    rules to be removed it also asks for SNAT rules to be removed. *)
Theorem gw_no_dnat_rules_follow_snat_rules (ot oa os nt na ns lb fw : pyval) :
  let acts := _get_update_router_gw_actions ot oa os nt na ns lb fw in
  (flag_set (add_no_dnat_rules acts) = true →
   flag_set (add_snat_rules acts) = true)
  ∧ (flag_set (remove_no_dnat_rules acts) = true →
     flag_set (remove_snat_rules acts) = true).
Proof.
  intros acts. subst acts. split; gw_flags.
  - destruct (py_eq na oa) eqn:E.
    + apply py_eq_truthy in E. rewrite E. gw_cases.
    + gw_cases.
  - destruct (py_eq na oa) eqn:E.
    + apply py_eq_truthy in E. rewrite E. gw_cases.
    + gw_cases.
Qed.

(** X2: the gateway planner asks for a service router to be added exactly
    when it asks for No-DNAT rules to be added and the router has neither a
    firewall nor a load balancer; it asks for the service router to be
    removed exactly when, with no firewall and no load balancer, it asks for
    No-DNAT rules to be removed or an old gateway address is not followed by
    a new one. *)
Theorem gw_service_router_follows_no_dnat_rules
    (ot oa os nt na ns lb fw : pyval) :
  let acts := _get_update_router_gw_actions ot oa os nt na ns lb fw in
  flag_set (add_service_router acts)
  = flag_set (add_no_dnat_rules acts)
    && negb (py_truthy fw || py_truthy lb)
  ∧ flag_set (remove_service_router acts)
    = (flag_set (remove_no_dnat_rules acts)
       || (py_truthy oa && negb (py_truthy na)))
      && negb (py_truthy fw || py_truthy lb).
Proof.
  intros acts. subst acts. split; gw_flags; gw_cases.
Qed.

(** The router link port is neither removed nor added when the tier-0 router
    stays the same; otherwise the old link port is removed when there was a
    tier-0 router and a new one is added when there is one. *)
Theorem gw_link_port_follows_tier0 (ot oa os nt na ns lb fw : pyval) :
  let acts := _get_update_router_gw_actions ot oa os nt na ns lb fw in
  let removed := flag_set (remove_router_link_port acts) in
  let added := flag_set (add_router_link_port acts) in
  (py_eq ot nt = true → removed = false ∧ added = false)
  ∧ (py_eq ot nt = false →
     removed = py_truthy ot ∧ added = py_truthy nt).
Proof.
  intros acts removed added. subst removed added acts. split; intros E.
  - pose proof (py_eq_truthy _ _ E) as Ht.
    split; gw_flags; rewrite E, Ht; gw_cases.
  - split; gw_flags; rewrite E; gw_cases.
Qed.

End GatewayPlannerRelations.

Section BindingPlannerRules.
Import Provider.

Variable _network_vlans : gmap string (list (Z * Z)).
Variable list_of_set : gset Z -> list Z.
Variable _get_nsx_net_tz_id : pyval -> pyval.
Variable _allow_ens_networks : bool.
Variable _validate_ens_net_portsecurity :
  gmap string pyval -> result (option pyval).
Variable session : list NetworkBinding.
Variables default_vlan_tz_uuid default_overlay_tz_uuid : pyval.
Variable nsxlib_tz : tz_client.
Variable nsxlib_network_get : pyval -> result pyval.

Local Abbreviation plan :=
  (_validate_provider_create _network_vlans list_of_set _get_nsx_net_tz_id
     _allow_ens_networks _validate_ens_net_portsecurity).
Local Abbreviation finish :=
  (finish_provider_create _allow_ens_networks _validate_ens_net_portsecurity
     default_overlay_tz_uuid nsxlib_tz).
Local Abbreviation by_net_type :=
  (plan_by_net_type _network_vlans list_of_set _get_nsx_net_tz_id).

Local Abbreviation final_physical_net l :=
  (if is_none (l_physical_net l) then default_overlay_tz_uuid
   else l_physical_net l).
Local Abbreviation attr_or_none v := (if negb (is_attr_set v) then PNone else v).
Local Abbreviation is_provider_request nd :=
  (existsb (fun f => is_attr_set (dict_get nd f))
           [NETWORK_TYPE; PHYSICAL_NETWORK; SEGMENTATION_ID]).
Local Abbreviation initial_locals nd :=
  {| l_net_type := dict_get nd NETWORK_TYPE;
     l_physical_net := attr_or_none (dict_get nd PHYSICAL_NETWORK);
     l_vlan_id := attr_or_none (dict_get nd SEGMENTATION_ID);
     l_err_msg := None;
     l_tz_type := PStr TRANSPORT_TYPE_VLAN;
     l_switch_mode := PStr HOST_SWITCH_MODE_STANDARD;
     l_network_data := nd |}.

Lemma finish_inv is_provider l r data :
  finish is_provider l = Ok (r, data) →
  let P := final_physical_net l in
  let zone_checked :=
    py_truthy P && negb (py_eq (l_net_type l) (PStr NSX_NETWORK)) in
  l_err_msg l = None
  ∧ is_provider_net r = is_provider
  ∧ net_type r = l_net_type l
  ∧ vlan_id r = l_vlan_id l
  ∧ physical_net r = P
  ∧ (zone_checked = true → is_provider = true →
     ∃ ty, get_transport_type nsxlib_tz P = Ok ty
           ∧ py_eq ty (l_tz_type l) = true)
  ∧ (zone_checked = true →
     get_host_switch_mode nsxlib_tz P = Ok (switch_mode r))
  ∧ (zone_checked = false → switch_mode r = l_switch_mode l)
  ∧ (if py_eq (switch_mode r) (PStr HOST_SWITCH_MODE_ENS) then
       _allow_ens_networks = true
       ∧ is_attr_set (dict_get (l_network_data l) QOS_POLICY_ID) = false
       ∧ ∃ psec, _validate_ens_net_portsecurity (l_network_data l) = Ok psec
                 ∧ data = match psec with
                          | Some v => <[PORTSECURITY := v]> (l_network_data l)
                          | None => l_network_data l
                          end
     else data = l_network_data l).
Proof.
  unfold finish_provider_create.
  set (l1 := if is_none (l_physical_net l) then _ else l).
  assert (H1 : l_vlan_id l1 = l_vlan_id l ∧ l_network_data l1 = l_network_data l
               ∧ l_net_type l1 = l_net_type l ∧ l_err_msg l1 = l_err_msg l
               ∧ l_tz_type l1 = l_tz_type l ∧ l_switch_mode l1 = l_switch_mode l
               ∧ l_physical_net l1 = (if is_none (l_physical_net l)
                      then default_overlay_tz_uuid else l_physical_net l)).
  { subst l1. by destruct (is_none (l_physical_net l)). }
  destruct H1 as (Hv & Hd & Ht & He & Hz & Hs & Hp).
  set (P := if is_none (l_physical_net l) then default_overlay_tz_uuid
            else l_physical_net l) in *.
  intros H. apply bind_ok in H as (l2 & Hc & H).
  assert (Hl2 : l_err_msg l2 = None) by (by destruct (l_err_msg l2)).
  rewrite Hl2 in H.
  assert (Hcheck :
    l_err_msg l = None ∧ l_vlan_id l2 = l_vlan_id l
    ∧ l_network_data l2 = l_network_data l ∧ l_net_type l2 = l_net_type l
    ∧ l_physical_net l2 = P
    ∧ (py_truthy P && negb (py_eq (l_net_type l) (PStr NSX_NETWORK)) = true →
       is_provider = true →
       ∃ ty, get_transport_type nsxlib_tz P = Ok ty
             ∧ py_eq ty (l_tz_type l) = true)
    ∧ (py_truthy P && negb (py_eq (l_net_type l) (PStr NSX_NETWORK)) = true →
       get_host_switch_mode nsxlib_tz P = Ok (l_switch_mode l2))
    ∧ (py_truthy P && negb (py_eq (l_net_type l) (PStr NSX_NETWORK)) = false →
       l_switch_mode l2 = l_switch_mode l)).
  { unfold check_transport_zone in Hc. rewrite He, Hp, Ht in Hc.
    destruct (l_err_msg l) as [m|] eqn:Em.
    { rewrite bool_decide_eq_true_2 in Hc by eauto.
      cbn [negb andb] in Hc. simplify_eq; congruence. }
    rewrite bool_decide_eq_false_2 in Hc by (by intros [? ?]).
    cbn [negb andb] in Hc.
    destruct (py_truthy P && negb (py_eq (l_net_type l) (PStr NSX_NETWORK)));
      [|simplify_eq; repeat split; (done || congruence)].
    apply bind_ok in Hc as (l3 & Hty & Hc).
    destruct is_provider.
    - destruct (get_transport_type nsxlib_tz P) as [ty|e] eqn:Ety.
      + rewrite Hz in Hty.
        destruct (py_eq ty (l_tz_type l)) eqn:Eeq; cbn [negb] in Hty;
          simplify_eq.
        * rewrite ?He, ?Em in Hc.
          rewrite bool_decide_eq_false_2 in Hc by (by intros [? ?]).
          cbn [negb] in Hc. apply bind_ok in Hc as (mode & Hmode & Hc).
          simplify_eq. cbn [l_switch_mode with_switch_mode l_vlan_id
            l_network_data l_net_type l_physical_net].
          rewrite ?Hp in Hmode. repeat split; try done. eauto.
        * cbn [with_err_msg l_err_msg] in Hc.
          rewrite bool_decide_eq_true_2 in Hc by eauto.
          cbn [negb] in Hc. simplify_eq.
      + destruct (is_ResourceNotFound e); simplify_eq.
        cbn [with_err_msg l_err_msg] in Hc.
        rewrite bool_decide_eq_true_2 in Hc by eauto.
        cbn [negb] in Hc. simplify_eq.
    - simplify_eq. rewrite ?He, ?Em in Hc.
      rewrite bool_decide_eq_false_2 in Hc by (by intros [? ?]).
      cbn [negb] in Hc. apply bind_ok in Hc as (mode & Hmode & Hc).
      simplify_eq. cbn [l_switch_mode with_switch_mode l_vlan_id
            l_network_data l_net_type l_physical_net].
      rewrite ?Hp in Hmode. repeat split; try done. }
  destruct Hcheck as (Hem & Hv2 & Hd2 & Ht2 & Hp2 & Hty & Hmode & Hkeep).
  apply bind_ok in H as (data' & Hens & H). simplify_eq.
  cbn [is_provider_net net_type vlan_id physical_net switch_mode].
  rewrite Hd2 in Hens.
  repeat split; try done.
  destruct (py_eq (l_switch_mode l2) (PStr HOST_SWITCH_MODE_ENS));
    [|by simplify_eq].
  destruct _allow_ens_networks; cbn [negb] in Hens; [|done].
  apply bind_ok in Hens as ([] & Hqos & Hens).
  apply bind_ok in Hens as (psec & Hpsec & Hens). simplify_eq.
  unfold _assert_on_ens_with_qos in Hqos.
  destruct (is_attr_set (dict_get (l_network_data l) QOS_POLICY_ID));
    [done|]. eauto.
Qed.


Lemma ens_finish is_provider l r data :
  finish is_provider l = Ok (r, data) →
  dict_get data SEGMENTATION_ID = dict_get (l_network_data l) SEGMENTATION_ID.
Proof.
  intros H. apply finish_inv in H as (_ & _ & _ & _ & _ & _ & _ & _ & Hens).
  destruct (py_eq (switch_mode r) _); [|by rewrite Hens].
  destruct Hens as (_ & _ & [v|] & _ & ->); [|done].
  unfold dict_get. by rewrite lookup_insert_ne.
Qed.

Lemma plan_inv nd tv r nd' :
  plan session nd default_vlan_tz_uuid default_overlay_tz_uuid nsxlib_tz
       nsxlib_network_get tv = Ok (r, nd') →
  py_truthy (attr_or_none (dict_get nd SEGMENTATION_ID)) && tv = false
  ∧ ∃ l, by_net_type session default_vlan_tz_uuid nsxlib_tz nsxlib_network_get
           tv (is_provider_request nd) (initial_locals nd) = Ok l
         ∧ finish (is_provider_request nd) l = Ok (r, nd').
Proof.
  unfold _validate_provider_create.
  destruct (_ && tv); [done|]. intros H. split; [done|].
  apply bind_ok in H as (l & Hl & H). eauto.
Qed.

(** What the branch on the network type leaves, when it sets no error. *)
Lemma by_net_type_inv tv isp l0 l :
  by_net_type session default_vlan_tz_uuid nsxlib_tz nsxlib_network_get
    tv isp l0 = Ok l →
  l_err_msg l0 = None → l_err_msg l = None →
  (∀ k, k ≠ SEGMENTATION_ID → l_network_data l !! k = l_network_data l0 !! k)
  ∧ ((is_attr_set (l_net_type l0) = false ∧ isp = false
      ∧ l = with_net_type PNone l0)
     ∨ (l_net_type l0 = PStr FLAT ∧ l_net_type l = PStr FLAT
        ∧ l_tz_type l = l_tz_type l0 ∧ l_vlan_id l0 = PNone
        ∧ l_vlan_id l = (if tv then PNone else PStr "0")
        ∧ l_physical_net l = (if is_none (l_physical_net l0)
                              then default_vlan_tz_uuid else l_physical_net l0))
     ∨ (l_net_type l0 = PStr VLAN ∧ l_net_type l = PStr VLAN
        ∧ l_tz_type l = l_tz_type l0
        ∧ l_physical_net l = (if is_none (l_physical_net l0)
                              then default_vlan_tz_uuid else l_physical_net l0))
     ∨ (l_net_type l0 = PStr GENEVE
        ∧ py_truthy (l_vlan_id l0) = false
        ∧ l = with_tz_type (PStr TRANSPORT_TYPE_OVERLAY) l0)
     ∨ (l_net_type l0 = PStr NSX_NETWORK ∧ l_net_type l = PStr NSX_NETWORK
        ∧ py_truthy (l_physical_net l0) = true
        ∧ l_physical_net l = l_physical_net l0
        ∧ l_vlan_id l = l_vlan_id l0
        ∧ (∃ nsx_net,
             nsxlib_network_get (l_physical_net l0) = Ok nsx_net
             ∧ get_host_switch_mode nsxlib_tz (_get_nsx_net_tz_id nsx_net)
               = Ok (l_switch_mode l))
        ∧ get_network_bindings_by_vlanid_and_physical_net
            session (PInt 0) (l_physical_net l0) = [])).
Proof.
  unfold plan_by_net_type. intros H He0 He.
  destruct (is_attr_set (l_net_type l0)) eqn:Eset.
  2:{ destruct isp; simplify_eq; try done. split; [done|]. by left. }
  destruct (py_eq (l_net_type l0) (PStr FLAT)) eqn:Eflat.
  { apply py_eq_str in Eflat.
    destruct (is_none (l_vlan_id l0)) eqn:Ev; cbn [negb] in H; simplify_eq.
    apply bool_decide_eq_true in Ev.
    split; [by destruct tv, (is_none (l_physical_net l0))|].
    right; left. by destruct tv, (is_none (l_physical_net l0)). }
  destruct (py_eq (l_net_type l0) (PStr VLAN)) eqn:Evlan.
  { apply py_eq_str in Evlan.
    assert (Hk : ∀ l1 : locals,
      l1 = (if is_none (l_physical_net l0)
            then with_physical_net default_vlan_tz_uuid l0 else l0) →
      l_net_type l1 = PStr VLAN ∧ l_tz_type l1 = l_tz_type l0
      ∧ l_network_data l1 = l_network_data l0
      ∧ l_physical_net l1 = (if is_none (l_physical_net l0)
                              then default_vlan_tz_uuid else l_physical_net l0)).
    { intros l1 ->. by destruct (is_none (l_physical_net l0)). }
    destruct (Hk _ eq_refl) as (Hk1 & Hk2 & Hk3 & Hk4).
    destruct tv; cbn [negb] in H.
    { simplify_eq. split; [by intros; rewrite Hk3|]. right; right; left. done. }
    destruct (py_truthy (l_vlan_id l0)); cbn [negb] in H.
    - apply bind_ok in H as (valid & Hvalid & H).
      destruct valid; cbn [negb] in H; [|simplify_eq].
      destruct (nonempty _); simplify_eq.
      split; [by intros; rewrite Hk3|]. right; right; left. done.
    - apply bind_ok in H as ([tag data] & Hgen & H). simplify_eq.
      cbn [l_network_data l_net_type l_tz_type l_physical_net
           with_vlan_id with_network_data].
      split; [|right; right; left; done].
      intros k Hk0. unfold _generate_segment_id in Hgen.
      destruct (list_of_set _); simplify_eq.
      rewrite lookup_insert_ne by done. by rewrite Hk3. }
  destruct (py_eq (l_net_type l0) (PStr GENEVE)) eqn:Egen.
  { apply py_eq_str in Egen.
    destruct (py_truthy (l_vlan_id l0)) eqn:Ev; simplify_eq.
    split; [done|]. do 3 right; left. done. }
  destruct (py_eq (l_net_type l0) (PStr NSX_NETWORK)) eqn:Ensx; [|simplify_eq].
  apply py_eq_str in Ensx.
  destruct (py_truthy (l_physical_net l0)) eqn:Ep; cbn [negb] in H;
    [|simplify_eq].
  apply bind_ok in H as (l1 & Htry & H).
  destruct (nonempty _) eqn:Eb; simplify_eq.
  unfold try_except in Htry.
  destruct (nsxlib_network_get (l_physical_net l0)) as [nsx_net|e] eqn:Eget;
    cbn [mbind result_bind] in Htry.
  2:{ destruct (is_ResourceNotFound e); simplify_eq. }
  destruct (get_host_switch_mode nsxlib_tz (_get_nsx_net_tz_id nsx_net))
    as [mode|e] eqn:Emode; cbn [mbind result_bind] in Htry.
  2:{ destruct (is_ResourceNotFound e); simplify_eq. }
  simplify_eq. split; [done|]. do 4 right.
  cbn [l_net_type l_physical_net l_vlan_id l_switch_mode with_switch_mode].
  repeat split; try done; [eauto|].
  by destruct (get_network_bindings_by_vlanid_and_physical_net _ _ _).
Qed.


Lemma attr_or_none_cases (v : pyval) :
  (is_attr_set v = false ∧ attr_or_none v = PNone)
  ∨ (is_attr_set v = true ∧ attr_or_none v = v ∧ v ≠ PNone).
Proof.
  destruct (attr_unset_cases v) as [[-> _]|[-> Hv]]; cbn [negb]; auto.
Qed.

Lemma resolve_requested nd default :
  (if is_none (attr_or_none (dict_get nd PHYSICAL_NETWORK))
   then default else attr_or_none (dict_get nd PHYSICAL_NETWORK))
  = requested_physical_net nd default.
Proof.
  unfold requested_physical_net.
  destruct (attr_or_none_cases (dict_get nd PHYSICAL_NETWORK))
    as [[-> ->]|(-> & -> & Hp)]; [done|].
  unfold is_none. by rewrite bool_decide_eq_false_2.
Qed.

Lemma is_provider_request_false nd :
  is_attr_set (dict_get nd NETWORK_TYPE) = false →
  is_attr_set (dict_get nd PHYSICAL_NETWORK) = false →
  is_attr_set (dict_get nd SEGMENTATION_ID) = false →
  is_provider_request nd = false.
Proof. cbn [existsb]. by intros -> -> ->. Qed.

Lemma is_provider_request_typed nd :
  is_attr_set (dict_get nd NETWORK_TYPE) = true →
  is_provider_request nd = true.
Proof. cbn [existsb]. by intros ->. Qed.

(** X3: a network request with no network type, physical network or
    segmentation id is planned without reading the binding store or the
    logical switches; a plan that is accepted is no provider network, has
    neither type nor VLAN id and sits on the default overlay transport zone;
    and when that zone is set and the backend reports a host switch mode
    other than ENS for it, the request is accepted with that mode and handed
    back unchanged. *)
Theorem plain_network_resolves_to_overlay_zone
    (nd : gmap string pyval) (tv : bool) :
  let planned := plan session nd default_vlan_tz_uuid default_overlay_tz_uuid
                      nsxlib_tz nsxlib_network_get tv in
  is_attr_set (dict_get nd NETWORK_TYPE) = false →
  is_attr_set (dict_get nd PHYSICAL_NETWORK) = false →
  is_attr_set (dict_get nd SEGMENTATION_ID) = false →
  planned = plan [] nd default_vlan_tz_uuid default_overlay_tz_uuid
                 nsxlib_tz (fun _ => Raise ResourceNotFound) tv
  ∧ (∀ r nd', planned = Ok (r, nd') →
       is_provider_net r = false ∧ net_type r = PNone ∧ vlan_id r = PNone
       ∧ physical_net r = default_overlay_tz_uuid)
  ∧ (∀ mode, py_truthy default_overlay_tz_uuid = true →
       get_host_switch_mode nsxlib_tz default_overlay_tz_uuid = Ok mode →
       py_eq mode (PStr HOST_SWITCH_MODE_ENS) = false →
       planned = Ok ({| is_provider_net := false; net_type := PNone;
                        physical_net := default_overlay_tz_uuid;
                        vlan_id := PNone; switch_mode := mode |}, nd)).
Proof.
  intros planned Hty Hphys Hseg.
  assert (Hplan : ∀ sess get,
    plan sess nd default_vlan_tz_uuid default_overlay_tz_uuid nsxlib_tz get tv
    = finish false
        {| l_net_type := PNone; l_physical_net := PNone; l_vlan_id := PNone;
           l_err_msg := None; l_tz_type := PStr TRANSPORT_TYPE_VLAN;
           l_switch_mode := PStr HOST_SWITCH_MODE_STANDARD;
           l_network_data := nd |}).
  { intros sess get. unfold _validate_provider_create.
    rewrite (is_provider_request_false nd) by done.
    rewrite Hphys, Hseg. cbn [negb py_truthy andb].
    unfold plan_by_net_type. cbn [l_net_type]. rewrite Hty. reflexivity. }
  subst planned. rewrite !Hplan. split; [done|]. split.
  - intros r nd' H. apply finish_inv in H as (_ & ? & ? & ? & ? & _). done.
  - intros mode Ht Hmode Hens. unfold finish_provider_create, check_transport_zone.
    cbn [is_none l_physical_net bool_decide decide_rel with_physical_net
         l_err_msg l_net_type negb andb].
    change (is_none PNone) with true. cbn [with_physical_net l_physical_net
         l_err_msg l_net_type l_vlan_id l_tz_type l_switch_mode l_network_data].
    rewrite Ht. change (py_eq PNone (PStr NSX_NETWORK)) with false.
    rewrite bool_decide_eq_false_2 by (by intros [? ?]).
    cbn [negb andb mbind result_bind l_err_msg].
    rewrite bool_decide_eq_false_2 by (by intros [? ?]).
    cbn [negb l_physical_net]. rewrite Hmode.
    cbn [mbind result_bind with_switch_mode l_err_msg l_switch_mode].
    by rewrite Hens.
Qed.


Lemma plan_typed nd tv :
  is_attr_set (dict_get nd NETWORK_TYPE) = true →
  py_truthy (attr_or_none (dict_get nd SEGMENTATION_ID)) && tv = false →
  plan session nd default_vlan_tz_uuid default_overlay_tz_uuid nsxlib_tz
       nsxlib_network_get tv
  = (l ← by_net_type session default_vlan_tz_uuid nsxlib_tz
            nsxlib_network_get tv true (initial_locals nd);
     finish true l).
Proof.
  intros Hty Htv. unfold _validate_provider_create.
  by rewrite Htv, (is_provider_request_typed nd).
Qed.

Lemma plan_transparent nd :
  py_truthy (attr_or_none (dict_get nd SEGMENTATION_ID)) = true →
  plan session nd default_vlan_tz_uuid default_overlay_tz_uuid nsxlib_tz
       nsxlib_network_get true
  = Raise (InvalidInput SegIdWithTransparentVlan).
Proof. intros Hseg. unfold _validate_provider_create. by rewrite Hseg. Qed.

(** X4: a flat network request with a segmentation id is rejected with
    InvalidInput. An accepted flat plan is a provider network of type flat
    whose VLAN id is the string 0 (None in transparent-VLAN mode), on the
    requested physical network, else the default VLAN transport zone, else
    the default overlay transport zone; when that zone is truthy, the
    backend reports it as a VLAN transport zone. *)
Theorem flat_network_plan (nd : gmap string pyval) (tv : bool) :
  let planned := plan session nd default_vlan_tz_uuid default_overlay_tz_uuid
                      nsxlib_tz nsxlib_network_get tv in
  let seg := dict_get nd SEGMENTATION_ID in
  let physical := requested_physical_net nd default_vlan_tz_uuid in
  dict_get nd NETWORK_TYPE = PStr FLAT →
  (is_attr_set seg = true →
   planned = Raise (InvalidInput (if py_truthy seg && tv
                                  then SegIdWithTransparentVlan
                                  else SegIdWithNetType FLAT)))
  ∧ (∀ r nd', planned = Ok (r, nd') →
       is_attr_set seg = false
       ∧ is_provider_net r = true ∧ net_type r = PStr FLAT
       ∧ vlan_id r = (if tv then PNone else PStr "0")
       ∧ physical_net r = (if is_none physical
                           then default_overlay_tz_uuid else physical)
       ∧ (py_truthy (physical_net r) = true →
          ∃ ty, get_transport_type nsxlib_tz (physical_net r) = Ok ty
                ∧ py_eq ty (PStr TRANSPORT_TYPE_VLAN) = true)).
Proof.
  intros planned seg physical Hty.
  assert (Hset : is_attr_set (dict_get nd NETWORK_TYPE) = true)
    by (by rewrite Hty).
  split.
  - intros Hseg. subst planned.
    destruct (attr_or_none_cases seg) as [[? _]|(_ & Heq & Hne)]; [congruence|].
    destruct (py_truthy seg && tv) eqn:Etv.
    + apply andb_true_iff in Etv as [Ht ->]. apply plan_transparent.
      fold seg. by rewrite Heq.
    + rewrite plan_typed by (by fold seg; rewrite ?Heq).
      unfold plan_by_net_type. cbn [l_net_type l_vlan_id]. rewrite Hset, Hty.
      change (py_eq (PStr FLAT) (PStr FLAT)) with true. cbv iota.
      fold seg. rewrite Heq. unfold is_none at 1.
      rewrite bool_decide_eq_false_2 by done. cbn [negb mbind result_bind].
      by apply finish_err.
  - intros r nd' H. subst planned. apply plan_inv in H as (Htv & l & Hl & H).
    rewrite (is_provider_request_typed nd) in Hl, H by done.
    apply finish_inv in H as (He & Hprov & Hnt & Hv & Hp & Hzone & _).
    apply by_net_type_inv in Hl as [_ Hc]; try done.
    cbn [l_net_type] in Hc. rewrite Hty in Hc.
    destruct Hc as [(Hx & _)|[Hflat|[(Hx & _)|[(Hx & _)|(Hx & _)]]]];
      try (vm_compute in Hx; discriminate Hx).
    destruct Hflat as (_ & Hnt' & Htz & Hv0 & Hv' & Hp').
    cbn [l_vlan_id l_physical_net l_tz_type] in Hv0, Hp', Htz.
    rewrite resolve_requested in Hp'. fold physical in Hp'.
    rewrite Hp' in Hp, Hzone. rewrite Htz, Hnt' in Hzone.
    change (py_eq (PStr FLAT) (PStr NSX_NETWORK)) with false in Hzone.
    cbn [negb] in Hzone. rewrite andb_true_r, <- Hp in Hzone.
    repeat split; try congruence.
    + fold seg in Hv0.
      by destruct (attr_or_none_cases seg) as [[? _]|(_ & Heq & Hne)];
        [|congruence].
    + intros Ht. by apply Hzone.
Qed.

(** X5: a geneve network request with a truthy segmentation id (one that is
    set and not 0) is rejected with InvalidInput. An accepted geneve plan is
    a provider network of type geneve whose VLAN id is the segmentation id
    of the request, which is not truthy (None when it is not set), on the
    requested physical network or else the default overlay transport zone;
    when that zone is truthy, the backend reports it as an overlay transport
    zone. *)
Theorem geneve_network_plan (nd : gmap string pyval) (tv : bool) :
  let planned := plan session nd default_vlan_tz_uuid default_overlay_tz_uuid
                      nsxlib_tz nsxlib_network_get tv in
  let seg := attr_or_none (dict_get nd SEGMENTATION_ID) in
  let physical := requested_physical_net nd default_overlay_tz_uuid in
  dict_get nd NETWORK_TYPE = PStr GENEVE →
  (py_truthy seg = true →
   planned = Raise (InvalidInput (if tv then SegIdWithTransparentVlan
                                  else SegIdWithNetType GENEVE)))
  ∧ (∀ r nd', planned = Ok (r, nd') →
       py_truthy seg = false
       ∧ is_provider_net r = true ∧ net_type r = PStr GENEVE
       ∧ vlan_id r = seg ∧ physical_net r = physical
       ∧ (py_truthy physical = true →
          ∃ ty, get_transport_type nsxlib_tz physical = Ok ty
                ∧ py_eq ty (PStr TRANSPORT_TYPE_OVERLAY) = true)).
Proof.
  intros planned seg physical Hty.
  assert (Hset : is_attr_set (dict_get nd NETWORK_TYPE) = true)
    by (by rewrite Hty).
  split.
  - intros Hseg. subst planned. destruct tv; [by apply plan_transparent|].
    rewrite plan_typed by (by rewrite ?andb_false_r).
    unfold plan_by_net_type. cbn [l_net_type l_vlan_id]. rewrite Hset, Hty.
    change (py_eq (PStr GENEVE) (PStr FLAT)) with false.
    change (py_eq (PStr GENEVE) (PStr VLAN)) with false.
    change (py_eq (PStr GENEVE) (PStr GENEVE)) with true. cbv iota.
    fold seg. rewrite Hseg. cbn [mbind result_bind]. by apply finish_err.
  - intros r nd' H. subst planned. apply plan_inv in H as (Htv & l & Hl & H).
    rewrite (is_provider_request_typed nd) in Hl, H by done.
    apply finish_inv in H as (He & Hprov & Hnt & Hv & Hp & Hzone & _).
    apply by_net_type_inv in Hl as [_ Hc]; try done.
    cbn [l_net_type] in Hc. rewrite Hty in Hc.
    destruct Hc as [(Hx & _)|[(Hx & _)|[(Hx & _)|[Hgen|(Hx & _)]]]];
      try (vm_compute in Hx; discriminate Hx).
    destruct Hgen as (_ & Hv0 & ->).
    cbn [l_vlan_id l_physical_net l_tz_type l_net_type with_tz_type] in *.
    rewrite resolve_requested in Hp. fold physical in Hp.
    change (py_eq (PStr GENEVE) (PStr NSX_NETWORK)) with false in Hzone.
    cbn [negb] in Hzone. rewrite andb_true_r, resolve_requested in Hzone.
    fold physical in Hzone.
    repeat split; try done. intros Ht. by apply Hzone.
Qed.


(** X6: an nsx-net request that does not combine a segmentation id with
    transparent-VLAN mode is rejected with InvalidInput when it names no
    physical network, and when the backend does not know the logical switch
    it names; the message then tells whether a binding of the store already
    links that switch. An accepted nsx-net plan names a logical switch that
    the backend knows and that no binding links, and has the host switch
    mode of the transport zone of that switch. *)
Theorem nsx_network_plan (nd : gmap string pyval) (tv : bool) :
  let planned := plan session nd default_vlan_tz_uuid default_overlay_tz_uuid
                      nsxlib_tz nsxlib_network_get tv in
  let physical := attr_or_none (dict_get nd PHYSICAL_NETWORK) in
  let seg := attr_or_none (dict_get nd SEGMENTATION_ID) in
  let linked := get_network_bindings_by_vlanid_and_physical_net
                  session (PInt 0) physical in
  dict_get nd NETWORK_TYPE = PStr NSX_NETWORK →
  py_truthy seg && tv = false →
  (py_truthy physical = false →
   planned = Raise (InvalidInput (PhysicalNetRequired (PStr NSX_NETWORK))))
  ∧ (py_truthy physical = true →
     nsxlib_network_get physical = Raise ResourceNotFound →
     planned = Raise (InvalidInput (if nonempty linked
                                    then LogicalSwitchInUse physical
                                    else LogicalSwitchMissing physical)))
  ∧ (∀ r nd', planned = Ok (r, nd') →
       py_truthy physical = true ∧ linked = []
       ∧ (∃ nsx_net, nsxlib_network_get physical = Ok nsx_net
                     ∧ get_host_switch_mode nsxlib_tz
                         (_get_nsx_net_tz_id nsx_net) = Ok (switch_mode r))
       ∧ is_provider_net r = true ∧ net_type r = PStr NSX_NETWORK
       ∧ physical_net r = physical ∧ vlan_id r = seg).
Proof.
  intros planned physical seg linked Hty Htv.
  assert (Hset : is_attr_set (dict_get nd NETWORK_TYPE) = true)
    by (by rewrite Hty).
  assert (Hplan : planned
    = (l ← (if negb (py_truthy physical) then
              Ok (with_err_msg (PhysicalNetRequired (PStr NSX_NETWORK))
                               (initial_locals nd))
            else
              l ← try_except
                    (nsx_net ← nsxlib_network_get physical;
                     mode ← get_host_switch_mode nsxlib_tz
                              (_get_nsx_net_tz_id nsx_net);
                     Ok (with_switch_mode mode (initial_locals nd)))
                    is_ResourceNotFound
                    (fun _ => Ok (with_err_msg (LogicalSwitchMissing physical)
                                               (initial_locals nd)));
              Ok (if nonempty linked
                  then with_err_msg (LogicalSwitchInUse physical) l else l));
       finish true l)).
  { subst planned. rewrite plan_typed by done. unfold plan_by_net_type.
    cbn [l_net_type l_physical_net]. rewrite Hset, Hty. reflexivity. }
  rewrite Hplan. split; [|split].
  - intros ->. cbn [negb mbind result_bind]. by apply finish_err.
  - intros -> ->. cbn [negb mbind result_bind try_except is_ResourceNotFound].
    apply finish_err. by destruct (nonempty linked).
  - intros r nd' H. rewrite <- Hplan in H. subst planned. clear Hplan.
    apply plan_inv in H as (_ & l & Hl & H).
    rewrite (is_provider_request_typed nd) in Hl, H by done.
    apply finish_inv in H as (He & Hprov & Hnt & Hv & Hp & _ & _ & Hmode & _).
    apply by_net_type_inv in Hl as [_ Hc]; try done.
    cbn [l_net_type] in Hc. rewrite Hty in Hc.
    destruct Hc as [(Hx & _)|[(Hx & _)|[(Hx & _)|[(Hx & _)|Hnsx]]]];
      try (vm_compute in Hx; discriminate Hx).
    destruct Hnsx as (_ & Hnt' & Ht & Hp' & Hv' & (nsx_net & Hget & Hm) & Hb).
    cbn [l_physical_net l_vlan_id] in Ht, Hp', Hv', Hget, Hb.
    fold physical in Ht, Hp', Hget, Hb.
    rewrite Hnt' in Hmode.
    change (py_eq (PStr NSX_NETWORK) (PStr NSX_NETWORK)) with true in Hmode.
    rewrite andb_false_r in Hmode. rewrite (Hmode eq_refl).
    rewrite Hp' in Hp.
    assert (Hnone : is_none physical = false).
    { unfold is_none. apply bool_decide_eq_false_2. by intros Hn; rewrite Hn in Ht. }
    rewrite Hnone in Hp.
    repeat split; try done; try congruence; [eauto|].
    by rewrite Hv, Hv'.
Qed.

(** X7: among the requests that do not combine a segmentation id with
    transparent-VLAN mode, one that gives a physical network or a
    segmentation id but no network type is rejected with InvalidInput
    (network type required), and one whose network type is none of flat,
    vlan, geneve and nsx-net is rejected with InvalidInput (network type not
    supported). *)
Theorem provider_attributes_need_supported_type
    (nd : gmap string pyval) (tv : bool) :
  let planned := plan session nd default_vlan_tz_uuid default_overlay_tz_uuid
                      nsxlib_tz nsxlib_network_get tv in
  let type := dict_get nd NETWORK_TYPE in
  py_truthy (attr_or_none (dict_get nd SEGMENTATION_ID)) && tv = false →
  (is_attr_set type = false →
   is_attr_set (dict_get nd PHYSICAL_NETWORK) = true
   ∨ is_attr_set (dict_get nd SEGMENTATION_ID) = true →
   planned = Raise (InvalidInput NetTypeRequired))
  ∧ (is_attr_set type = true →
     type ∉ [PStr FLAT; PStr VLAN; PStr GENEVE; PStr NSX_NETWORK] →
     planned = Raise (InvalidInput (NetTypeNotSupported type))).
Proof.
  intros planned type Htv. subst planned. split.
  - intros Hty Hattr. unfold _validate_provider_create. rewrite Htv.
    assert (Hp : is_provider_request nd = true).
    { cbn [existsb]. destruct Hattr as [->| ->]; by rewrite ?orb_true_r. }
    rewrite Hp. unfold plan_by_net_type. cbn [l_net_type]. fold type.
    rewrite Hty. cbn [mbind result_bind]. by apply finish_err.
  - intros Hty Hnot. rewrite plan_typed by done. unfold plan_by_net_type.
    cbn [l_net_type]. fold type. rewrite Hty.
    assert (Hne : ∀ s, PStr s ∈ [PStr FLAT; PStr VLAN; PStr GENEVE;
                               PStr NSX_NETWORK] →
                       py_eq type (PStr s) = false).
    { intros s Hs. destruct (py_eq type (PStr s)) eqn:E; [|done].
      apply py_eq_str in E. by rewrite E in Hnot. }
    rewrite !Hne by (repeat first [by left | right]).
    cbn [mbind result_bind]. by apply finish_err.
Qed.

(** X8: every provider network the planner accepts has one of the network
    types flat, vlan, geneve and nsx-net and, unless it links a logical
    switch, its physical network (when set) is a transport zone the backend
    knows, an overlay zone for geneve and a VLAN zone otherwise, whose host
    switch mode is the one of the plan. *)
Theorem accepted_provider_network_matches_transport_zone
    (nd : gmap string pyval) (tv : bool) (r : resolved)
    (nd' : gmap string pyval) :
  plan session nd default_vlan_tz_uuid default_overlay_tz_uuid
       nsxlib_tz nsxlib_network_get tv = Ok (r, nd') →
  is_provider_net r = true →
  net_type r ∈ [PStr FLAT; PStr VLAN; PStr GENEVE; PStr NSX_NETWORK]
  ∧ (net_type r ≠ PStr NSX_NETWORK → py_truthy (physical_net r) = true →
     ∃ ty, get_transport_type nsxlib_tz (physical_net r) = Ok ty
           ∧ py_eq ty (PStr (if bool_decide (net_type r = PStr GENEVE)
                             then TRANSPORT_TYPE_OVERLAY
                             else TRANSPORT_TYPE_VLAN)) = true
           ∧ get_host_switch_mode nsxlib_tz (physical_net r)
             = Ok (switch_mode r)).
Proof.
  intros H Hprov. apply plan_inv in H as (_ & l & Hl & H).
  apply finish_inv in H as (He & Hprov' & Hnt & Hv & Hp & Hzone & Hmode & _).
  rewrite Hprov in Hprov'. rewrite <- Hprov' in *. clear Hprov'.
  rewrite <- Hp, <- Hnt in Hzone, Hmode.
  assert (Hz : net_type r ≠ PStr NSX_NETWORK → py_truthy (physical_net r) = true →
               py_truthy (physical_net r)
               && negb (py_eq (net_type r) (PStr NSX_NETWORK)) = true).
  { intros Hne ->. cbn [andb]. apply negb_true_iff.
    destruct (py_eq _ _) eqn:E; [|done]. by apply py_eq_str in E. }
  apply by_net_type_inv in Hl as [_ Hc]; try done.
  cbn [l_net_type l_tz_type] in Hc.
  destruct Hc as [(_ & Hx & _)|[Hc|[Hc|[Hc|Hc]]]]; [done|..].
  - destruct Hc as (_ & Hnt' & Htz & _). rewrite Hnt' in Hnt.
    split; [rewrite Hnt; by left|]. intros Hne Ht.
    destruct (Hzone (Hz Hne Ht) eq_refl) as (ty & Hty & Heq).
    exists ty. rewrite Htz in Heq.
    rewrite bool_decide_eq_false_2 by (by rewrite Hnt).
    repeat split; try done. by apply Hmode, Hz.
  - destruct Hc as (_ & Hnt' & Htz & _). rewrite Hnt' in Hnt.
    split; [rewrite Hnt; by right; left|]. intros Hne Ht.
    destruct (Hzone (Hz Hne Ht) eq_refl) as (ty & Hty & Heq).
    exists ty. rewrite Htz in Heq.
    rewrite bool_decide_eq_false_2 by (by rewrite Hnt).
    repeat split; try done. by apply Hmode, Hz.
  - destruct Hc as (Hnt' & _ & ->). cbn [l_net_type l_tz_type with_tz_type] in *.
    rewrite Hnt' in Hnt.
    split; [rewrite Hnt; by right; right; left|]. intros Hne Ht.
    destruct (Hzone (Hz Hne Ht) eq_refl) as (ty & Hty & Heq).
    exists ty. rewrite bool_decide_eq_true_2 by done.
    repeat split; try done. by apply Hmode, Hz.
  - destruct Hc as (_ & Hnt' & _). rewrite Hnt' in Hnt.
    split; [rewrite Hnt; by right; right; right; left|]. done.
Qed.

(** X9: a plan on a transport zone in ENS mode is accepted only when ENS
    networks are allowed and the request has no QoS policy, and the request
    handed back is the one the ENS port security validator saw, with the
    port security default it returned; for any other mode the request is
    handed back as it came, apart from its segmentation id. *)
Theorem ens_network_is_checked
    (nd : gmap string pyval) (tv : bool) (r : resolved)
    (nd' : gmap string pyval) :
  plan session nd default_vlan_tz_uuid default_overlay_tz_uuid
       nsxlib_tz nsxlib_network_get tv = Ok (r, nd') →
  if py_eq (switch_mode r) (PStr HOST_SWITCH_MODE_ENS) then
    _allow_ens_networks = true
    ∧ is_attr_set (dict_get nd QOS_POLICY_ID) = false
    ∧ ∃ request psec,
        _validate_ens_net_portsecurity request = Ok psec
        ∧ (∀ k, k ≠ SEGMENTATION_ID → request !! k = nd !! k)
        ∧ nd' = match psec with
                | Some v => <[PORTSECURITY := v]> request
                | None => request
                end
  else ∀ k, k ≠ SEGMENTATION_ID → nd' !! k = nd !! k.
Proof.
  intros H. apply plan_inv in H as (_ & l & Hl & H).
  apply finish_inv in H as (He & _ & _ & _ & _ & _ & _ & _ & Hens).
  apply by_net_type_inv in Hl as [Hkeep _]; try done.
  cbn [l_network_data] in Hkeep.
  destruct (py_eq (switch_mode r) (PStr HOST_SWITCH_MODE_ENS)).
  - destruct Hens as (Hallow & Hqos & psec & Hpsec & ->).
    split; [done|]. split.
    + unfold dict_get in *. by rewrite <- Hkeep.
    + exists (l_network_data l), psec. done.
  - by rewrite Hens.
Qed.


Lemma bound_on_found sess physical (v : pyval) (z : Z) :
  py_num v = Some z → bound_on sess physical z →
  nonempty (get_network_bindings_by_vlanid_and_physical_net sess v physical)
  = true.
Proof.
  intros Hv (b & Hb & Hp & Hz).
  unfold get_network_bindings_by_vlanid_and_physical_net.
  assert (Hin : b ∈ filter
            (λ b, py_eq (py_of_vlan (b_vlan_id b)) v
                  && py_eq (py_of_phy (b_phy_uuid b)) physical = true) sess).
  { apply list_elem_of_filter. split; [|done].
    rewrite Hz, Hp. unfold py_eq. cbn [py_of_vlan py_num]. rewrite Hv.
    by rewrite Z.eqb_refl. }
  destruct (filter _ sess); [by apply elem_of_nil in Hin|done].
Qed.

Hypothesis list_of_set_spec : ∀ (X : gset Z) (x : Z), x ∈ list_of_set X ↔ x ∈ X.

Lemma generate_segment_id_free sess P nd tag nd1 :
  _generate_segment_id _network_vlans list_of_set sess P nd = Ok (tag, nd1) →
  ∃ z, tag = PInt z ∧ in_configured_ranges _network_vlans P z
       ∧ ¬ bound_on sess P z ∧ nd1 = <[SEGMENTATION_ID := PInt z]> nd.
Proof.
  unfold _generate_segment_id. rewrite free_ids_difference.
  destruct (list_of_set _) as [|z zs] eqn:E; [done|]. intros [= <- <-].
  assert (Hz : z ∈ candidate_ids _network_vlans P ∖ used_ids sess P)
    by (apply list_of_set_spec; rewrite E; left).
  apply elem_of_difference in Hz as [Hc Hu].
  rewrite elem_of_candidate_ids in Hc. rewrite elem_of_used_ids in Hu.
  by exists z.
Qed.

(** X10: outside transparent-VLAN mode every accepted vlan plan carries a
    numeric tag that no binding of the store holds on the physical network
    the request resolves to (the requested one, else the default VLAN
    transport zone). That network is the physical network of the plan unless
    it is None: then the plan falls back to the default overlay transport
    zone, on which the tag was not looked up. A requested tag lies between
    MIN_VLAN_TAG and MAX_VLAN_TAG; an allocated one lies in the ranges
    configured for the resolved physical network (the legal range when none
    is configured) and is written back to the request as its segmentation
    id. *)
Theorem accepted_vlan_plan_has_free_tag
    (nd : gmap string pyval) (r : resolved) (nd' : gmap string pyval) :
  let seg := attr_or_none (dict_get nd SEGMENTATION_ID) in
  let physical := requested_physical_net nd default_vlan_tz_uuid in
  dict_get nd NETWORK_TYPE = PStr VLAN →
  plan session nd default_vlan_tz_uuid default_overlay_tz_uuid
       nsxlib_tz nsxlib_network_get false = Ok (r, nd') →
  ∃ z, py_num (vlan_id r) = Some z
       ∧ ¬ bound_on session physical z
       ∧ physical_net r = (if is_none physical
                           then default_overlay_tz_uuid else physical)
       ∧ (if py_truthy seg
          then vlan_id r = seg ∧ MIN_VLAN_TAG ≤ z ≤ MAX_VLAN_TAG
          else vlan_id r = PInt z
               ∧ in_configured_ranges _network_vlans physical z
               ∧ dict_get nd' SEGMENTATION_ID = PInt z).
Proof.
  intros seg physical Hty H.
  assert (Hset : is_attr_set (dict_get nd NETWORK_TYPE) = true)
    by (by rewrite Hty).
  rewrite plan_typed in H by (by rewrite ?andb_false_r).
  apply bind_ok in H as (l & Hl & H).
  pose proof H as Hens. apply ens_finish in Hens.
  apply finish_inv in H as (He & _ & _ & Hv & Hnet & _).
  unfold plan_by_net_type in Hl. cbn [l_net_type l_physical_net l_vlan_id] in Hl.
  rewrite Hset, Hty in Hl.
  change (py_eq (PStr VLAN) (PStr FLAT)) with false in Hl.
  change (py_eq (PStr VLAN) (PStr VLAN)) with true in Hl.
  cbv iota in Hl. cbn [negb] in Hl.
  match type of Hl with
  | context [if is_none ?p then with_physical_net ?d ?l0 else _] =>
      set (l1 := if is_none p then with_physical_net d l0 else l0) in Hl
  end.
  assert (Hphys : l_physical_net l1 = physical ∧ l_network_data l1 = nd
                  ∧ l_err_msg l1 = None ∧ l_vlan_id l1 = seg).
  { subst l1. unfold physical. rewrite <- resolve_requested.
    by destruct (is_none _). }
  destruct Hphys as (Hp1 & Hd1 & He1 & Hv1). clearbody l1.
  rewrite Hp1, Hd1 in Hl. fold seg in Hl.
  destruct (py_truthy seg) eqn:Eseg; cbn [negb] in Hl.
  - apply bind_ok in Hl as (valid & Hvalid & Hl).
    destruct valid; cbn [negb] in Hl.
    2:{ injection Hl as <-. cbn [l_err_msg with_err_msg] in He. discriminate He. }
    destruct (nonempty _) eqn:Eb; [discriminate Hl|]. injection Hl as <-.
    unfold is_valid_vlan_tag in Hvalid.
    destruct (py_num seg) as [z|] eqn:Ez; [|discriminate Hvalid].
    injection Hvalid as Hvalid.
    rewrite Hv, Hv1. exists z. split; [done|]. split; [|split].
    + intros Hb. by rewrite (bound_on_found _ _ _ _ Ez Hb) in Eb.
    + by rewrite Hnet, Hp1.
    + split; [done|]. apply andb_true_iff in Hvalid as [? ?]. lia.
  - apply bind_ok in Hl as ([tag nd1] & Hgen & Hl). injection Hl as <-.
    apply generate_segment_id_free in Hgen as (z & -> & Hin & Hfree & ->).
    cbn [l_vlan_id with_vlan_id] in Hv.
    cbn [l_physical_net with_vlan_id with_network_data] in Hnet.
    rewrite Hp1 in Hnet. exists z. rewrite Hv.
    repeat split; try done.
    cbn [l_network_data with_vlan_id with_network_data] in Hens.
    rewrite Hens. unfold dict_get. by rewrite lookup_insert_eq.
Qed.

End BindingPlannerRules.

Section PortValidationRules.
Import Port.

Variable is_port_trusted : pyval -> bool.
Variable _network_is_external : pyval -> bool.
Variable _validate_qos_policy_id : pyval -> result unit.
Variable _validate_max_ips_per_port : pyval -> pyval -> result unit.
Variable VPN_PORT_OWNER : string.

Local Abbreviation validate_create :=
  (_validate_create_port _network_is_external _validate_qos_policy_id
     _validate_max_ips_per_port).
Local Abbreviation validate_update :=
  (_validate_update_port is_port_trusted _network_is_external
     _validate_qos_policy_id _validate_max_ips_per_port VPN_PORT_OWNER).

(** The checks an accepted port create went through. *)
Lemma validate_create_inv (port_data : gmap string pyval) :
  validate_create port_data = Ok tt →
  let device_owner := dict_get port_data "device_owner" in
  let is_external_net :=
    _network_is_external (dict_get port_data "network_id") in
  (is_attr_set (dict_get port_data QOS_POLICY_ID) = true →
   _assert_on_illegal_port_with_qos device_owner = Ok tt
   ∧ is_external_net = false)
  ∧ (is_external_net = true →
     _assert_on_external_net_with_compute port_data = Ok tt)
  ∧ _assert_on_port_admin_state port_data device_owner = Ok tt.
Proof.
  unfold _validate_create_port. intros H.
  apply bind_ok in H as ([] & _ & H).
  apply bind_ok in H as ([] & Hqos & H).
  apply bind_ok in H as ([] & Hext & H).
  cbv zeta. split; [|split; [|done]].
  - intros Hsel. rewrite Hsel in Hqos.
    apply bind_ok in Hqos as ([] & _ & Hqos).
    apply bind_ok in Hqos as ([] & Hill & Hqos).
    split; [done|]. by destruct (_network_is_external _).
  - intros Hx. by rewrite Hx in Hext.
Qed.

(** The checks an accepted port update went through. *)
Lemma validate_update_inv (id : string)
    (original_port port_data : gmap string pyval) :
  validate_update id original_port port_data = Ok tt →
  let device_owner := effective_device_owner original_port port_data in
  let orig_dev_owner := dict_get original_port "device_owner" in
  let is_external_net :=
    _network_is_external (dict_get original_port "network_id") in
  (is_attr_set (dict_get port_data QOS_POLICY_ID) = true →
   _assert_on_illegal_port_with_qos device_owner = Ok tt
   ∧ is_external_net = false)
  ∧ (is_external_net = true →
     _assert_on_external_net_with_compute port_data = Ok tt)
  ∧ _assert_on_device_owner_change port_data orig_dev_owner = Ok tt
  ∧ _assert_on_port_admin_state port_data device_owner = Ok tt
  ∧ _assert_on_vpn_port_change VPN_PORT_OWNER original_port = Ok tt
  ∧ _assert_on_lb_port_fixed_ip_change port_data orig_dev_owner = Ok tt.
Proof.
  unfold _validate_update_port. intros H.
  apply bind_ok in H as ([] & Hqos & H).
  apply bind_ok in H as ([] & Hext & H).
  apply bind_ok in H as ([] & Hown & H).
  apply bind_ok in H as ([] & Hadm & H).
  apply bind_ok in H as ([] & Hsec & H).
  apply bind_ok in H as ([] & Hips & H).
  apply bind_ok in H as ([] & Hvpn & H).
  cbv zeta. split; [|split; [|done]].
  - intros Hsel. rewrite Hsel in Hqos.
    apply bind_ok in Hqos as ([] & _ & Hqos).
    apply bind_ok in Hqos as ([] & Hx & Hqos).
    split; [done|]. by destruct (_network_is_external _).
  - intros Hx. by rewrite Hx in Hext.
Qed.


Lemma illegal_port_with_qos_ok (device_owner : pyval) :
  _assert_on_illegal_port_with_qos device_owner = Ok tt →
  device_owner ∉ [PStr DEVICE_OWNER_ROUTER_INTF; PStr DEVICE_OWNER_DHCP].
Proof.
  unfold _assert_on_illegal_port_with_qos.
  destruct (py_eq _ _ || py_eq _ _) eqn:E; [done|]. intros _.
  apply orb_false_iff in E as [E1 E2]. intros Hin.
  apply elem_of_cons in Hin as [->|Hin]; [by rewrite py_eq_refl in E1|].
  apply elem_of_cons in Hin as [->|Hin]; [by rewrite py_eq_refl in E2|].
  by apply elem_of_nil in Hin.
Qed.

Lemma port_admin_state_ok (port_data : gmap string pyval) (device_owner : pyval) :
  _assert_on_port_admin_state port_data device_owner = Ok tt →
  device_owner ∈ [PStr DEVICE_OWNER_ROUTER_INTF; PStr DEVICE_OWNER_ROUTER_GW] →
  dict_get port_data "admin_state_up" ≠ PBool false.
Proof.
  unfold _assert_on_port_admin_state. intros H Hin.
  assert (Hown : py_eq device_owner (PStr DEVICE_OWNER_ROUTER_INTF)
                 || py_eq device_owner (PStr DEVICE_OWNER_ROUTER_GW) = true).
  { apply elem_of_cons in Hin as [->|Hin]; [done|].
    apply elem_of_cons in Hin as [->|Hin]; [done|].
    by apply elem_of_nil in Hin. }
  rewrite Hown in H. unfold py_is_false in H.
  destruct (bool_decide _) eqn:E; [done|]. by apply bool_decide_eq_false in E.
Qed.

Lemma external_net_with_compute_ok (port_data : gmap string pyval) (s : string) :
  _assert_on_external_net_with_compute port_data = Ok tt →
  dict_get port_data "device_owner" = PStr s →
  String.prefix DEVICE_OWNER_COMPUTE_PREFIX s = false.
Proof.
  unfold _assert_on_external_net_with_compute. intros H Hs. rewrite Hs in H.
  rewrite bool_decide_eq_false_2 in H by done.
  cbn [negb py_startswith mbind result_bind] in H.
  by destruct (String.prefix _ s).
Qed.

(** X11: a port create or update that carries a QoS policy is accepted only
    on a network that is not external and for a device owner that is neither
    a router interface nor DHCP (for an update: the requested owner, else
    the one of the original port). *)
Theorem qos_policy_needs_plain_port_on_internal_network
    (id : string) (original_port port_data : gmap string pyval) :
  is_attr_set (dict_get port_data QOS_POLICY_ID) = true →
  (validate_create port_data = Ok tt →
   _network_is_external (dict_get port_data "network_id") = false
   ∧ dict_get port_data "device_owner"
     ∉ [PStr DEVICE_OWNER_ROUTER_INTF; PStr DEVICE_OWNER_DHCP])
  ∧ (validate_update id original_port port_data = Ok tt →
     _network_is_external (dict_get original_port "network_id") = false
     ∧ effective_device_owner original_port port_data
       ∉ [PStr DEVICE_OWNER_ROUTER_INTF; PStr DEVICE_OWNER_DHCP]).
Proof.
  intros Hqos. split; intros H.
  - apply validate_create_inv in H as (H & _). destruct (H Hqos) as [Hill Hext].
    split; [done|]. by apply illegal_port_with_qos_ok.
  - apply validate_update_inv in H as (H & _). destruct (H Hqos) as [Hill Hext].
    split; [done|]. by apply illegal_port_with_qos_ok.
Qed.

(** A router interface or gateway port is not accepted with
    [admin_state_up=False]. *)
Theorem router_port_admin_state_down_is_rejected
    (id : string) (original_port port_data : gmap string pyval) :
  dict_get port_data "admin_state_up" = PBool false →
  (dict_get port_data "device_owner"
   ∈ [PStr DEVICE_OWNER_ROUTER_INTF; PStr DEVICE_OWNER_ROUTER_GW] →
   ∃ e, validate_create port_data = Raise e)
  ∧ (effective_device_owner original_port port_data
     ∈ [PStr DEVICE_OWNER_ROUTER_INTF; PStr DEVICE_OWNER_ROUTER_GW] →
     ∃ e, validate_update id original_port port_data = Raise e).
Proof.
  intros Hdown. split; intros Hown.
  - destruct (validate_create port_data) as [[]|e] eqn:H; [|by eexists].
    apply validate_create_inv in H as (_ & _ & H).
    by destruct (port_admin_state_ok _ _ H Hown).
  - destruct (validate_update id original_port port_data) as [[]|e] eqn:H;
      [|by eexists].
    apply validate_update_inv in H as (_ & _ & _ & H & _).
    by destruct (port_admin_state_ok _ _ H Hown).
Qed.

(** On an external network no port is accepted whose request names a
    compute device owner. *)
Theorem compute_port_on_external_network_is_rejected
    (id : string) (original_port port_data : gmap string pyval) (s : string) :
  dict_get port_data "device_owner" = PStr s →
  String.prefix DEVICE_OWNER_COMPUTE_PREFIX s = true →
  (_network_is_external (dict_get port_data "network_id") = true →
   ∃ e, validate_create port_data = Raise e)
  ∧ (_network_is_external (dict_get original_port "network_id") = true →
     ∃ e, validate_update id original_port port_data = Raise e).
Proof.
  intros Hs Hpre. split; intros Hext.
  - destruct (validate_create port_data) as [[]|e] eqn:H; [|by eexists].
    apply validate_create_inv in H as (_ & H & _).
    by rewrite (external_net_with_compute_ok _ _ (H Hext) Hs) in Hpre.
  - destruct (validate_update id original_port port_data) as [[]|e] eqn:H;
      [|by eexists].
    apply validate_update_inv in H as (_ & H & _).
    by rewrite (external_net_with_compute_ok _ _ (H Hext) Hs) in Hpre.
Qed.

Lemma device_owner_change_ok (port_data : gmap string pyval)
    (orig new : pyval) :
  _assert_on_device_owner_change port_data orig = Ok tt →
  port_data !! "device_owner" = Some new →
  py_eq new orig = false →
  orig ≠ PStr DEVICE_OWNER_DHCP
  ∧ ∃ o, orig = PStr o
         ∧ (String.prefix DEVICE_OWNER_COMPUTE_PREFIX o = true →
            ∃ n, new = PStr n
                 ∧ String.prefix DEVICE_OWNER_NETWORK_PREFIX n = false)
         ∧ (String.prefix DEVICE_OWNER_NETWORK_PREFIX o = true →
            ∃ n, new = PStr n
                 ∧ String.prefix DEVICE_OWNER_COMPUTE_PREFIX n = false).
Proof.
  unfold _assert_on_device_owner_change. intros H Hnew Hne.
  apply bind_ok in H as ([] & _ & H).
  assert (Hhas : dict_has port_data "device_owner" = true)
    by (apply bool_decide_eq_true; rewrite Hnew; eauto).
  assert (Hget : dict_get port_data "device_owner" = new)
    by (unfold dict_get; by rewrite Hnew).
  rewrite Hhas, Hget, Hne in H. cbn [negb] in H.
  apply bind_ok in H as (orig_compute & Hoc & H).
  destruct orig as [| | | |o|]; try discriminate Hoc.
  cbn [py_startswith] in Hoc, H. injection Hoc as <-.
  apply bind_ok in H as (nova_to_neutron & Hnn & H).
  apply bind_ok in H as (exchanged & Hex & H).
  destruct exchanged; [done|].
  destruct (py_eq (PStr o) (PStr DEVICE_OWNER_DHCP)) eqn:Edhcp; [done|].
  split.
  { intros Heq. apply py_eq_str in Heq. congruence. }
  exists o. split; [done|]. split.
  - intros Hc. rewrite Hc in Hnn.
    destruct new as [| | | |n|]; try discriminate Hnn.
    cbn [py_startswith] in Hnn. injection Hnn as <-.
    exists n. split; [done|].
    destruct (String.prefix DEVICE_OWNER_NETWORK_PREFIX n); [|done].
    cbn [mbind result_bind] in Hex. discriminate Hex.
  - intros Hn. destruct nova_to_neutron; [discriminate Hex|].
    cbn [mbind result_bind] in Hex. rewrite Hn in Hex.
    destruct new as [| | | |n|]; try discriminate Hex.
    cbn [py_startswith] in Hex. injection Hex as Hex. eauto.
Qed.

(** X12: an accepted port update that changes the device owner does so
    within the rules: the original owner is a string other than the DHCP
    owner, a compute owner is not replaced by a network owner, and a network
    owner is not replaced by a compute owner. *)
Theorem device_owner_change_is_restricted
    (id : string) (original_port port_data : gmap string pyval) (new : pyval) :
  let orig := dict_get original_port "device_owner" in
  validate_update id original_port port_data = Ok tt →
  port_data !! "device_owner" = Some new →
  py_eq new orig = false →
  orig ≠ PStr DEVICE_OWNER_DHCP
  ∧ ∃ o, orig = PStr o
         ∧ (String.prefix DEVICE_OWNER_COMPUTE_PREFIX o = true →
            ∃ n, new = PStr n
                 ∧ String.prefix DEVICE_OWNER_NETWORK_PREFIX n = false)
         ∧ (String.prefix DEVICE_OWNER_NETWORK_PREFIX o = true →
            ∃ n, new = PStr n
                 ∧ String.prefix DEVICE_OWNER_COMPUTE_PREFIX n = false).
Proof.
  intros orig H Hnew Hne.
  apply validate_update_inv in H as (_ & _ & H & _).
  by apply (device_owner_change_ok port_data).
Qed.

(** X13: an accepted update of a port owned by a load balancer
    (LOADBALANCERV2) carries neither fixed IPs nor allowed address pairs. *)
Theorem load_balancer_port_update_is_restricted
    (id : string) (original_port port_data : gmap string pyval) :
  validate_update id original_port port_data = Ok tt →
  dict_get original_port "device_owner" = PStr DEVICE_OWNER_LOADBALANCERV2 →
  py_truthy (dict_get port_data "fixed_ips") = false
  ∧ py_truthy (dict_get port_data ADDRESS_PAIRS) = false.
Proof.
  intros H Hlb.
  apply validate_update_inv in H as (_ & _ & Hown & _ & _ & Hfix).
  cbv zeta in Hown, Hfix. rewrite Hlb in Hown, Hfix. split.
  - unfold _assert_on_lb_port_fixed_ip_change in Hfix.
    rewrite py_eq_refl in Hfix.
    destruct (dict_has port_data "fixed_ips") eqn:Ehas; cbn [andb] in Hfix.
    + by destruct (py_truthy _).
    + apply bool_decide_eq_false in Ehas. unfold dict_get.
      destruct (port_data !! "fixed_ips"); [|done]. destruct Ehas. eauto.
  - unfold _assert_on_device_owner_change in Hown.
    rewrite py_eq_refl in Hown. apply bind_ok in Hown as ([] & Hown & _).
    destruct (dict_has port_data ADDRESS_PAIRS) eqn:Ehas; cbn [andb] in Hown.
    + by destruct (py_truthy _).
    + apply bool_decide_eq_false in Ehas. unfold dict_get.
      destruct (port_data !! ADDRESS_PAIRS); [|done]. destruct Ehas. eauto.
Qed.

(** No update of a VPN service port is accepted. *)
Theorem vpn_port_update_is_rejected
    (id : string) (original_port port_data : gmap string pyval) :
  dict_get original_port "device_owner" = PStr VPN_PORT_OWNER →
  ∃ e, validate_update id original_port port_data = Raise e.
Proof.
  intros Hvpn.
  destruct (validate_update id original_port port_data) as [[]|e] eqn:H;
    [|by eexists].
  apply validate_update_inv in H as (_ & _ & _ & _ & H & _).
  unfold _assert_on_vpn_port_change in H. by rewrite Hvpn, py_eq_refl in H.
Qed.

End PortValidationRules.

(** ** Network validators *)

Section NetworkValidation.
Import Provider Outcome Network.

Variable _validate_qos_policy_id : pyval -> result unit.
Variable _network_is_external : pyval -> bool.

(** X14: network create validation accepts a QoS policy only when the
    request does not ask for an external network; network update validation
    raises QoSOnExternalNet for a QoS policy on an external network and,
    when it accepts, the request has no QoS policy on an external network
    and a router:external key in it equals the current flag. *)
Theorem network_qos_and_external_flag
    (net_id : pyval) (original_net net_data : gmap string pyval) :
  let external := dict_get net_data EXTERNAL in
  let with_qos := is_attr_set (dict_get net_data QOS_POLICY_ID) in
  let extern_net := _network_is_external net_id in
  (_validate_create_network _validate_qos_policy_id net_data = Ok tt →
   with_qos = true → is_attr_set external && py_truthy external = false)
  ∧ (with_qos = true → extern_net = true →
     _validate_update_network _network_is_external net_id original_net net_data
     = Raises (Propagated QoSOnExternalNet))
  ∧ (_validate_update_network _network_is_external net_id original_net net_data
     = Returns tt →
     with_qos && extern_net = false
     ∧ ∀ v, net_data !! EXTERNAL = Some v → py_eq v (PBool extern_net) = true).
Proof.
  intros external with_qos extern_net. subst with_qos extern_net.
  split; [|split].
  - unfold _validate_create_network. intros H Hqos. rewrite Hqos in H.
    apply bind_ok in H as ([] & _ & H). fold external in H.
    unfold py_and in H. cbn [py_truthy] in H.
    destruct (is_attr_set external); [|done].
    by destruct (py_truthy external).
  - intros Hqos Hext. unfold _validate_update_network. by rewrite Hqos, Hext.
  - unfold _validate_update_network.
    destruct (is_attr_set _ && _network_is_external net_id); [done|].
    destruct (dict_has net_data EXTERNAL && _) eqn:E; [done|]. intros _.
    split; [done|]. intros v Hv.
    assert (Hhas : dict_has net_data EXTERNAL = true)
      by (apply bool_decide_eq_true; rewrite Hv; eauto).
    rewrite Hhas in E. cbn [andb] in E. rewrite truthy_ne in E.
    unfold dict_get in E. rewrite Hv in E. cbn [default from_option id] in E.
    by apply negb_false_iff in E.
Qed.

End NetworkValidation.

Section ExternalNetwork.
Import Provider Outcome Network.

(** X15: an external network request with a segmentation id, or with a
    network type other than l3_ext and local, is rejected with InvalidInput;
    an accepted one is planned as a provider network of type l3_ext with
    VLAN id 0 on the requested tier-0 router or else the default one, and
    the tier-0 validator, when there is one, accepted that router. *)
Theorem external_network_plan (net_data : gmap string pyval)
    (default_tier0_router : pyval)
    (tier0_validator : option (pyval -> outcome unit)) :
  let planned := _validate_external_net_create net_data default_tier0_router
                   tier0_validator in
  let type := dict_get net_data NETWORK_TYPE in
  let physical := dict_get net_data PHYSICAL_NETWORK in
  let tier0_uuid := if is_attr_set physical then physical
                    else default_tier0_router in
  (is_attr_set (dict_get net_data SEGMENTATION_ID) = true →
   planned = Raises (InvalidInputError (ExternalNetProviderAttrs type)))
  ∧ (is_attr_set type = true → type ∉ [PStr L3_EXT; PStr LOCAL] →
     planned = Raises (InvalidInputError (ExternalNetProviderAttrs type)))
  ∧ (∀ r, planned = Returns r →
       r = (true, L3_EXT, tier0_uuid, 0)
       ∧ is_attr_set (dict_get net_data SEGMENTATION_ID) = false
       ∧ (is_attr_set type = true → type ∈ [PStr L3_EXT; PStr LOCAL])
       ∧ ∀ validate, tier0_validator = Some validate →
                     validate tier0_uuid = Returns tt).
Proof.
  intros planned type physical tier0_uuid. subst planned.
  unfold _validate_external_net_create. fold type physical.
  assert (Ht0 : (if negb (is_attr_set physical) then default_tier0_router
                 else physical) = tier0_uuid).
  { subst tier0_uuid. by destruct (is_attr_set physical). }
  rewrite Ht0. rewrite !truthy_ne.
  split; [|split].
  - intros ->. by rewrite orb_true_r.
  - intros Hty Hnot. rewrite Hty.
    assert (H1 : py_eq type (PStr L3_EXT) = false).
    { destruct (py_eq _ _) eqn:E; [|done]. apply py_eq_str in E.
      destruct Hnot. rewrite E. by left. }
    assert (H2 : py_eq type (PStr LOCAL) = false).
    { destruct (py_eq type (PStr LOCAL)) eqn:E; [|done].
      apply py_eq_str in E. destruct Hnot. rewrite E. by right; left. }
    by rewrite H1, H2.
  - intros r H.
    destruct (is_attr_set (dict_get net_data SEGMENTATION_ID)) eqn:Eseg;
      [by rewrite orb_true_r in H|].
    rewrite orb_false_r in H.
    destruct (is_attr_set type && negb (py_eq type (PStr L3_EXT))
              && negb (py_eq type (PStr LOCAL))) eqn:Ety; [done|].
    assert (Hv : match tier0_validator with
                 | Some validate => validate tier0_uuid
                 | None => Returns tt
                 end = Returns tt).
    { destruct tier0_validator as [validate|]; [|done].
      by destruct (validate tier0_uuid) as [[]|]. }
    rewrite Hv in H. cbn [mbind outcome_bind] in H. injection H as <-.
    repeat split.
    + intros Hty. rewrite Hty in Ety. cbn [andb] in Ety.
      destruct (py_eq type (PStr L3_EXT)) eqn:E1.
      { apply py_eq_str in E1. rewrite E1. by left. }
      destruct (py_eq type (PStr LOCAL)) eqn:E2; [|done].
      apply py_eq_str in E2. rewrite E2. by right; left.
    + intros validate ->. done.
Qed.

End ExternalNetwork.

(** ** Security group rules *)

Section SecurityGroupRules.
Import Port SecurityGroupRule.

Lemma fix_prefix_inv (rule : gmap string pyval) (k : string) (guard : bool)
    (r : gmap string pyval) :
  (if py_truthy (dict_get rule k) && guard then
     any ← py_startswith (dict_get rule k) ANY_IPV4;
     Ok (if (any : bool) then <[k := PNone]> rule else rule)
   else Ok rule) = Ok r →
  (r = rule
   ∧ (py_truthy (dict_get rule k) && guard = false
      ∨ ∃ s, rule !! k = Some (PStr s) ∧ String.prefix ANY_IPV4 s = false))
  ∨ (r = <[k := PNone]> rule
     ∧ ∃ s, rule !! k = Some (PStr s) ∧ String.prefix ANY_IPV4 s = true).
Proof.
  destruct (py_truthy (dict_get rule k) && guard) eqn:Et;
    [|intros [= <-]; left; auto].
  apply andb_true_iff in Et as [Et _]. unfold dict_get in *.
  destruct (rule !! k) as [v|]; [|done]. cbn [default from_option id] in *.
  destruct v as [| | | |s|]; cbn [py_startswith mbind result_bind];
    try discriminate.
  destruct (String.prefix ANY_IPV4 s) eqn:Ep; intros [= <-].
  - right. eauto.
  - left. split; [done|]. right. eauto.
Qed.

Lemma fix_prefix_fixed (rule : gmap string pyval) (k : string) (guard : bool) :
  py_truthy (dict_get rule k) && guard = false
  ∨ (∃ s, rule !! k = Some (PStr s) ∧ String.prefix ANY_IPV4 s = false) →
  (if py_truthy (dict_get rule k) && guard then
     any ← py_startswith (dict_get rule k) ANY_IPV4;
     Ok (if (any : bool) then <[k := PNone]> rule else rule)
   else Ok rule) = Ok rule.
Proof.
  intros [->|(s & Hs & Hp)]; [done|]. unfold dict_get. rewrite Hs.
  cbn [default from_option id py_startswith mbind result_bind].
  rewrite Hp. by destruct (_ && _).
Qed.

(** X16: after _fix_sg_rule_dict_ips neither remote_ip_prefix nor
    local_ip_prefix is a string that starts with 0.0.0.0/: such a prefix has
    become None, every other key of the rule is as before, and fixing the
    fixed rule again changes nothing. *)
Theorem fix_sg_rule_dict_ips_clears_any_prefix
    (sg_rule fixed : gmap string pyval) :
  _fix_sg_rule_dict_ips sg_rule = Ok fixed →
  (∀ k s, k ∈ [REMOTE_IP_PREFIX; LOCAL_IP_PREFIX] →
          fixed !! k = Some (PStr s) → String.prefix ANY_IPV4 s = false)
  ∧ (∀ k, fixed !! k = sg_rule !! k
          ∨ (k ∈ [REMOTE_IP_PREFIX; LOCAL_IP_PREFIX]
             ∧ fixed !! k = Some PNone
             ∧ ∃ s, sg_rule !! k = Some (PStr s)
                    ∧ String.prefix ANY_IPV4 s = true))
  ∧ _fix_sg_rule_dict_ips fixed = Ok fixed.
Proof.
  unfold _fix_sg_rule_dict_ips. intros H.
  apply bind_ok in H as (rule1 & H1 & H2).
  rewrite <- (andb_true_r (py_truthy (dict_get sg_rule REMOTE_IP_PREFIX)))
    in H1.
  apply fix_prefix_inv in H1. apply fix_prefix_inv in H2.
  assert (Hne : REMOTE_IP_PREFIX ≠ LOCAL_IP_PREFIX) by done.
  (* the value of the remote prefix after the first step *)
  assert (Hremote :
    (py_truthy (dict_get rule1 REMOTE_IP_PREFIX) = false
     ∨ ∃ s, rule1 !! REMOTE_IP_PREFIX = Some (PStr s)
            ∧ String.prefix ANY_IPV4 s = false)
    ∧ (rule1 !! REMOTE_IP_PREFIX = sg_rule !! REMOTE_IP_PREFIX
       ∨ (rule1 !! REMOTE_IP_PREFIX = Some PNone
          ∧ ∃ s, sg_rule !! REMOTE_IP_PREFIX = Some (PStr s)
                 ∧ String.prefix ANY_IPV4 s = true))
    ∧ rule1 !! LOCAL_IP_PREFIX = sg_rule !! LOCAL_IP_PREFIX
    ∧ ∀ k, k ≠ REMOTE_IP_PREFIX → rule1 !! k = sg_rule !! k).
  { destruct H1 as [[-> Hc]|[-> Hs]].
    - rewrite andb_true_r in Hc. auto.
    - unfold dict_get. rewrite lookup_insert_eq, lookup_insert_ne by done.
      repeat split; auto. intros k Hk. by rewrite lookup_insert_ne. }
  destruct Hremote as (Hr1 & Hr2 & Hl0 & Hother).
  assert (Hlocal :
    (py_truthy (dict_get fixed LOCAL_IP_PREFIX)
     && is_attr_set (dict_get fixed LOCAL_IP_PREFIX) = false
     ∨ ∃ s, fixed !! LOCAL_IP_PREFIX = Some (PStr s)
            ∧ String.prefix ANY_IPV4 s = false)
    ∧ (fixed !! LOCAL_IP_PREFIX = rule1 !! LOCAL_IP_PREFIX
       ∨ (fixed !! LOCAL_IP_PREFIX = Some PNone
          ∧ ∃ s, rule1 !! LOCAL_IP_PREFIX = Some (PStr s)
                 ∧ String.prefix ANY_IPV4 s = true))
    ∧ ∀ k, k ≠ LOCAL_IP_PREFIX → fixed !! k = rule1 !! k).
  { destruct H2 as [[-> Hc]|[-> Hs]].
    - auto.
    - unfold dict_get. rewrite lookup_insert_eq.
      repeat split; auto. intros k Hk. by rewrite lookup_insert_ne. }
  destruct Hlocal as (Hl1 & Hl2 & Hother2).
  assert (Hfr : fixed !! REMOTE_IP_PREFIX = rule1 !! REMOTE_IP_PREFIX)
    by (by apply Hother2).
  split; [|split].
  - intros k s Hk Hs.
    apply elem_of_cons in Hk as [->|Hk].
    { rewrite Hfr in Hs. destruct Hr1 as [Hf|(s' & Hs' & Hp)].
      - unfold dict_get in Hf. rewrite Hs in Hf.
        cbn [default from_option id py_truthy] in Hf.
        apply negb_false_iff, String.eqb_eq in Hf. by subst.
      - congruence. }
    apply elem_of_cons in Hk as [->|Hk]; [|by apply elem_of_nil in Hk].
    destruct Hl1 as [Hf|(s' & Hs' & Hp)]; [|congruence].
    unfold dict_get in Hf. rewrite Hs in Hf.
    cbn [default from_option id py_truthy] in Hf.
    rewrite andb_true_r in Hf.
    apply negb_false_iff, String.eqb_eq in Hf. by subst.
  - intros k.
    destruct (decide (k = REMOTE_IP_PREFIX)) as [->|Hkr].
    { rewrite Hfr. destruct Hr2 as [->|[-> Hs]]; [by left|].
      right. split; [by left|done]. }
    destruct (decide (k = LOCAL_IP_PREFIX)) as [->|Hkl].
    { rewrite <- Hl0. destruct Hl2 as [->|[-> Hs]]; [by left|].
      right. split; [by right; left|done]. }
    left. by rewrite Hother2, Hother.
  - assert (Hstep1 :
      (if py_truthy (dict_get fixed REMOTE_IP_PREFIX) then
         any ← py_startswith (dict_get fixed REMOTE_IP_PREFIX) ANY_IPV4;
         Ok (if (any : bool)
             then <[REMOTE_IP_PREFIX := PNone]> fixed else fixed)
       else Ok fixed) = Ok fixed).
    { rewrite <- (andb_true_r (py_truthy (dict_get fixed REMOTE_IP_PREFIX))).
      apply fix_prefix_fixed. unfold dict_get in *. rewrite Hfr.
      rewrite andb_true_r. done. }
    rewrite Hstep1. cbn [mbind result_bind]. by apply fix_prefix_fixed.
Qed.

End SecurityGroupRules.

(** ** Availability zones *)

Section AvailabilityZones.
Import Zones.

Variable azs : list string.
Variable neutron_list_availability_zones :
  option (gmap string (list string)) ->
  result (gmap (string * string) bool).

(** A filter lets a value through when it has no entry for the key, or
    lists the value. *)
Local Abbreviation lets_through f key value :=
  (match (f : gmap string (list string)) !! (key : string) with
   | Some wanted => (value : string) ∈ wanted
   | None => True
   end).

Lemma add_zone_resources_spec (resources : list string) (az : string)
    (f : gmap string (list string)) (acc : gmap (string * string) bool) :
  ∃ acc', add_zone_resources resources az (Some f) acc = Ok acc'
          ∧ ∀ a r v, acc' !! (a, r) = Some v
                     ↔ (a = az ∧ r ∈ resources ∧ lets_through f "resource" r
                        ∧ v = true)
                       ∨ (¬ (a = az ∧ r ∈ resources
                             ∧ lets_through f "resource" r)
                          ∧ acc !! (a, r) = Some v).
Proof.
  revert acc. induction resources as [|res resources IH]; intros acc.
  - exists acc. split; [done|]. intros a r v. split.
    + intros H. right. split; [|done]. intros (_ & Hin & _).
      by apply elem_of_nil in Hin.
    + intros [(_ & Hin & _)|[_ H]]; [by apply elem_of_nil in Hin|done].
  - cbn [add_zone_resources].
    set (selected := match f !! "resource" with
                     | Some wanted => bool_decide (res ∈ wanted)
                     | None => true
                     end).
    assert (Hsel : selected = true ↔ lets_through f "resource" res).
    { subst selected. destruct (f !! "resource"); [|done].
      apply bool_decide_eq_true. }
    destruct (IH (if selected then <[(az, res) := true]> acc else acc))
      as (acc' & -> & Hacc).
    exists acc'. split; [done|]. intros a r v. rewrite Hacc. clear Hacc IH.
    destruct (decide (a = az ∧ r = res)) as [[-> ->]|Hne].
    + destruct selected eqn:Es.
      * rewrite lookup_insert_eq.
        pose proof (proj1 Hsel eq_refl) as Hl. split.
        -- intros [(_ & _ & _ & ->)|[_ [= <-]]]; left;
             (split; [done|]); (split; [by left|done]).
        -- intros [(_ & _ & _ & ->)|[Hn _]].
           ++ destruct (decide (res ∈ resources)) as [Hin|Hin].
              ** left. done.
              ** right. split; [|done]. by intros (_ & ? & _).
           ++ destruct Hn. split; [done|]. split; [by left|done].
      * assert (Hl : ¬ lets_through f "resource" res)
          by (intros Hl; apply Hsel in Hl; done).
        split.
        -- intros [(_ & _ & Hl' & _)|[_ H]]; [done|].
           right. split; [|done]. by intros (_ & _ & ?).
        -- intros [(_ & _ & Hl' & _)|[_ H]]; [done|].
           right. split; [|done]. by intros (_ & _ & ?).
    + assert (Hlook : (if selected then <[(az, res) := true]> acc else acc)
                      !! (a, r) = acc !! (a, r)).
      { destruct selected; [|done]. apply lookup_insert_ne.
        intros [= <- <-]. by apply Hne. }
      rewrite Hlook. split.
      * intros [(-> & Hin & Hl & ->)|[Hn H]].
        -- left. split; [done|]. split; [by right|done].
        -- right. split; [|done]. intros (-> & Hin & Hl).
           apply elem_of_cons in Hin as [->|Hin]; [by apply Hne|].
           by apply Hn.
      * intros [(-> & Hin & Hl & ->)|[Hn H]].
        -- left. split; [done|]. split; [|done].
           apply elem_of_cons in Hin as [->|Hin]; [by destruct Hne|done].
        -- right. split; [|done]. intros (-> & Hin & Hl).
           apply Hn. split; [done|]. split; [by right|done].
Qed.

Lemma add_zones_spec (zones : list string) (f : gmap string (list string))
    (acc : gmap (string * string) bool) :
  ∃ acc', add_zones zones (Some f) acc = Ok acc'
          ∧ ∀ a r v, acc' !! (a, r) = Some v
                     ↔ (a ∈ zones ∧ lets_through f "name" a
                        ∧ r ∈ zone_resources ∧ lets_through f "resource" r
                        ∧ v = true)
                       ∨ (¬ (a ∈ zones ∧ lets_through f "name" a
                             ∧ r ∈ zone_resources
                             ∧ lets_through f "resource" r)
                          ∧ acc !! (a, r) = Some v).
Proof.
  revert acc. induction zones as [|az zones IH]; intros acc.
  - exists acc. split; [done|]. intros a r v. split.
    + intros H. right. split; [|done]. intros (Hin & _).
      by apply elem_of_nil in Hin.
    + intros [(Hin & _)|[_ H]]; [by apply elem_of_nil in Hin|done].
  - cbn [add_zones].
    set (skipped := filters_truthy (Some f) && _).
    assert (Hskip : skipped = false ↔ lets_through f "name" az).
    { subst skipped. unfold filters_truthy.
      destruct (f !! "name") as [names|] eqn:En.
      - rewrite bool_decide_eq_false_2
          by (intros ->; by rewrite lookup_empty in En).
        cbn [negb andb]. rewrite negb_false_iff. apply bool_decide_eq_true.
      - by rewrite andb_false_r. }
    destruct skipped eqn:Es.
    + assert (Hl : ¬ lets_through f "name" az)
        by (intros Hl; apply Hskip in Hl; done).
      destruct (IH acc) as (acc' & -> & Hacc).
      exists acc'. split; [done|]. intros a r v. rewrite Hacc. split.
      * intros [(Hin & Hn & Hrest)|[Hn H]].
        -- left. split; [by right|done].
        -- right. split; [|done]. intros (Hin & Hname & Hrest).
           apply elem_of_cons in Hin as [->|Hin]; [done|]. by apply Hn.
      * intros [(Hin & Hn & Hrest)|[Hn H]].
        -- left. split; [|done].
           apply elem_of_cons in Hin as [->|Hin]; done.
        -- right. split; [|done]. intros (Hin & Hname & Hrest).
           apply Hn. split; [by right|done].
    + pose proof (proj1 Hskip eq_refl) as Hl.
      destruct (add_zone_resources_spec zone_resources az f acc)
        as (acc1 & -> & Hacc1).
      cbn [mbind result_bind].
      destruct (IH acc1) as (acc' & -> & Hacc).
      exists acc'. split; [done|]. intros a r v. rewrite Hacc, Hacc1. split.
      * intros [(Hin & Hn & Hrest)|[Hn [(-> & Hr & Hres & ->)|[Hn1 H]]]].
        -- left. split; [by right|done].
        -- left. split; [by left|done].
        -- right. split; [|done]. intros (Hin & Hname & Hr & Hres).
           apply elem_of_cons in Hin as [->|Hin]; [by apply Hn1|].
           by apply Hn.
      * intros [(Hin & Hn & Hr & Hres & ->)|[Hn H]].
        -- destruct (decide (a ∈ zones)) as [Hz|Hz]; [by left|].
           right. split; [by intros (? & _)|].
           apply elem_of_cons in Hin as [->|Hin]; [|done]. by left.
        -- right. split.
           { intros (Hin & Hrest). apply Hn. split; [by right|done]. }
           right. split; [|done]. intros (-> & Hr & Hres).
           apply Hn. split; [by left|done].
Qed.

(** X17: with native DHCP and metadata, _list_availability_zones called with
    a filters dict lists exactly the pairs (zone, resource), with value
    True, of a configured zone and a resource among network and router that
    the name filter and the resource filter (each where present) let
    through; called with filters=None it returns the empty dict when no zone
    is configured and raises TypeError otherwise. *)
Theorem list_availability_zones_applies_filters
    (f : gmap string (list string)) :
  (∃ listed,
     _list_availability_zones true azs neutron_list_availability_zones
       (Some f) = Ok listed
     ∧ ∀ az res v,
         listed !! (az, res) = Some v
         ↔ az ∈ azs ∧ lets_through f "name" az
           ∧ res ∈ zone_resources ∧ lets_through f "resource" res
           ∧ v = true)
  ∧ _list_availability_zones true azs neutron_list_availability_zones None
    = (if bool_decide (azs = []) then Ok ∅ else Raise TypeError).
Proof.
  unfold _list_availability_zones. cbn [negb]. split.
  - destruct (add_zones_spec azs f ∅) as (listed & -> & H).
    exists listed. split; [done|]. intros az res v. rewrite H.
    rewrite lookup_empty. split; [|by left].
    intros [?|[_ ?]]; done.
  - destruct azs as [|az zones]; [done|].
    rewrite bool_decide_eq_false_2 by done. reflexivity.
Qed.

End AvailabilityZones.

(** ** Port security of ports with a direct vnic type *)

Section DirectVnic.
Import Port Outcome PortSecurity.

(** X18: for a direct vnic type fix_direct_vnic_port_sec rejects a request
    that switches port security on with InvalidInput, and the request it
    returns has port security set to off with every other key unchanged; for
    any other vnic type it returns the request unchanged. *)
Theorem direct_vnic_port_has_no_port_security
    (direct_vnic_type : pyval) (port_data : gmap string pyval) :
  let psec := dict_get port_data PORTSECURITY in
  let fixed := fix_direct_vnic_port_sec direct_vnic_type port_data in
  (py_truthy direct_vnic_type = false → fixed = Returns port_data)
  ∧ (py_truthy direct_vnic_type = true →
     (is_attr_set psec && py_truthy psec = true →
      fixed = Raises (InvalidInputError DirectVnicSecurity))
     ∧ ∀ port_data', fixed = Returns port_data' →
         is_attr_set (dict_get port_data' PORTSECURITY) = true
         ∧ py_truthy (dict_get port_data' PORTSECURITY) = false
         ∧ ∀ k, k ≠ PORTSECURITY → port_data' !! k = port_data !! k).
Proof.
  intros psec fixed. subst fixed. unfold fix_direct_vnic_port_sec.
  fold psec. split; [by intros ->|]. intros ->. split.
  - by intros [-> ->]%andb_true_iff.
  - intros port_data'. destruct (is_attr_set psec) eqn:Es.
    + destruct (py_truthy psec) eqn:Et; [done|]. intros [= <-]. done.
    + intros [= <-]. rewrite dict_get_insert. repeat split.
      intros k Hk. by rewrite lookup_insert_ne.
Qed.

End DirectVnic.

(** ** Subnets and native DHCP *)

Section SubnetRules.
Import Dhcp Outcome Subnet.
Local Open Scope nat_scope.
Local Open Scope list_scope.

Variable E : env.
Variable C : collaborators.

(** The DHCP-enabled subnets of a network. *)
Local Abbreviation dhcp_enabled_on network l :=
  (filter (fun subnet => enable_dhcp subnet = true
                         ∧ sn_network_id subnet = network) l).

Lemma has_no_dhcp_enabled_subnet_spec (l : list subnet) :
  _has_no_dhcp_enabled_subnet l = true
  ↔ filter (fun subnet => enable_dhcp subnet = true) l = [].
Proof.
  induction l as [|s l IH]; [done|]. cbn [_has_no_dhcp_enabled_subnet].
  rewrite filter_cons. destruct (enable_dhcp s) eqn:Es.
  - rewrite decide_True by done. done.
  - rewrite decide_False by done. done.
Qed.

Lemma count_dhcp_enabled_spec (count : nat) (l : list subnet) :
  count ≤ 1 →
  count_dhcp_enabled count l = true
  ↔ count + length (filter (fun subnet => enable_dhcp subnet = true) l) = 1.
Proof.
  revert count. induction l as [|s l IH]; intros count Hc.
  - cbn [count_dhcp_enabled filter list_filter length].
    destruct (count =? 1) eqn:E1.
    + apply Nat.eqb_eq in E1. split; [lia|done].
    + apply Nat.eqb_neq in E1. split; [done|lia].
  - cbn [count_dhcp_enabled]. rewrite filter_cons.
    destruct (enable_dhcp s) eqn:Es.
    + rewrite decide_True by done. cbn [length].
      destruct (1 <? count + 1) eqn:E1.
      * apply Nat.ltb_lt in E1. split; [done|lia].
      * apply Nat.ltb_ge in E1. rewrite IH by lia. lia.
    + rewrite decide_False by done. by apply IH.
Qed.

(** X19: _has_no_dhcp_enabled_subnet holds exactly when the network has no
    DHCP-enabled subnet, and _has_single_dhcp_enabled_subnet exactly when it
    has one. *)
Theorem dhcp_enabled_subnets_are_counted (l : list subnet) :
  let enabled := filter (fun subnet => enable_dhcp subnet = true) l in
  _has_no_dhcp_enabled_subnet l = bool_decide (length enabled = 0)
  ∧ _has_single_dhcp_enabled_subnet l = bool_decide (length enabled = 1).
Proof.
  intros enabled. split.
  - apply eq_true_iff_eq. rewrite has_no_dhcp_enabled_subnet_spec.
    rewrite bool_decide_eq_true. fold enabled.
    split; [by intros ->|]. by destruct enabled.
  - apply eq_true_iff_eq. unfold _has_single_dhcp_enabled_subnet.
    rewrite count_dhcp_enabled_spec by lia. rewrite bool_decide_eq_true.
    fold enabled. lia.
Qed.

Lemma S_bind_inv {A B} (m : S A) (k : A → S B) st r st' :
  (m ≫= k) st = (r, st') →
  (∃ a st1, m st = (Returns a, st1) ∧ k a st1 = (r, st'))
  ∨ (∃ e, m st = (Raises e, st') ∧ r = Raises e).
Proof.
  unfold mbind, S_bind. destruct (m st) as [[a|e] st1]; intros H.
  - left. eauto.
  - right. injection H as <- <-. eauto.
Qed.

Lemma pure_call_inv {A} (c : outcome A) st r st' :
  pure_call c st = (r, st') → r = c ∧ st' = st.
Proof. by intros [= <- <-]. Qed.

Lemma in_dhcp_subnets {A} (m : M A) st r st' :
  in_dhcp m st = (r, st') →
  subnets st' = subnets st ∧ errors st' = errors st
  ∧ ∃ r0, m (dhcp st) = (r0, dhcp st') ∧ r = passed_on r0.
Proof.
  unfold in_dhcp. destruct (m (dhcp st)) as [r0 s] eqn:Em.
  intros [= <- <-]. cbn. eauto.
Qed.

Lemma base_delete_subnet_inv (id : nat) st r st' :
  base_delete_subnet C id st = (r, st') →
  dhcp st' = dhcp st ∧ errors st' = errors st
  ∧ ((r = Returns tt ∧ delete_subnet_check C id = Returns tt
      ∧ subnets st' = filter (λ subnet, subnet_id subnet ≠ id) (subnets st))
     ∨ (∃ e, r = Raises e ∧ delete_subnet_check C id = Raises e
             ∧ subnets st' = subnets st)).
Proof.
  unfold base_delete_subnet. intros H.
  apply S_bind_inv in H as [([] & st1 & H1 & H)|(e & H & ->)].
  - apply pure_call_inv in H1 as [H1 ->]. unfold set_subnets in H.
    injection H as <- <-. cbn. repeat split; try done. left. done.
  - apply pure_call_inv in H as [H ->]. repeat split; try done. right. eauto.
Qed.

Lemma create_subnet_inv (rq : request) st r st' :
  create_subnet C rq st = (r, st') →
  dhcp st' = dhcp st ∧ errors st' = errors st
  ∧ ((∃ e, r = Raises e ∧ subnets st' = subnets st)
     ∨ (∃ created, r = Returns created
          ∧ created = {| subnet_id := fresh (subnet_id <$> subnets st);
                         sn_network_id := rq_network_id rq;
                         enable_dhcp := rq_enable_dhcp rq |}
          ∧ subnets st' = created :: subnets st)).
Proof.
  unfold create_subnet. intros H.
  apply S_bind_inv in H as [([] & st1 & H1 & H)|(e & H & ->)].
  - apply pure_call_inv in H1 as [H1 ->]. injection H as <- <-. cbn.
    repeat split; try done. right. eauto.
  - apply pure_call_inv in H as [H ->]. repeat split; try done. left. eauto.
Qed.

Lemma validate_created_subnet_inv (created : subnet) st r st' :
  validate_created_subnet C created st = (r, st') →
  dhcp st' = dhcp st ∧ errors st' = errors st
  ∧ (subnets st' = subnets st
     ∨ (subnets st'
        = filter (λ subnet, subnet_id subnet ≠ subnet_id created) (subnets st)
        ∧ ∃ e, r = Raises e)).
Proof.
  unfold validate_created_subnet, try_except_in, pure_call.
  destruct (_validate_address_space C created) as [[]|e].
  - intros [= <- <-]. auto.
  - destruct (is_InvalidInput e); [|intros [= <- <-]; auto].
    unfold reraise_after.
    destruct (base_delete_subnet C (subnet_id created) st) as [r1 st1] eqn:Ed.
    apply base_delete_subnet_inv in Ed as (Hd & He & Hs).
    destruct r1 as [[]|e1]; intros [= <- <-]; repeat split; try done.
    + destruct Hs as [(_ & _ & ->)|(? & ? & _)]; [|done]. right. eauto.
    + destruct Hs as [(? & _)|(? & _ & _ & ->)]; [done|]. by left.
Qed.

(** What [_create_subnet] does to the subnet table: nothing, or it adds
    the requested subnet; under native DHCP a DHCP-enabled subnet is added
    only to a network that has none. *)
Lemma create_subnet_table (rq : request) st r st' :
  _create_subnet E C rq st = (r, st') →
  subnets st' = subnets st
  ∨ (∃ created,
       subnets st' = created :: subnets st
       ∧ sn_network_id created = rq_network_id rq
       ∧ enable_dhcp created = rq_enable_dhcp rq
       ∧ subnet_id created = fresh (subnet_id <$> subnets st)
       ∧ (_has_native_dhcp_metadata C && rq_enable_dhcp rq = true →
          _has_no_dhcp_enabled_subnet
            (filter (λ subnet, sn_network_id subnet = rq_network_id rq)
                    (subnets st)) = true)).
Proof.
  unfold _create_subnet. intros H.
  apply S_bind_inv in H as [([] & st1 & H1 & H)|(e & H & ->)];
    [|apply pure_call_inv in H as [_ ->]; by left].
  apply pure_call_inv in H1 as [_ ->].
  assert (Hfresh : ∀ created : subnet,
    created = {| subnet_id := fresh (subnet_id <$> subnets st);
                 sn_network_id := rq_network_id rq;
                 enable_dhcp := rq_enable_dhcp rq |} →
    filter (λ subnet, subnet_id subnet ≠ subnet_id created)
           (created :: subnets st) = subnets st).
  { intros created ->. by apply (filter_fresh_id subnet_id). }
  destruct (_has_native_dhcp_metadata C && rq_enable_dhcp rq) eqn:En.
  - apply S_bind_inv in H as [([] & st1 & H1 & H)|(e & H & ->)];
      [|apply pure_call_inv in H as [_ ->]; by left].
    apply pure_call_inv in H1 as [_ ->].
    destruct (_is_ddi_supported_on_net_with_type C (rq_network_id rq))
      as [ddi_support ddi_type].
    destruct (py_truthy ddi_support).
    2:{ apply S_bind_inv in H as [([] & st1 & H1 & H)|(e & H & ->)].
        - injection H1 as <-. injection H as <- <-. by left.
        - discriminate H. }
    apply S_bind_inv in H as [(network & st1 & H1 & H)|(e & H & ->)];
      [|discriminate H].
    injection H1 as Hnet <-.
    destruct (_has_no_dhcp_enabled_subnet network) eqn:Hno.
    2:{ apply S_bind_inv in H as [([] & st1 & H1 & H)|(e & H & ->)].
        - injection H1 as <-. injection H as <- <-. by left.
        - discriminate H. }
    apply S_bind_inv in H as [(created & st1 & H1 & H)|(e & H & ->)].
    2:{ apply create_subnet_inv in H as (_ & _ & [(? & _ & ->)|(? & ? & _)]);
          [by left|done]. }
    apply create_subnet_inv in H1
      as (Hd1 & He1 & [(? & ? & _)|(c & [= <-] & Hc & Hs1)]); [done|].
    assert (Hafter : ∀ st2,
      subnets st2 = subnets st1
      ∨ subnets st2 = filter (λ subnet, subnet_id subnet ≠ subnet_id created)
                             (subnets st1) →
      subnets st2 = subnets st
      ∨ (∃ created0,
           subnets st2 = created0 :: subnets st
           ∧ sn_network_id created0 = rq_network_id rq
           ∧ enable_dhcp created0 = rq_enable_dhcp rq
           ∧ subnet_id created0 = fresh (subnet_id <$> subnets st)
           ∧ (true = true →
              _has_no_dhcp_enabled_subnet
                (filter (λ subnet, sn_network_id subnet = rq_network_id rq)
                        (subnets st)) = true))).
    { intros st2 [->| ->]; rewrite Hs1.
      - right. exists created. rewrite Hnet. by rewrite Hc.
      - left. by apply Hfresh. }
    apply S_bind_inv in H as [([] & st2 & H2 & H)|(e & H & ->)].
    2:{ apply validate_created_subnet_inv in H as (_ & _ & [Hs|[Hs _]]);
          apply Hafter; auto. }
    apply validate_created_subnet_inv in H2 as (_ & _ & [Hs2|[_ (? & ?)]]);
      [|done].
    apply S_bind_inv in H as [([] & st3 & H3 & H)|(e & H & ->)].
    2:{ apply pure_call_inv in H as [_ ->]. apply Hafter; auto. }
    apply pure_call_inv in H3 as [_ ->].
    apply S_bind_inv in H as [([] & st3 & H3 & H)|(e & H & ->)].
    + injection H as <- <-.
      assert (Hs3 : subnets st3 = subnets st2).
      { destruct (negb _); [|by injection H3 as <-].
        destruct (nsxlib E); [|by injection H3 as <-].
        by apply in_dhcp_subnets in H3 as [? _]. }
      apply Hafter. left. congruence.
    + assert (Hs3 : subnets st' = subnets st2).
      { destruct (negb _); [|discriminate H].
        destruct (nsxlib E); [|discriminate H].
        by apply in_dhcp_subnets in H as [? _]. }
      apply Hafter. left. congruence.
  - apply S_bind_inv in H as [(created & st1 & H1 & H)|(e & H & ->)].
    2:{ apply create_subnet_inv in H as (_ & _ & [(? & _ & ->)|(? & ? & _)]);
          [by left|done]. }
    apply create_subnet_inv in H1
      as (Hd1 & He1 & [(? & ? & _)|(c & [= <-] & Hc & Hs1)]); [done|].
    apply S_bind_inv in H as [([] & st2 & H2 & H)|(e & H & ->)].
    + injection H as <- <-.
      apply validate_created_subnet_inv in H2 as (_ & _ & [Hs2|[_ (? & ?)]]);
        [|done].
      right. exists created. rewrite Hs2, Hs1, Hc. done.
    + apply validate_created_subnet_inv in H as (_ & _ & [Hs|[Hs _]]);
        rewrite Hs, Hs1.
      * right. exists created. by rewrite Hc.
      * left. by apply Hfresh.
Qed.


Lemma has_no_dhcp_enabled_on (network : nat) (l : list subnet) :
  _has_no_dhcp_enabled_subnet
    (filter (λ subnet, sn_network_id subnet = network) l) = true
  ↔ dhcp_enabled_on network l = [].
Proof.
  by rewrite has_no_dhcp_enabled_subnet_spec, list_filter_filter.
Qed.

Lemma has_single_dhcp_enabled_on (network : nat) (l : list subnet) :
  _has_single_dhcp_enabled_subnet
    (filter (λ subnet, sn_network_id subnet = network) l) = true
  ↔ length (dhcp_enabled_on network l) = 1.
Proof.
  unfold _has_single_dhcp_enabled_subnet.
  rewrite count_dhcp_enabled_spec by lia. rewrite list_filter_filter. lia.
Qed.

(** X20: under native DHCP, creating a DHCP-enabled subnet that passes the
    host route and external subnet checks, on a network that supports native
    DHCP and already has a DHCP-enabled subnet, raises InvalidInput; the
    error is logged and neither the subnet table nor the DHCP store changes. *)
Theorem second_dhcp_enabled_subnet_is_rejected
    (rq : request) (st : store) (enabled : subnet) :
  let network := rq_network_id rq in
  _has_native_dhcp_metadata C = true →
  rq_enable_dhcp rq = true →
  _validate_host_routes_input C rq = Returns tt →
  _validate_external_subnet C network = Returns tt →
  py_truthy (_is_ddi_supported_on_net_with_type C network).1 = true →
  enabled ∈ subnets st →
  sn_network_id enabled = network →
  enable_dhcp enabled = true →
  _create_subnet E C rq st
  = (Raises (InvalidInputError (MultipleDhcpSubnets network)),
     {| subnets := subnets st; dhcp := dhcp st;
        errors := RejectedSubnet (MultipleDhcpSubnets network)
                  :: errors st |}).
Proof.
  intros network Hnative Hdhcp Hroutes Hext Hddi Hin Hnet Hen.
  unfold _create_subnet. rewrite Hnative, Hdhcp, Hroutes. cbn [andb].
  unfold mbind at 1, S_bind, pure_call at 1. fold network. rewrite Hext.
  unfold mbind at 1, S_bind, pure_call at 1.
  destruct (_is_ddi_supported_on_net_with_type C network)
    as [ddi_support ddi_type]. cbn [fst] in Hddi. rewrite Hddi.
  unfold mbind at 1, S_bind, network_subnets.
  assert (Hno : _has_no_dhcp_enabled_subnet
                  (filter (λ subnet, sn_network_id subnet = network)
                          (subnets st)) = false).
  { apply not_true_is_false. rewrite has_no_dhcp_enabled_on. intros Hnil.
    assert (Hel : enabled ∈ dhcp_enabled_on network (subnets st))
      by (by apply list_elem_of_filter).
    rewrite Hnil in Hel. by apply elem_of_nil in Hel. }
  rewrite Hno. reflexivity.
Qed.

(** X21: under native DHCP, if every network has at most one DHCP-enabled
    subnet before _create_subnet, every network has at most one after it,
    whether the call returns or raises. *)
Theorem create_subnet_keeps_one_dhcp_enabled_subnet
    (rq : request) (st : store) (r : outcome subnet) (st' : store) :
  _has_native_dhcp_metadata C = true →
  _create_subnet E C rq st = (r, st') →
  (∀ network, length (dhcp_enabled_on network (subnets st)) ≤ 1) →
  ∀ network, length (dhcp_enabled_on network (subnets st')) ≤ 1.
Proof.
  intros Hnative H Hone network.
  apply create_subnet_table in H as [->|(created & -> & Hn & He & _ & Hno)];
    [done|].
  rewrite Hnative in Hno. cbn [andb] in Hno. rewrite filter_cons.
  destruct (decide (enable_dhcp created = true
                    ∧ sn_network_id created = network)) as [[Hen <-]|_];
    [|done].
  rewrite He in Hen. apply Hno, has_no_dhcp_enabled_on in Hen.
  rewrite <- Hn in Hen. by rewrite Hen.
Qed.

(** X22: under native DHCP, when the only DHCP-enabled subnet of a network
    is deleted and _disable_native_dhcp raises, delete_subnet logs the
    failure, goes on to the delete of the base class and, when that passes,
    returns normally with the subnet row deleted. *)
Theorem delete_subnet_goes_on_when_disable_fails
    (id : nat) (st : store) (subnet : subnet) (e : exn) (s1 : state) :
  let network := sn_network_id subnet in
  _has_native_dhcp_metadata C = true →
  _subnet_check_ip_allocations_internal_router_ports C id = Returns tt →
  head (filter (λ subnet, subnet_id subnet = id) (subnets st)) = Some subnet →
  enable_dhcp subnet = true →
  length (dhcp_enabled_on network (subnets st)) = 1 →
  _disable_native_dhcp E network (dhcp st) = (Raise e, s1) →
  delete_subnet_check C id = Returns tt →
  delete_subnet E C id st
  = (Returns tt,
     {| subnets := filter (λ subnet, subnet_id subnet ≠ id) (subnets st);
        dhcp := s1;
        errors := FailedToDisableNativeDhcp network (Propagated e)
                  :: errors st |}).
Proof.
  intros network Hnative Hcheck Hget Hen Hone Hdis Hdel.
  unfold delete_subnet. rewrite Hnative, Hcheck.
  unfold mbind at 1, S_bind, pure_call at 1.
  unfold mbind at 1, S_bind, get_subnet. rewrite Hget, Hen.
  unfold mbind at 1, S_bind, network_subnets. fold network.
  rewrite (proj2 (has_single_dhcp_enabled_on network (subnets st)) Hone).
  unfold mbind at 1, S_bind, try_except_in, in_dhcp. rewrite Hdis.
  cbn [passed_on log_error subnets dhcp errors].
  unfold base_delete_subnet, mbind, S_bind, pure_call. rewrite Hdel.
  reflexivity.
Qed.

(** X23: delete_subnet removes no subnet row other than those with the given
    id, and it changes the DHCP store only under native DHCP, when the
    subnet is DHCP-enabled and the only DHCP-enabled subnet of its network,
    and then by a run of _disable_native_dhcp on that network. *)
Theorem delete_subnet_disables_dhcp_with_last_subnet_only
    (id : nat) (st : store) (r : outcome unit) (st' : store) :
  delete_subnet E C id st = (r, st') →
  (subnets st' = subnets st
   ∨ subnets st' = filter (λ subnet, subnet_id subnet ≠ id) (subnets st))
  ∧ (dhcp st' = dhcp st
     ∨ (_has_native_dhcp_metadata C = true
        ∧ ∃ subnet,
            head (filter (λ subnet, subnet_id subnet = id) (subnets st))
            = Some subnet
            ∧ enable_dhcp subnet = true
            ∧ length (dhcp_enabled_on (sn_network_id subnet) (subnets st)) = 1
            ∧ ∃ r0, _disable_native_dhcp E (sn_network_id subnet) (dhcp st)
                    = (r0, dhcp st'))).
Proof.
  unfold delete_subnet. intros H.
  assert (Hbase : ∀ st0 r0 st1,
    base_delete_subnet C id st0 = (r0, st1) →
    (subnets st1 = subnets st0
     ∨ subnets st1 = filter (λ subnet, subnet_id subnet ≠ id) (subnets st0))
    ∧ dhcp st1 = dhcp st0).
  { intros st0 r0 st1 Hb.
    apply base_delete_subnet_inv in Hb
      as (Hd & _ & [(_ & _ & ->)|(? & _ & _ & ->)]); auto. }
  destruct (_has_native_dhcp_metadata C) eqn:Hnative.
  2:{ apply Hbase in H as [? ?]. auto. }
  apply S_bind_inv in H as [([] & st1 & H1 & H)|(e & H & ->)];
    [|apply pure_call_inv in H as [_ ->]; auto].
  apply pure_call_inv in H1 as [_ ->].
  apply S_bind_inv in H as [(subnet & st1 & H1 & H)|(e & H & ->)].
  2:{ unfold get_subnet in H. destruct (head _); [discriminate H|].
      injection H as _ <-. auto. }
  unfold get_subnet in H1. destruct (head _) as [sn|] eqn:Hget; [|done].
  injection H1 as <- <-.
  destruct (enable_dhcp sn) eqn:Hen.
  2:{ apply Hbase in H as [? ?]. auto. }
  apply S_bind_inv in H as [(network & st1 & H1 & H)|(e & H & ->)];
    [|discriminate H].
  injection H1 as <- <-.
  destruct (_has_single_dhcp_enabled_subnet _) eqn:Hsingle.
  2:{ apply Hbase in H as [? ?]. auto. }
  apply has_single_dhcp_enabled_on in Hsingle.
  assert (Htry : ∀ st1 r1,
    try_except_in (in_dhcp (_disable_native_dhcp E (sn_network_id sn)))
      (λ _, true)
      (λ e, log_error (FailedToDisableNativeDhcp (sn_network_id sn) e))
      st = (r1, st1) →
    subnets st1 = subnets st
    ∧ ∃ r0, _disable_native_dhcp E (sn_network_id sn) (dhcp st)
            = (r0, dhcp st1)).
  { intros st1 r1. unfold try_except_in, in_dhcp.
    destruct (_disable_native_dhcp E (sn_network_id sn) (dhcp st))
      as [[[]|e] s1]; cbn [passed_on log_error subnets dhcp errors];
      intros [= <- <-]; cbn; eauto. }
  apply S_bind_inv in H as [([] & st1 & H1 & H)|(e & H & ->)].
  - apply Htry in H1 as [Hs1 (r0 & Hr0)].
    apply Hbase in H as [Hs Hd]. rewrite Hs1 in Hs. split; [done|].
    right. split; [done|]. exists sn. rewrite Hd. eauto 10.
  - apply Htry in H as [Hs1 (r0 & Hr0)]. split; [by left|].
    right. split; [done|]. exists sn. eauto 10.
Qed.

End SubnetRules.

(** ** Port security, address pairs and security groups of a port *)

Section PortSecurityRules.
Import Port Outcome PortSecurity.

Variable is_ipv4_ip_address : option string -> bool.
Variable db : Type.
Variable _determine_port_security_and_has_ip :
  gmap string pyval -> pyval * bool.
Variable _ens_psec_supported : pyval.
Variable _process_port_port_security_create :
  db -> gmap string pyval -> gmap string pyval -> result db.
Variable _process_create_allowed_address_pairs :
  db -> gmap string pyval -> pyval -> result db.
Variable _ensure_default_security_group_on_port :
  db -> gmap string pyval -> result (db * gmap string pyval).
Variable _get_port_security_groups_lists :
  db -> gmap string pyval -> list pyatom * list pyatom.
Variable _check_update_has_security_groups : gmap string pyval -> bool.
Variable _get_provider_security_groups_on_port :
  db -> gmap string pyval -> pyval.
Variable _get_security_groups_on_port :
  db -> gmap string pyval -> result pyval.
Variable _check_update_deletes_allowed_address_pairs :
  gmap string pyval -> bool.
Variable _check_update_has_allowed_address_pairs : gmap string pyval -> bool.
Variable _check_update_deletes_security_groups : gmap string pyval -> bool.
Variable _get_port_security_binding : db -> string -> pyval.
Variable _ip_on_port : gmap string pyval -> bool.
Variable get_allowed_address_pairs : db -> string -> pyval.
Variable _delete_allowed_address_pairs : db -> string -> db.
Variable _get_port_security_group_bindings : db -> string -> pyval.
Variable _delete_port_security_group_bindings : db -> string -> db.
Variable _process_port_create_security_group :
  db -> gmap string pyval -> pyval -> result (db * gmap string pyval).
Variable _process_port_port_security_update :
  db -> gmap string pyval -> gmap string pyval ->
  result (db * gmap string pyval).

Local Abbreviation validate_pairs :=
  (_validate_ipv4_address_pairs is_ipv4_ip_address).
Local Abbreviation create_pairs :=
  (_create_port_address_pairs is_ipv4_ip_address db
     _determine_port_security_and_has_ip
     _process_create_allowed_address_pairs).
Local Abbreviation preprocess_create :=
  (_create_port_preprocess_security is_ipv4_ip_address db
     _determine_port_security_and_has_ip _ens_psec_supported
     _process_port_port_security_create _process_create_allowed_address_pairs
     _ensure_default_security_group_on_port _get_port_security_groups_lists
     _check_update_has_security_groups _get_provider_security_groups_on_port
     _get_security_groups_on_port).
Local Abbreviation preprocess_update :=
  (_update_port_preprocess_security is_ipv4_ip_address db _ens_psec_supported
     _process_create_allowed_address_pairs _check_update_has_security_groups
     _get_security_groups_on_port
     _check_update_deletes_allowed_address_pairs
     _check_update_has_allowed_address_pairs
     _check_update_deletes_security_groups _get_port_security_binding
     _ip_on_port get_allowed_address_pairs _delete_allowed_address_pairs
     _get_port_security_group_bindings _delete_port_security_group_bindings
     _process_port_create_security_group _process_port_port_security_update).

(** The address pairs that pass [_validate_ipv4_address_pairs]. *)
Lemma validate_ipv4_address_pairs_ok (address_pairs : pyval) :
  validate_pairs address_pairs = Ok tt →
  address_pairs = PStr ""
  ∨ ∃ l, address_pairs = PList l
         ∧ ∀ p, p ∈ l → ∃ d, p = ADict d
                             ∧ is_ipv4_ip_address (d !! "ip_address") = true.
Proof.
  destruct address_pairs as [| | | |s|l]; try discriminate.
  - cbn. destruct (String.eqb s "") eqn:Es; [|discriminate].
    apply String.eqb_eq in Es as ->. by left.
  - intros H. right. exists l. split; [done|]. cbn in H.
    induction l as [|p l IH]; intros q Hq; [by apply elem_of_nil in Hq|].
    cbn [validate_each_pair] in H. destruct p as [|d]; [discriminate|].
    destruct (is_ipv4_ip_address (d !! "ip_address")) eqn:Eip;
      cbn [negb] in H; [|discriminate].
    apply elem_of_cons in Hq as [->|Hq]; [eauto|]. by apply IH.
Qed.

Lemma provider_sgs_specified_insert (d : gmap string pyval) (k : string)
    (v : pyval) :
  k ≠ PROVIDER_SECURITYGROUPS →
  _provider_sgs_specified (<[k := v]> d) = _provider_sgs_specified d.
Proof.
  intros Hk. unfold _provider_sgs_specified.
  by rewrite dict_get_insert_ne.
Qed.

(** X24: when _create_port_preprocess_security returns, the port security
    and has-ip values are those determined from the request; port security
    on an ENS port needed the ENS port security support of the plugin;
    address pairs in the request needed port security and are all IPv4; and
    without both port security and an IP the request names neither security
    groups nor provider security groups and none are returned. *)
Theorem created_port_keeps_security_rules
    (st : db) (port_data neutron_db : gmap string pyval)
    (is_ens_tz_port : pyval) (st' : db) (port_data' : gmap string pyval)
    (port_security : pyval) (has_ip : bool) (sgids psgids : list pyatom) :
  let secured := <[PORTSECURITY := port_security]> port_data in
  let address_pairs := dict_get port_data ADDRESS_PAIRS in
  preprocess_create st port_data neutron_db is_ens_tz_port
  = Ok (st', port_data', (port_security, has_ip, sgids, psgids)) →
  (port_security, has_ip) = _determine_port_security_and_has_ip port_data
  ∧ (py_truthy port_security && py_truthy is_ens_tz_port = true →
     py_truthy _ens_psec_supported = true)
  ∧ (is_attr_set address_pairs = true →
     py_truthy (_determine_port_security_and_has_ip secured).1 = true
     ∧ validate_pairs address_pairs = Ok tt)
  ∧ (py_truthy port_security && has_ip = false →
     sgids = [] ∧ psgids = []
     ∧ py_truthy (_provider_sgs_specified port_data) = false
     ∧ _check_update_has_security_groups
         (if is_attr_set address_pairs then secured
          else <[ADDRESS_PAIRS := PList []]> secured) = false).
Proof.
  intros secured address_pairs H.
  unfold _create_port_preprocess_security in H.
  destruct (_determine_port_security_and_has_ip port_data)
    as [psec ip] eqn:Edet.
  destruct (py_truthy psec && py_truthy is_ens_tz_port
            && negb (py_truthy _ens_psec_supported)) eqn:Eens;
    [discriminate H|].
  apply bind_ok in H as (st1 & _ & H).
  apply bind_ok in H as ([st2 pd2] & Hpairs & H).
  apply bind_ok in H as ([[[st3 pd3] sg] psg] & Hsg & H).
  apply bind_ok in H as (groups & _ & H).
  injection H as <- <- <- <- <- <-.
  fold secured in Hpairs.
  split; [done|]. split.
  { intros Ht. rewrite Ht in Eens. by apply negb_false_iff in Eens. }
  assert (Hpd2 : (is_attr_set address_pairs = true →
                  py_truthy (_determine_port_security_and_has_ip secured).1
                  = true
                  ∧ validate_pairs address_pairs = Ok tt)
                 ∧ pd2 = (if is_attr_set address_pairs then secured
                          else <[ADDRESS_PAIRS := PList []]> secured)).
  { unfold _create_port_address_pairs in Hpairs.
    destruct (_determine_port_security_and_has_ip secured) as [psec2 ip2].
    assert (Hget : dict_get secured ADDRESS_PAIRS = address_pairs)
      by (by apply dict_get_insert_ne).
    rewrite Hget in Hpairs.
    destruct (is_attr_set address_pairs).
    - destruct (py_truthy psec2) eqn:Ep; cbn [negb] in Hpairs;
        [|discriminate Hpairs].
      apply bind_ok in Hpairs as ([] & Hv & Hpairs).
      apply bind_ok in Hpairs as (st4 & _ & Hpairs).
      injection Hpairs as <- <-. done.
    - injection Hpairs as <- <-. done. }
  destruct Hpd2 as [Hpairs_ok ->]. split; [done|].
  intros Hno. rewrite Hno in Hsg.
  destruct (_check_update_has_security_groups _) eqn:Echeck;
    [discriminate Hsg|].
  cbn [orb] in Hsg.
  destruct (py_truthy (_provider_sgs_specified _)) eqn:Eprov;
    [discriminate Hsg|].
  cbn [orb] in Hsg.
  destruct (py_truthy (_get_provider_security_groups_on_port _ _));
    [discriminate Hsg|].
  injection Hsg as <- <- <- <-. repeat split; try done.
  rewrite <- Eprov. symmetry. f_equal.
  destruct (is_attr_set address_pairs); subst secured;
    by rewrite !provider_sgs_specified_insert.
Qed.

(** X25: when _update_port_preprocess_security returns: without port
    security the request has no address pairs and, unless it deletes them,
    the port has none; port security switched on by the request needs a vnic
    type that is not direct and, on an ENS port, the ENS port security
    support of the plugin; and, when validation is asked for, without both
    an IP and port security the request names no security groups and, unless
    it deletes them, the port has none. *)
Theorem updated_port_keeps_security_rules
    (st : db) (port_data : gmap string pyval) (id : string)
    (updated_port : gmap string pyval)
    (is_ens_tz_port validate_port_sec direct_vnic_type : pyval)
    (st' : db) (updated_port' : gmap string pyval) :
  let current :=
    if negb (dict_has port_data PORTSECURITY)
    then <[PORTSECURITY := _get_port_security_binding st id]> updated_port
    else updated_port in
  preprocess_update st port_data id updated_port is_ens_tz_port
    validate_port_sec direct_vnic_type = Returns (st', updated_port') →
  ∃ port_security,
    current !! PORTSECURITY = Some port_security
    ∧ (py_truthy port_security = false →
       _check_update_has_allowed_address_pairs port_data = false
       ∧ (_check_update_deletes_allowed_address_pairs port_data = false →
          py_truthy (get_allowed_address_pairs st id) = false))
    ∧ (py_truthy port_security = true →
       dict_has port_data PORTSECURITY = true →
       py_truthy direct_vnic_type = false
       ∧ (py_truthy is_ens_tz_port = true →
          py_truthy _ens_psec_supported = true))
    ∧ (py_truthy validate_port_sec = true →
       _ip_on_port current && py_truthy port_security = false →
       _check_update_has_security_groups port_data = false
       ∧ py_truthy (_provider_sgs_specified updated_port) = false
       ∧ (_check_update_deletes_security_groups port_data = false →
          ∃ st1, py_truthy (_get_port_security_group_bindings st1 id) = false
                 ∧ (_check_update_deletes_allowed_address_pairs port_data
                    || _check_update_has_allowed_address_pairs port_data
                    = false → st1 = st))).
Proof.
  intros current H. unfold _update_port_preprocess_security in H.
  fold current in H.
  destruct (dict_item current PORTSECURITY) as [psec|] eqn:Eitem;
    [|discriminate H].
  cbn [passed_on mbind outcome_bind] in H.
  exists psec. split.
  { unfold dict_item in Eitem. destruct (current !! PORTSECURITY);
      by simplify_eq. }
  match type of H with
  | (?m ≫= _) = _ => destruct m as [updated1|] eqn:Epairs; [|discriminate H]
  end.
  cbn [mbind outcome_bind] in H.
  match type of H with
  | (?m ≫= _) = _ => destruct m as [st1|] eqn:Estore; [|discriminate H]
  end.
  cbn [mbind outcome_bind] in H.
  match type of H with
  | (?m ≫= _) = _ => destruct m as [[]|] eqn:Eens; [|discriminate H]
  end.
  cbn [mbind outcome_bind] in H.
  match type of H with
  | (?m ≫= _) = _ => destruct m as [[]|] eqn:Esg; [|discriminate H]
  end.
  clear H.
  assert (Hupd1 : ∀ k, k ≠ ADDRESS_PAIRS → updated1 !! k = current !! k).
  { intros k Hk. destruct (negb (py_truthy psec)); [|by simplify_eq].
    destruct (_check_update_has_allowed_address_pairs port_data);
      [discriminate Epairs|].
    destruct (negb (_check_update_deletes_allowed_address_pairs port_data));
      [|by simplify_eq].
    destruct (py_truthy _); [discriminate Epairs|]. simplify_eq.
    by rewrite lookup_insert_ne. }
  assert (Hprov : _provider_sgs_specified updated1
                  = _provider_sgs_specified updated_port).
  { unfold _provider_sgs_specified, dict_get. rewrite Hupd1 by done.
    subst current. destruct (negb (dict_has port_data PORTSECURITY)); [|done].
    by rewrite lookup_insert_ne. }
  rewrite Hprov in Esg.
  split; [|split].
  - intros Hp. rewrite Hp in Epairs. cbn [negb] in Epairs.
    destruct (_check_update_has_allowed_address_pairs port_data);
      [discriminate Epairs|]. split; [done|]. intros Hdel.
    rewrite Hdel in Epairs. cbn [negb] in Epairs.
    rewrite dict_get_insert in Epairs.
    by destruct (py_truthy (get_allowed_address_pairs st id)).
  - intros Hp Hhas. rewrite Hp, Hhas in Eens. cbn [andb] in Eens.
    destruct (py_truthy is_ens_tz_port && negb (py_truthy _ens_psec_supported))
      eqn:Ee; [discriminate Eens|].
    destruct (py_truthy direct_vnic_type); [discriminate Eens|].
    split; [done|]. intros Ht. rewrite Ht in Ee.
    by apply negb_false_iff in Ee.
  - intros Hval Hno. rewrite Hval, Hno in Esg. cbn [negb andb] in Esg.
    destruct (_check_update_has_security_groups port_data);
      [discriminate Esg|]. cbn [orb] in Esg.
    destruct (py_truthy (_provider_sgs_specified updated_port));
      [discriminate Esg|].
    repeat split. intros Hdel. rewrite Hdel in Esg. cbn [negb] in Esg.
    exists st1. split.
    + rewrite andb_true_r in Esg.
      by destruct (py_truthy (_get_port_security_group_bindings st1 id)).
    + intros Hnone. rewrite Hnone in Estore. by simplify_eq.
Qed.

End PortSecurityRules.

(** ** Native DHCP saga: further properties *)

Section DhcpSagaRules.
Import Dhcp.
Local Open Scope nat_scope.
Local Open Scope list_scope.

Variable E : env.

Ltac saga_inv H :=
  lazymatch type of H with
  | (_ ≫= _) _ = _ =>
      let H1 := fresh "Hstep" in
      apply M_bind_inv in H as [(? & ? & H1 & H)|(? & H & ?)]
  | invoke _ _ _ _ = _ =>
      apply invoke_inv in H as [(? & ? & ?)|[? ?]]
  | backend _ _ _ _ = _ =>
      apply backend_inv in H as [(? & ? & ?)|[? [(? & ? & ?)|[? ?]]]]
  | try_catch _ _ _ _ = _ =>
      let H1 := fresh "Hbody" in
      let Hh := fresh "Hhandles" in
      apply try_catch_inv in H
        as [(? & H & ?)|[(? & H & Hh & ?)|(? & ? & H1 & Hh & H)]]
  | save_and_reraise_exception _ _ _ = _ =>
      apply save_and_reraise_inv in H as [[H ?]|(? & H & ?)]
  | log _ _ = _ => unfold log in H
  | read _ _ = _ => unfold read in H
  | raise _ _ = _ => unfold raise in H
  | mret _ _ = _ => unfold mret, M_ret in H
  end; simplify_eq; try congruence.

Ltac saga_unfold :=
  unfold _cleanup_port,
    create_port, delete_port, dhcp_server_create, dhcp_server_delete,
    logical_port_create, logical_port_delete, add_neutron_nsx_port_mapping,
    add_neutron_nsx_service_binding, delete_neutron_nsx_service_binding,
    delete_neutron_nsx_dhcp_bindings_by_service_id,
    _create_port_preprocess_security, _build_dhcp_server_config,
    _build_port_name, _add_dhcp_binding in *.

Ltac saga_norm :=
  cbn [wd trace fst snd w_ports w_port_mappings w_service_bindings
       w_dhcp_bindings w_dhcp_servers w_logical_ports set_ports
       set_port_mappings set_service_bindings set_dhcp_bindings
       set_dhcp_servers set_logical_ports] in *.

Ltac saga_run :=
  repeat (match goal with
          | H : _ = (_, _) |- _ => progress (saga_inv H)
          | H : context [if nsxlib E then _ else _] |- _ =>
              destruct (nsxlib E) eqn:?
          | H : (match ?x with Some _ => _ | None => _ end) _ = (_, _) |- _ =>
              destruct x eqn:?
          | H : (let '(_, _) := ?x in _) _ = (_, _) |- _ =>
              destruct x eqn:?
          end; saga_norm).

(** X26: _disable_native_dhcp on a network with no DhcpBinding row returns
    without any call or change, and after a run that returned normally a
    second run returns normally and leaves the state as it is. *)
Theorem disable_native_dhcp_is_idempotent (network : nat) (s s1 : state) :
  (get_nsx_service_binding (wd s) network = None →
   _disable_native_dhcp E network s = (Ok tt, s))
  ∧ (_disable_native_dhcp E network s = (Ok tt, s1) →
     _disable_native_dhcp E network s1 = (Ok tt, s1)).
Proof.
  assert (Hnone : ∀ s0, get_nsx_service_binding (wd s0) network = None →
                        _disable_native_dhcp E network s0 = (Ok tt, s0)).
  { intros s0 H0. unfold _disable_native_dhcp, mbind, M_bind, read.
    by rewrite H0. }
  split; [apply Hnone|]. intros H. apply Hnone.
  apply disable_spec in H as (_ & H & _). by apply H.
Qed.

(** X27: a run of _disable_native_dhcp that raises anywhere before its last
    call, the deletion of the DHCP bindings of the server, leaves the
    DhcpBinding rows and the per-port DHCP bindings of the store as they
    were. *)
Theorem failed_disable_keeps_binding_row (network : nat) (w : world)
    (e : exn) (s' : state) :
  run (_disable_native_dhcp E network) w = (Raise e, s') →
  (∀ server, last_raised (trace s') ≠ Some (DeleteDhcpBindings server, e)) →
  w_service_bindings (wd s') = w_service_bindings w
  ∧ w_dhcp_bindings (wd s') = w_dhcp_bindings w.
Proof.
  intros H Hlast. unfold run, _disable_native_dhcp in H.
  saga_unfold. saga_run.
  all: try done.
  all: cbn [last_raised] in Hlast; by edestruct Hlast.
Qed.


Lemma no_service_binding (w : world) (network : nat) :
  get_nsx_service_binding w network = None →
  filter (λ b, sb_network_id b = network) (w_service_bindings w) = [].
Proof.
  unfold get_nsx_service_binding. by destruct (filter _ _).
Qed.

(** Step 7 with no failure: every port gets its DHCP binding on the server
    of its network. *)
Lemma for_each_binding_binds (ports : list port) s s' :
  for_each ports (_add_dhcp_binding E) s = (Ok tt, s') →
  (∀ b, b ∈ w_dhcp_bindings (wd s) → b ∈ w_dhcp_bindings (wd s'))
  ∧ ∀ p b, p ∈ ports →
           get_nsx_service_binding (wd s) (network_id p) = Some b →
           (port_id p, sb_nsx_service_id b) ∈ w_dhcp_bindings (wd s').
Proof.
  revert s. induction ports as [|p ports IH]; intros s H; cbn [for_each] in H.
  - unfold mret, M_ret in H. simplify_eq. split; [done|].
    intros p b Hp. by apply elem_of_nil in Hp.
  - apply M_bind_inv in H as [([] & s1 & H1 & H)|(? & H & ?)]; [|done].
    unfold _add_dhcp_binding in H1.
    apply invoke_inv in H1 as [(? & ? & ?)|[_ ->]]; [done|].
    apply IH in H as [Hkeep Hbind]. cbn [wd trace fst snd] in *.
    assert (Hsb : ∀ n, get_nsx_service_binding
                         (match get_nsx_service_binding (wd s) (network_id p) with
                          | Some b => set_dhcp_bindings
                                        (cons (port_id p, sb_nsx_service_id b))
                                        (wd s)
                          | None => wd s
                          end) n = get_nsx_service_binding (wd s) n).
    { intros n. by destruct (get_nsx_service_binding (wd s) (network_id p)). }
    split.
    + intros b Hb. apply Hkeep.
      destruct (get_nsx_service_binding (wd s) (network_id p)); [|done].
      cbn. by right.
    + intros q b Hq Hb. apply elem_of_cons in Hq as [->|Hq].
      * apply Hkeep. rewrite Hb. cbn. by left.
      * apply Hbind; [done|]. by rewrite Hsb.
Qed.

(** X28: after a run of _enable_native_dhcp that returns normally the
    network has exactly one DhcpBinding row, and the backend DHCP server,
    the local DHCP port of the subnet, the port mapping and the backend
    logical port attached to the server that the row stands for are all in
    the store. *)
Theorem enable_success_leaves_one_binding (network subnet : nat) (w : world)
    (s' : state) :
  run (_enable_native_dhcp E network subnet) w = (Ok tt, s') →
  ∃ server port switch nsx_port,
    filter (λ b, sb_network_id b = network) (w_service_bindings (wd s'))
    = [ {| sb_network_id := network; sb_port_id := Some port;
           sb_nsx_service_id := server |} ]
    ∧ _get_network_nsx_id E network = Some switch
    ∧ server ∈ w_dhcp_servers (wd s')
    ∧ {| port_id := port; network_id := network;
         device_owner := DEVICE_OWNER_DHCP; subnet_ids := [subnet] |}
      ∈ w_ports (wd s')
    ∧ {| pm_neutron_id := port; pm_nsx_switch_id := switch;
         pm_nsx_port_id := nsx_port |} ∈ w_port_mappings (wd s')
    ∧ {| lp_id := nsx_port; lp_switch_id := switch;
         lp_attachment_id := server |} ∈ w_logical_ports (wd s').
Proof.
  intros H. unfold run, _enable_native_dhcp in H.
  apply M_bind_inv in H as [([] & s1 & Hdis & H)|(? & Hdis & ?)]; [|done].
  apply disable_spec in Hdis as (_ & Hnone & _).
  specialize (Hnone eq_refl). apply no_service_binding in Hnone.
  saga_unfold. saga_run.
  all: match goal with
       | H : for_each _ _ _ = _ |- _ =>
           apply for_each_binding_spec in H
             as [(Hp & Hm & Hb & Hs & Hl) _]; saga_norm
       end.
  all: eexists _, _, _, _.
  all: rewrite Hp, Hm, Hb, Hs, Hl.
  all: rewrite filter_cons_True, Hnone by reflexivity.
  all: repeat split; by left.
Qed.

(** X29: when a run of _enable_native_dhcp returns normally and no addition
    of a DHCP binding failed, every port that was on the subnet after the
    cleanup of step 1 has a DHCP binding on the new DHCP server. *)
Theorem enable_binds_existing_ports (network subnet : nat) (w : world)
    (s' : state) :
  run (_enable_native_dhcp E network subnet) w = (Ok tt, s') →
  (∀ p e, Raised (AddDhcpBinding p) e ∉ trace s') →
  ∃ s1 b,
    run (_disable_native_dhcp E network) w = (Ok tt, s1)
    ∧ get_nsx_service_binding (wd s') network = Some b
    ∧ ∀ p, p ∈ get_ports (wd s1) network subnet →
           (port_id p, sb_nsx_service_id b) ∈ w_dhcp_bindings (wd s').
Proof.
  intros H Hnofail. unfold run, _enable_native_dhcp in H.
  apply M_bind_inv in H as [([] & s1 & Hdis & H)|(? & Hdis & ?)]; [|done].
  exists s1. saga_unfold. saga_run.
  all: match goal with
       | H : for_each _ _ _ = _ |- _ =>
           pose proof H as Hspec;
           apply for_each_binding_spec in Hspec
             as [(_ & _ & Hb & _) [(Hr & _)|(p0 & e0 & tr0 & Hr & Htr)]]
       end.
  all: try discriminate Hr.
  all: try (destruct (Hnofail p0 e0); saga_norm; rewrite Htr; by right; left).
  all: match goal with
       | H : for_each _ _ _ = _ |- _ =>
           apply for_each_binding_binds in H as [_ Hbind]; saga_norm
       end.
  all: eexists; split; [done|]; split;
    [unfold get_nsx_service_binding; rewrite Hb;
     by rewrite filter_cons_True by reflexivity|].
  all: intros p Hp; apply (Hbind p); [done|].
  all: apply list_elem_of_filter in Hp as [[-> _] _].
  all: unfold get_nsx_service_binding; saga_norm.
  all: by rewrite filter_cons_True by reflexivity.
Qed.


(** Without a backend id for the network, [_enable_native_dhcp] stops
    after the cleanup of step 1: it raises [NsxPluginException] (or the
    error of the cleanup), logs the error and creates nothing. *)
Theorem enable_needs_backend_network (network subnet : nat) (w : world) :
  _get_network_nsx_id E network = None →
  let '(cleaned, s1) := run (_disable_native_dhcp E network) w in
  run (_enable_native_dhcp E network subnet) w
  = match cleaned with
    | Ok _ => (Raise NsxPluginException,
               {| wd := wd s1;
                  trace := Logged (NoBackendNetworkId network) :: trace s1 |})
    | Raise e => (Raise e, s1)
    end.
Proof.
  intros Hid. unfold run, _enable_native_dhcp.
  unfold mbind at 1, M_bind.
  destruct (_disable_native_dhcp E network _) as [[[]|e] s1]; [|done].
  unfold mbind at 1, M_bind, read. by rewrite Hid.
Qed.

(** X30: when one of steps 4 to 6 of _enable_native_dhcp fails with an
    exception that the handler of its try block does not catch, the
    exception propagates with no compensation: the network has no
    DhcpBinding row, but the local DHCP port the run created stays in the
    store. *)
Theorem uncaught_failure_is_not_compensated (network subnet : nat)
    (w : world) (r : result unit) (s' : state) (c : call) (e : exn) :
  run (_enable_native_dhcp E network subnet) w = (r, s') →
  last_raised (trace s') = Some (c, e) →
  saga_step_4_to_6 c = true →
  caught_by_handler c e = false →
  r = Raise e
  ∧ get_nsx_service_binding (wd s') network = None
  ∧ ∃ port, {| port_id := port; network_id := network;
               device_owner := DEVICE_OWNER_DHCP; subnet_ids := [subnet] |}
            ∈ w_ports (wd s').
Proof.
  intros H Hlast Hstep46 Hcaught. unfold run, _enable_native_dhcp in H.
  apply M_bind_inv in H as [([] & s1 & Hdis & H)|(? & Hdis & ?)].
  2:{ apply disable_spec in Hdis as [(evs & Hevs & Hall) _].
      rewrite Hevs in Hlast.
      destruct (last_raised_disable evs [] Hall) as [Hl|(c' & e' & Hl & Hc)];
        cbn [trace] in *; rewrite Hl in Hlast; simplify_eq. congruence. }
  pose proof Hdis as Hspec.
  apply disable_spec in Hspec as [(evs & Hevs & Hall) (Hnone & _)].
  specialize (Hnone eq_refl). cbn [trace wd] in Hevs.
  saga_unfold. saga_run.
  all: cbn [last_raised] in Hlast.
  all: try match goal with
       | H : for_each _ _ _ = _ |- _ =>
           apply for_each_binding_spec in H
             as [_ [(_ & Hl & _)|(? & ? & ? & _ & Hl)]];
           saga_norm; rewrite Hl in Hlast
       end.
  all: cbn [last_raised] in Hlast.
  all: try (rewrite Hevs in Hlast;
            destruct (last_raised_disable evs [] Hall)
              as [Hd|(c' & e' & Hd & Hc)];
            rewrite Hd in Hlast; simplify_eq; congruence).
  all: simplify_eq; try discriminate Hstep46.
  all: cbn [caught_by_handler] in Hcaught; try congruence.
  all: split; [reflexivity|]; split; [assumption|].
  all: eexists; by left.
Qed.

End DhcpSagaRules.

(** ** Sample runs *)

Section PlannerWitnesses.
Import Provider Samples.

Local Abbreviation at_sample thm :=
  (thm pnet1_ranges elements (fun _ : pyval => PStr "tz-overlay") true
       (fun _ : gmap string pyval => Ok (None : option pyval))).

Lemma plain_network_resolves_to_overlay_zone_witness :
  sample_plan [] ∅ false
  = Ok ({| is_provider_net := false; net_type := PNone;
           physical_net := PStr "tz-overlay"; vlan_id := PNone;
           switch_mode := PStr HOST_SWITCH_MODE_STANDARD |}, ∅).
Proof.
  pose proof (at_sample plain_network_resolves_to_overlay_zone []
                (PStr "pnet1") (PStr "tz-overlay") sample_zones
                sample_switches ∅ false eq_refl eq_refl eq_refl)
    as (_ & _ & H).
  exact (H (PStr HOST_SWITCH_MODE_STANDARD) eq_refl eq_refl eq_refl).
Defined.

Lemma flat_network_plan_witness :
  let nd1 : gmap string pyval :=
    {[ NETWORK_TYPE := PStr FLAT; SEGMENTATION_ID := PInt 7 ]} in
  let nd2 : gmap string pyval := {[ NETWORK_TYPE := PStr FLAT ]} in
  let r := {| is_provider_net := true; net_type := PStr FLAT;
              physical_net := PStr "pnet1"; vlan_id := PStr "0";
              switch_mode := PStr HOST_SWITCH_MODE_STANDARD |} in
  sample_plan [] nd1 false = Raise (InvalidInput (SegIdWithNetType FLAT))
  ∧ sample_plan [] nd2 false = Ok (r, nd2)
  ∧ ∃ ty, get_transport_type sample_zones (physical_net r) = Ok ty
          ∧ py_eq ty (PStr TRANSPORT_TYPE_VLAN) = true.
Proof.
  intros nd1 nd2 r.
  assert (H1 : dict_get nd1 NETWORK_TYPE = PStr FLAT)
    by (vm_compute; reflexivity).
  assert (H2 : dict_get nd2 NETWORK_TYPE = PStr FLAT)
    by (vm_compute; reflexivity).
  assert (H : sample_plan [] nd2 false = Ok (r, nd2))
    by (vm_compute; reflexivity).
  split; [|split; [exact H|]].
  - apply (proj1 (at_sample flat_network_plan [] (PStr "pnet1")
                    (PStr "tz-overlay") sample_zones sample_switches
                    nd1 false H1)).
    vm_compute; reflexivity.
  - apply (at_sample flat_network_plan [] (PStr "pnet1") (PStr "tz-overlay")
             sample_zones sample_switches nd2 false H2)
      in H as (_ & _ & _ & _ & _ & H).
    apply H. vm_compute; reflexivity.
Defined.

Lemma geneve_network_plan_witness :
  let nd1 : gmap string pyval :=
    {[ NETWORK_TYPE := PStr GENEVE; SEGMENTATION_ID := PInt 7 ]} in
  let nd2 : gmap string pyval := {[ NETWORK_TYPE := PStr GENEVE ]} in
  let r := {| is_provider_net := true; net_type := PStr GENEVE;
              physical_net := PStr "tz-overlay"; vlan_id := PNone;
              switch_mode := PStr HOST_SWITCH_MODE_STANDARD |} in
  sample_plan [] nd1 false = Raise (InvalidInput (SegIdWithNetType GENEVE))
  ∧ sample_plan [] nd2 false = Ok (r, nd2)
  ∧ ∃ ty, get_transport_type sample_zones (PStr "tz-overlay") = Ok ty
          ∧ py_eq ty (PStr TRANSPORT_TYPE_OVERLAY) = true.
Proof.
  intros nd1 nd2 r.
  assert (H1 : dict_get nd1 NETWORK_TYPE = PStr GENEVE)
    by (vm_compute; reflexivity).
  assert (H2 : dict_get nd2 NETWORK_TYPE = PStr GENEVE)
    by (vm_compute; reflexivity).
  assert (H : sample_plan [] nd2 false = Ok (r, nd2))
    by (vm_compute; reflexivity).
  split; [|split; [exact H|]].
  - apply (proj1 (at_sample geneve_network_plan [] (PStr "pnet1")
                    (PStr "tz-overlay") sample_zones sample_switches
                    nd1 false H1)).
    vm_compute; reflexivity.
  - apply (at_sample geneve_network_plan [] (PStr "pnet1")
             (PStr "tz-overlay") sample_zones sample_switches nd2 false H2)
      in H as (_ & _ & _ & _ & _ & H).
    apply H. vm_compute; reflexivity.
Defined.

Lemma nsx_network_plan_witness :
  let nd1 : gmap string pyval := {[ NETWORK_TYPE := PStr NSX_NETWORK ]} in
  let nd2 : gmap string pyval :=
    {[ NETWORK_TYPE := PStr NSX_NETWORK; PHYSICAL_NETWORK := PStr "ls-9" ]} in
  let nd3 : gmap string pyval :=
    {[ NETWORK_TYPE := PStr NSX_NETWORK; PHYSICAL_NETWORK := PStr "ls-1" ]} in
  let r := {| is_provider_net := true; net_type := PStr NSX_NETWORK;
              physical_net := PStr "ls-1"; vlan_id := PNone;
              switch_mode := PStr HOST_SWITCH_MODE_STANDARD |} in
  sample_plan [] nd1 false
  = Raise (InvalidInput (PhysicalNetRequired (PStr NSX_NETWORK)))
  ∧ sample_plan [] nd2 false
    = Raise (InvalidInput (LogicalSwitchMissing (PStr "ls-9")))
  ∧ sample_plan [] nd3 false = Ok (r, nd3)
  ∧ ∃ nsx_net, sample_switches (PStr "ls-1") = Ok nsx_net
               ∧ get_host_switch_mode sample_zones (PStr "tz-overlay")
                 = Ok (PStr HOST_SWITCH_MODE_STANDARD).
Proof.
  intros nd1 nd2 nd3 r.
  assert (H : sample_plan [] nd3 false = Ok (r, nd3))
    by (vm_compute; reflexivity).
  split; [|split; [|split; [exact H|]]].
  - apply (proj1 (at_sample nsx_network_plan [] (PStr "pnet1")
                    (PStr "tz-overlay") sample_zones sample_switches
                    nd1 false ltac:(vm_compute; reflexivity)
                    ltac:(vm_compute; reflexivity))).
    vm_compute; reflexivity.
  - apply (proj1 (proj2 (at_sample nsx_network_plan [] (PStr "pnet1")
                           (PStr "tz-overlay") sample_zones sample_switches
                           nd2 false ltac:(vm_compute; reflexivity)
                           ltac:(vm_compute; reflexivity))));
      vm_compute; reflexivity.
  - apply (at_sample nsx_network_plan [] (PStr "pnet1") (PStr "tz-overlay")
             sample_zones sample_switches nd3 false
             ltac:(vm_compute; reflexivity) ltac:(vm_compute; reflexivity))
      in H as (_ & _ & Hs & _).
    exact Hs.
Defined.

Lemma provider_attributes_need_supported_type_witness :
  let nd1 : gmap string pyval := {[ PHYSICAL_NETWORK := PStr "pnet1" ]} in
  let nd2 : gmap string pyval := {[ NETWORK_TYPE := PStr "gre" ]} in
  sample_plan [] nd1 false = Raise (InvalidInput NetTypeRequired)
  ∧ sample_plan [] nd2 false
    = Raise (InvalidInput (NetTypeNotSupported (PStr "gre"))).
Proof.
  intros nd1 nd2. split.
  - apply (proj1 (at_sample provider_attributes_need_supported_type []
                    (PStr "pnet1") (PStr "tz-overlay") sample_zones
                    sample_switches nd1 false
                    ltac:(vm_compute; reflexivity)));
      [vm_compute; reflexivity|left; vm_compute; reflexivity].
  - apply (proj2 (at_sample provider_attributes_need_supported_type []
                    (PStr "pnet1") (PStr "tz-overlay") sample_zones
                    sample_switches nd2 false
                    ltac:(vm_compute; reflexivity)));
      [vm_compute; reflexivity|].
    intros Hin. vm_compute in Hin.
    repeat (apply elem_of_cons in Hin as [Hin|Hin]; [discriminate Hin|]).
    by apply elem_of_nil in Hin.
Defined.

Lemma accepted_provider_network_matches_transport_zone_witness :
  let nd : gmap string pyval :=
    {[ NETWORK_TYPE := PStr GENEVE; PHYSICAL_NETWORK := PStr "tz-ens" ]} in
  let r := {| is_provider_net := true; net_type := PStr GENEVE;
              physical_net := PStr "tz-ens"; vlan_id := PNone;
              switch_mode := PStr HOST_SWITCH_MODE_ENS |} in
  sample_plan [] nd false = Ok (r, nd)
  ∧ ∃ ty, get_transport_type sample_zones (PStr "tz-ens") = Ok ty
          ∧ py_eq ty (PStr TRANSPORT_TYPE_OVERLAY) = true
          ∧ get_host_switch_mode sample_zones (PStr "tz-ens")
            = Ok (PStr HOST_SWITCH_MODE_ENS).
Proof.
  intros nd r.
  assert (H : sample_plan [] nd false = Ok (r, nd))
    by (vm_compute; reflexivity).
  split; [exact H|].
  destruct (at_sample accepted_provider_network_matches_transport_zone []
              (PStr "pnet1") (PStr "tz-overlay") sample_zones sample_switches
              nd false r nd H ltac:(vm_compute; reflexivity)) as [_ Hz].
  apply Hz; [discriminate|vm_compute; reflexivity].
Defined.

Lemma ens_network_is_checked_witness :
  let nd : gmap string pyval :=
    {[ NETWORK_TYPE := PStr GENEVE; PHYSICAL_NETWORK := PStr "tz-ens" ]} in
  let r := {| is_provider_net := true; net_type := PStr GENEVE;
              physical_net := PStr "tz-ens"; vlan_id := PNone;
              switch_mode := PStr HOST_SWITCH_MODE_ENS |} in
  sample_plan [] nd false = Ok (r, nd)
  ∧ is_attr_set (dict_get nd QOS_POLICY_ID) = false.
Proof.
  intros nd r.
  assert (H : sample_plan [] nd false = Ok (r, nd))
    by (vm_compute; reflexivity).
  split; [exact H|].
  pose proof (at_sample ens_network_is_checked [] (PStr "pnet1")
                (PStr "tz-overlay") sample_zones sample_switches nd false
                r nd H) as Hens.
  assert (Hmode : py_eq (switch_mode r) (PStr HOST_SWITCH_MODE_ENS) = true)
    by (vm_compute; reflexivity).
  rewrite Hmode in Hens. exact (proj1 (proj2 Hens)).
Defined.

Lemma accepted_vlan_plan_has_free_tag_witness :
  let nd : gmap string pyval := {[ NETWORK_TYPE := PStr VLAN ]} in
  let nd' : gmap string pyval :=
    {[ NETWORK_TYPE := PStr VLAN; SEGMENTATION_ID := PInt 101 ]} in
  let session := [pnet1_binding "net-a" 100] in
  let r := {| is_provider_net := true; net_type := PStr VLAN;
              physical_net := PStr "pnet1"; vlan_id := PInt 101;
              switch_mode := PStr HOST_SWITCH_MODE_STANDARD |} in
  sample_plan session nd false = Ok (r, nd')
  ∧ ∃ z, vlan_id r = PInt z
         ∧ ¬ bound_on session (PStr "pnet1") z
         ∧ in_configured_ranges pnet1_ranges (PStr "pnet1") z.
Proof.
  intros nd nd' session r.
  assert (H : sample_plan session nd false = Ok (r, nd'))
    by (vm_compute; reflexivity).
  assert (Hty : dict_get nd NETWORK_TYPE = PStr VLAN)
    by (vm_compute; reflexivity).
  split; [exact H|].
  destruct (at_sample accepted_vlan_plan_has_free_tag session (PStr "pnet1")
              (PStr "tz-overlay") sample_zones sample_switches
              (fun X x => elem_of_elements X x) nd r nd' Hty H)
    as (z & _ & Hfree & _ & Hz).
  match type of Hz with
  | if ?requested then _ else _ =>
      assert (Hseg : requested = false) by (vm_compute; reflexivity);
      rewrite Hseg in Hz
  end.
  destruct Hz as (Hv & Hin & _).
  assert (Hp : requested_physical_net nd (PStr "pnet1") = PStr "pnet1")
    by (vm_compute; reflexivity).
  rewrite Hp in Hfree, Hin.
  exists z. split; [exact Hv|]. split; [exact Hfree|exact Hin].
Defined.

(** The tag is looked up on the physical network the request resolves
    to, before the plan falls back to the default overlay transport zone:
    with no default VLAN transport zone, a request for tag 100 with no
    physical network is accepted on the zone "tz-x" although the store
    holds a binding of tag 100 on "tz-x". *)
Example vlan_tag_is_not_checked_on_fallback_zone :
  let session :=
    [ {| b_network_id := "net-a"; b_binding_type := VLAN;
         b_phy_uuid := Some "tz-x"; b_vlan_id := Some 100 |} ] in
  let nd : gmap string pyval :=
    {[ NETWORK_TYPE := PStr VLAN; SEGMENTATION_ID := PInt 100 ]} in
  _validate_provider_create pnet1_ranges elements (fun _ => PNone) false
    (fun _ => Ok None) session nd PNone (PStr "tz-x") vlan_standard_tz
    (fun _ => Raise ResourceNotFound) false
  = Ok ({| is_provider_net := true; net_type := PStr VLAN;
           physical_net := PStr "tz-x"; vlan_id := PInt 100;
           switch_mode := PStr HOST_SWITCH_MODE_STANDARD |}, nd)
  ∧ bound_on session (PStr "tz-x") 100.
Proof.
  intros session nd. split; [vm_compute; reflexivity|].
  eexists. split; [left|]. split; reflexivity.
Qed.

End PlannerWitnesses.

Section PortValidationWitnesses.
Import Port.

Lemma qos_policy_needs_plain_port_on_internal_network_witness :
  let port_data : gmap string pyval :=
    {[ "network_id" := PStr "net-1"; "device_owner" := PStr "compute:nova";
       QOS_POLICY_ID := PStr "policy-1" ]} in
  sample_validate_create_port port_data = Ok tt
  ∧ dict_get port_data "device_owner"
    ∉ [PStr DEVICE_OWNER_ROUTER_INTF; PStr DEVICE_OWNER_DHCP].
Proof.
  intros port_data.
  assert (H : sample_validate_create_port port_data = Ok tt)
    by (vm_compute; reflexivity).
  split; [exact H|].
  assert (Hqos : is_attr_set (dict_get port_data QOS_POLICY_ID) = true)
    by (vm_compute; reflexivity).
  exact (proj2 (proj1 (qos_policy_needs_plain_port_on_internal_network
                         neutron_is_port_trusted (fun _ => false)
                         (fun _ => Ok tt) (fun _ _ => Ok tt) "vpnservice"
                         "port-1" ∅ port_data Hqos) H)).
Defined.

Lemma device_owner_change_is_restricted_witness :
  let original_port : gmap string pyval :=
    {[ "network_id" := PStr "net-1";
       "device_owner" := PStr "compute:nova" ]} in
  let port_data : gmap string pyval :=
    {[ "device_owner" := PStr "compute:other" ]} in
  sample_validate_update_port original_port port_data = Ok tt
  ∧ dict_get original_port "device_owner" ≠ PStr DEVICE_OWNER_DHCP.
Proof.
  intros original_port port_data.
  assert (H : sample_validate_update_port original_port port_data = Ok tt)
    by (vm_compute; reflexivity).
  split; [exact H|].
  assert (Hnew : port_data !! "device_owner" = Some (PStr "compute:other"))
    by (vm_compute; reflexivity).
  assert (Hne : py_eq (PStr "compute:other")
                      (dict_get original_port "device_owner") = false)
    by (vm_compute; reflexivity).
  exact (proj1 (device_owner_change_is_restricted
                  neutron_is_port_trusted (fun _ => false) (fun _ => Ok tt)
                  (fun _ _ => Ok tt) "vpnservice" "port-1" original_port
                  port_data (PStr "compute:other") H Hnew Hne)).
Defined.

Lemma load_balancer_port_update_is_restricted_witness :
  let original_port : gmap string pyval :=
    {[ "network_id" := PStr "net-1";
       "device_owner" := PStr DEVICE_OWNER_LOADBALANCERV2 ]} in
  let port_data : gmap string pyval := {[ "name" := PStr "lb" ]} in
  sample_validate_update_port original_port port_data = Ok tt
  ∧ py_truthy (dict_get port_data "fixed_ips") = false
  ∧ py_truthy (dict_get port_data ADDRESS_PAIRS) = false.
Proof.
  intros original_port port_data.
  assert (H : sample_validate_update_port original_port port_data = Ok tt)
    by (vm_compute; reflexivity).
  split; [exact H|].
  assert (Hlb : dict_get original_port "device_owner"
                = PStr DEVICE_OWNER_LOADBALANCERV2)
    by (vm_compute; reflexivity).
  exact (load_balancer_port_update_is_restricted
           neutron_is_port_trusted (fun _ => false) (fun _ => Ok tt)
           (fun _ _ => Ok tt) "vpnservice" "port-1" original_port
           port_data H Hlb).
Defined.

End PortValidationWitnesses.

Section SecurityGroupRuleWitnesses.
Import Port SecurityGroupRule.

Lemma fix_sg_rule_dict_ips_clears_any_prefix_witness :
  let sg_rule : gmap string pyval :=
    {[ REMOTE_IP_PREFIX := PStr "0.0.0.0/0"; "direction" := PStr "ingress" ]} in
  let fixed : gmap string pyval :=
    {[ REMOTE_IP_PREFIX := PNone; "direction" := PStr "ingress" ]} in
  _fix_sg_rule_dict_ips sg_rule = Ok fixed
  ∧ _fix_sg_rule_dict_ips fixed = Ok fixed.
Proof.
  intros sg_rule fixed.
  assert (H : _fix_sg_rule_dict_ips sg_rule = Ok fixed)
    by (vm_compute; reflexivity).
  split; [exact H|].
  exact (proj2 (proj2 (fix_sg_rule_dict_ips_clears_any_prefix sg_rule fixed
                         H))).
Defined.

End SecurityGroupRuleWitnesses.

Section SubnetWitnesses.
Import Dhcp Outcome Subnet Samples.
Local Open Scope nat_scope.

Lemma sample_store_one_dhcp_enabled (network : nat) :
  length (filter (fun subnet => enable_dhcp subnet = true
                                ∧ sn_network_id subnet = network)
                 (subnets sample_store)) ≤ 1.
Proof.
  cbn [subnets sample_store]. rewrite filter_cons, filter_nil.
  case_decide; cbn [length]; lia.
Qed.

Lemma second_dhcp_enabled_subnet_is_rejected_witness :
  (_create_subnet (sample_env no_faults) sample_collaborators
     {| rq_network_id := 7; rq_enable_dhcp := true |} sample_store).1
  = Raises (InvalidInputError (MultipleDhcpSubnets 7)).
Proof.
  rewrite (second_dhcp_enabled_subnet_is_rejected (sample_env no_faults)
             sample_collaborators
             {| rq_network_id := 7; rq_enable_dhcp := true |} sample_store
             dhcp_subnet);
    [reflexivity|reflexivity|reflexivity|reflexivity|reflexivity
    |vm_compute; reflexivity|by left|reflexivity|reflexivity].
Defined.

Lemma create_subnet_keeps_one_dhcp_enabled_subnet_witness :
  let out := _create_subnet (sample_env no_faults) sample_collaborators
               {| rq_network_id := 8; rq_enable_dhcp := true |}
               sample_store in
  length (subnets out.2) = 2
  ∧ ∀ network,
      length (filter (fun subnet => enable_dhcp subnet = true
                                    ∧ sn_network_id subnet = network)
                     (subnets out.2)) ≤ 1.
Proof.
  intros out. split; [vm_compute; reflexivity|].
  exact (create_subnet_keeps_one_dhcp_enabled_subnet (sample_env no_faults)
           sample_collaborators
           {| rq_network_id := 8; rq_enable_dhcp := true |} sample_store
           out.1 out.2 eq_refl (surjective_pairing out)
           sample_store_one_dhcp_enabled).
Defined.

Lemma delete_subnet_goes_on_when_disable_fails_witness :
  let E := sample_env dhcp_server_delete_fails in
  let out := delete_subnet E sample_collaborators 3 sample_store in
  _disable_native_dhcp E 7 (dhcp sample_store)
  = (Raise ManagerError, dhcp out.2)
  ∧ out.1 = Returns tt
  ∧ subnets out.2 = []
  ∧ errors out.2 = [FailedToDisableNativeDhcp 7 (Propagated ManagerError)].
Proof.
  intros E out.
  assert (H : _disable_native_dhcp E 7 (dhcp sample_store)
              = (Raise ManagerError, dhcp out.2))
    by (vm_compute; reflexivity).
  split; [exact H|].
  unfold out.
  rewrite (delete_subnet_goes_on_when_disable_fails E sample_collaborators
             3 sample_store dhcp_subnet ManagerError (dhcp out.2));
    [|reflexivity|reflexivity|vm_compute; reflexivity|reflexivity
     |vm_compute; reflexivity|exact H|reflexivity].
  split; [reflexivity|]. split; vm_compute; reflexivity.
Defined.

Lemma delete_subnet_disables_dhcp_with_last_subnet_only_witness :
  let out := delete_subnet (sample_env no_faults) sample_collaborators 3
               sample_store in
  out.1 = Returns tt
  ∧ (subnets out.2 = subnets sample_store
     ∨ subnets out.2
       = filter (λ subnet, subnet_id subnet ≠ 3) (subnets sample_store)).
Proof.
  intros out. split; [vm_compute; reflexivity|].
  exact (proj1 (delete_subnet_disables_dhcp_with_last_subnet_only
                  (sample_env no_faults) sample_collaborators 3 sample_store
                  out.1 out.2 (surjective_pairing out))).
Defined.

End SubnetWitnesses.

Section PortSecurityWitnesses.
Import Port Outcome PortSecurity Samples.

Lemma created_port_keeps_security_rules_witness :
  let port_data : gmap string pyval := {[ PORTSECURITY := PBool false ]} in
  let port_data' : gmap string pyval :=
    {[ PORTSECURITY := PBool false; ADDRESS_PAIRS := PList [];
       SECURITYGROUPS := PNone ]} in
  sample_preprocess_create port_data
  = Ok (tt, port_data', (PBool false, false, [], []))
  ∧ py_truthy (_provider_sgs_specified port_data) = false.
Proof.
  intros port_data port_data'.
  assert (H : sample_preprocess_create port_data
              = Ok (tt, port_data', (PBool false, false, [], [])))
    by (vm_compute; reflexivity).
  split; [exact H|].
  pose proof H as Hrules. unfold sample_preprocess_create in Hrules.
  apply created_port_keeps_security_rules in Hrules as (_ & _ & _ & Hs).
  exact (proj1 (proj2 (proj2 (Hs eq_refl)))).
Defined.

Lemma updated_port_keeps_security_rules_witness :
  let port_data : gmap string pyval := {[ PORTSECURITY := PBool false ]} in
  let updated_port : gmap string pyval :=
    {[ PORTSECURITY := PBool true; "fixed_ips" := PList [AStr "10.0.0.5"];
       SECURITYGROUPS := PList [AStr "sg-1"] ]} in
  let updated_port' : gmap string pyval :=
    {[ PORTSECURITY := PBool false; "fixed_ips" := PList [AStr "10.0.0.5"];
       SECURITYGROUPS := PList [AStr "sg-1"] ]} in
  sample_preprocess_update port_data updated_port
  = Returns (tt, updated_port')
  ∧ ∃ port_security, updated_port !! PORTSECURITY = Some port_security.
Proof.
  intros port_data updated_port updated_port'.
  assert (H : sample_preprocess_update port_data updated_port
              = Returns (tt, updated_port'))
    by (vm_compute; reflexivity).
  split; [exact H|].
  pose proof H as Hrules. unfold sample_preprocess_update in Hrules.
  apply updated_port_keeps_security_rules
    in Hrules as (port_security & Hp & _).
  assert (Hhas : dict_has port_data PORTSECURITY = true)
    by (vm_compute; reflexivity).
  rewrite Hhas in Hp.
  exists port_security. exact Hp.
Defined.

End PortSecurityWitnesses.

Section DhcpSagaWitnesses.
Import Dhcp Samples.
Local Open Scope nat_scope.

Lemma failed_disable_keeps_binding_row_witness :
  let out := run (_disable_native_dhcp (sample_env dhcp_server_delete_fails)
                                       7) enabled_world in
  out.1 = Raise ManagerError
  ∧ w_service_bindings (wd out.2) = w_service_bindings enabled_world
  ∧ w_dhcp_bindings (wd out.2) = w_dhcp_bindings enabled_world.
Proof.
  intros out. split; [vm_compute; reflexivity|].
  apply (failed_disable_keeps_binding_row
           (sample_env dhcp_server_delete_fails) 7 enabled_world
           ManagerError out.2).
  - vm_compute. reflexivity.
  - intros server. vm_compute. discriminate.
Defined.

Lemma enable_success_leaves_one_binding_witness :
  let out := run (_enable_native_dhcp (sample_env no_faults) 7 3)
                 sample_world in
  out.1 = Ok tt
  ∧ ∃ server port,
      filter (λ b, sb_network_id b = 7) (w_service_bindings (wd out.2))
      = [ {| sb_network_id := 7; sb_port_id := Some port;
             sb_nsx_service_id := server |} ]
      ∧ server ∈ w_dhcp_servers (wd out.2).
Proof.
  intros out. split; [vm_compute; reflexivity|].
  destruct (enable_success_leaves_one_binding (sample_env no_faults) 7 3
              sample_world out.2)
    as (server & port & _ & _ & Hb & _ & Hs & _);
    [vm_compute; reflexivity|].
  exists server, port. split; [exact Hb|exact Hs].
Defined.

Lemma enable_binds_existing_ports_witness :
  let out := run (_enable_native_dhcp (sample_env no_faults) 7 3)
                 sample_world in
  out.1 = Ok tt
  ∧ ∃ s1 b, run (_disable_native_dhcp (sample_env no_faults) 7) sample_world
            = (Ok tt, s1)
            ∧ get_nsx_service_binding (wd out.2) 7 = Some b
            ∧ ∀ p, p ∈ get_ports (wd s1) 7 3 →
                   (port_id p, sb_nsx_service_id b)
                   ∈ w_dhcp_bindings (wd out.2).
Proof.
  intros out. split; [vm_compute; reflexivity|].
  apply (enable_binds_existing_ports (sample_env no_faults) 7 3
           sample_world out.2).
  - vm_compute. reflexivity.
  - intros p e Hin. vm_compute in Hin.
    repeat (apply elem_of_cons in Hin as [Hin|Hin]; [discriminate Hin|]).
    by apply elem_of_nil in Hin.
Defined.

Lemma uncaught_failure_is_not_compensated_witness :
  let out := run (_enable_native_dhcp (sample_env logical_port_create_breaks)
                                      7 3) sample_world in
  out.1 = Raise TypeError
  ∧ get_nsx_service_binding (wd out.2) 7 = None
  ∧ ∃ port, {| port_id := port; network_id := 7;
               device_owner := DEVICE_OWNER_DHCP; subnet_ids := [3] |}
            ∈ w_ports (wd out.2).
Proof.
  apply (uncaught_failure_is_not_compensated
           (sample_env logical_port_create_breaks) 7 3 sample_world _ _
           (LogicalPortCreate 107 1) TypeError).
  - apply surjective_pairing.
  - vm_compute. reflexivity.
  - reflexivity.
  - reflexivity.
Defined.

End DhcpSagaWitnesses.
